(** * Protocol pipeline of the MCP server: a shallow embedding and its properties

    The Python sources under [mcp_server/app] are embedded function by
    function.  Every definition carries the name of the Python function it
    translates.  Conventions of the embedding:

    - a Python exception is a value of [exn]; a computation that may raise
      returns [res A];
    - JSON-like Python objects are values of [value]; a [dict] with string
      keys is a [gmap string value];
    - a Python [float] is the rational it denotes, an infinity or NaN
      ([pyfloat]); comparisons follow IEEE 754 (every comparison with NaN
      is false).  Rounding and overflow are not modelled: the arithmetic
      on rationals is exact;
    - collaborators that live outside the repository (the LLM endpoint, the
      [json] module, the clock) are section variables, so every theorem
      holds for all of their behaviours. *)

From Stdlib Require Import ZArith QArith String Ascii List Permutation Sorted.
From stdpp Require Import base option gmap strings pretty.
Import ListNotations.

Set Warnings "-register-all".
#[local] Open Scope string_scope.
#[local] Open Scope Z_scope.
#[local] Open Scope list_scope.

(** ** Python values, exceptions and the operations the sources use *)

Module Py.

Inductive exn : Type :=
| TypeError
| KeyError
| IndexError
| AttributeError
| NameError
| ValueError
| ZeroDivisionError
| JSONDecodeError
| BackendError (msg : string).

Inductive res (A : Type) : Type :=
| Ok (a : A)
| Raise (e : exn).

Arguments Ok {A} a.
Arguments Raise {A} e.

(** Sequencing: an exception raised by [m] skips the continuation. *)
Definition bind {A B : Type} (m : res A) (k : A -> res B) : res B :=
  match m with
  | Ok a => k a
  | Raise e => Raise e
  end.

Declare Scope py_scope.
Delimit Scope py_scope with py.
Notation "x <- m ;; k" := (bind m (fun x => k))
  (at level 100, m at next level, right associativity) : py_scope.
#[local] Open Scope py_scope.

(** [try: body except Exception as e: handler e] *)
Definition try_except {A : Type} (body : res A) (handler : exn -> res A) : res A :=
  match body with
  | Ok a => Ok a
  | Raise e => handler e
  end.

(** A Python float: a rational, [inf] or [-inf], or NaN. *)
Inductive pyfloat : Type :=
| Finite (q : Q)
| Inf (positive : bool)
| NaN.

Coercion Finite : Q >-> pyfloat.

Definition Qlt_bool (a b : Q) : bool := negb (Qle_bool b a).

(** [a < b] and [a <= b]: false as soon as an operand is NaN. *)
Definition float_lt (a b : pyfloat) : bool :=
  match a, b with
  | Finite x, Finite y => Qlt_bool x y
  | Finite _, Inf positive => positive
  | Inf positive, Finite _ => negb positive
  | Inf p, Inf p' => negb p && p'
  | _, _ => false
  end.

Definition float_le (a b : pyfloat) : bool :=
  match a, b with
  | Finite x, Finite y => Qle_bool x y
  | Finite _, Inf positive => positive
  | Inf positive, Finite _ => negb positive
  | Inf p, Inf p' => negb p || p'
  | _, _ => false
  end.

Definition is_nan (a : pyfloat) : bool :=
  match a with NaN => true | _ => false end.

(** [a + b], [a * n] for an integer [n], and [a / n] for an integer [n]
    other than 0. *)
Definition float_add (a b : pyfloat) : pyfloat :=
  match a, b with
  | Finite x, Finite y => Finite (x + y)
  | Finite _, Inf p | Inf p, Finite _ => Inf p
  | Inf p, Inf p' => if Bool.eqb p p' then Inf p else NaN
  | _, _ => NaN
  end.

Definition float_mul (a : pyfloat) (n : Z) : pyfloat :=
  match a with
  | Finite x => Finite (x * inject_Z n)
  | Inf p => if n =? 0 then NaN else Inf (if 0 <? n then p else negb p)
  | NaN => NaN
  end.

Definition float_div (a : pyfloat) (n : Z) : pyfloat :=
  match a with
  | Finite x => Finite (x / inject_Z n)
  | Inf p => Inf (if 0 <? n then p else negb p)
  | NaN => NaN
  end.

Inductive value : Type :=
| VNone
| VBool (b : bool)
| VInt (z : Z)
| VFloat (x : pyfloat)
| VStr (s : string)
| VList (l : list value)
| VDict (d : gmap string value).

Abbreviation dict := (gmap string value).

(** [bool(v)] *)
Definition truthy (v : value) : bool :=
  match v with
  | VNone => false
  | VBool b => b
  | VInt z => negb (z =? 0)
  | VFloat (Finite q) => negb (Qeq_bool q 0)
  | VFloat _ => true
  | VStr s => negb (String.eqb s EmptyString)
  | VList l => match l with [] => false | _ :: _ => true end
  | VDict d => match map_to_list d with [] => false | _ :: _ => true end
  end.

(** [d.get(k, dflt)] and [d.get(k)] *)
Definition get_or (d : dict) (k : string) (dflt : value) : value :=
  default dflt (d !! k).

Definition get (d : dict) (k : string) : value := get_or d k VNone.

(** [v.get(k, dflt)] on an arbitrary object: only a dict has the method. *)
Definition obj_get (v : value) (k : string) (dflt : value) : res value :=
  match v with
  | VDict d => Ok (get_or d k dflt)
  | _ => Raise AttributeError
  end.

(** The number a value is in an arithmetic comparison: a [bool], an
    [int] or a [float]. *)
Definition number_of (v : value) : option pyfloat :=
  match v with
  | VBool b => Some (Finite (if b then 1%Q else 0%Q))
  | VInt z => Some (Finite (inject_Z z))
  | VFloat x => Some x
  | _ => None
  end.

(** The rational a value denotes: a number other than an infinity and
    NaN. *)
Definition num (v : value) : option Q :=
  match v with
  | VBool b => Some (if b then 1%Q else 0%Q)
  | VInt z => Some (inject_Z z)
  | VFloat (Finite q) => Some q
  | _ => None
  end.

(** [a >= b] and [a < b] with a number on the left; a right operand that
    is not a number raises [TypeError]. *)
Definition ge (a : pyfloat) (b : value) : res bool :=
  match number_of b with
  | Some y => Ok (float_le y a)
  | None => Raise TypeError
  end.

Definition lt (a : pyfloat) (b : value) : res bool :=
  match number_of b with
  | Some y => Ok (float_lt a y)
  | None => Raise TypeError
  end.

(** Comparisons between two objects: both must be numbers. *)
Definition cmp (op : pyfloat -> pyfloat -> bool) (a b : value) : res bool :=
  match number_of a, number_of b with
  | Some x, Some y => Ok (op x y)
  | _, _ => Raise TypeError
  end.

(** [max(a, b)] keeps [a] unless [b > a]; [min(a, b)] keeps [a] unless
    [b < a]. *)
Definition max2 (a b : value) : res value :=
  gt <- cmp (fun x y => float_lt y x) b a ;; Ok (if gt then b else a).

Definition min2 (a b : value) : res value :=
  lt <- cmp float_lt b a ;; Ok (if lt then b else a).

Definition float_max2 (a b : pyfloat) : pyfloat := if float_lt a b then b else a.

(** Substring test [needle in haystack] on strings. *)
Fixpoint is_prefix (p s : string) : bool :=
  match p, s with
  | EmptyString, _ => true
  | String a p', String b s' => Ascii.eqb a b && is_prefix p' s'
  | String _ _, EmptyString => false
  end.

Fixpoint contains (needle haystack : string) : bool :=
  is_prefix needle haystack ||
  match haystack with
  | EmptyString => false
  | String _ h' => contains needle h'
  end.

Definition is_str (k : string) (v : value) : bool :=
  match v with VStr s => String.eqb s k | _ => false end.

(** [k in v] for a string [k]: key of a dict, element of a list,
    substring of a string; other objects are not containers. *)
Definition str_in (k : string) (v : value) : res bool :=
  match v with
  | VDict d => Ok (bool_decide (is_Some (d !! k)))
  | VList l => Ok (existsb (is_str k) l)
  | VStr s => Ok (contains k s)
  | _ => Raise TypeError
  end.

(** Number of characters; the model counts bytes, which agrees with
    Python on ASCII text. *)
Definition str_len (s : string) : Z := Z.of_nat (String.length s).

(** [len(v)] *)
Definition len (v : value) : res Z :=
  match v with
  | VStr s => Ok (str_len s)
  | VList l => Ok (Z.of_nat (length l))
  | VDict d => Ok (Z.of_nat (size d))
  | _ => Raise TypeError
  end.

(** [v[0]] *)
Definition item0 (v : value) : res value :=
  match v with
  | VList (x :: _) => Ok x
  | VList [] => Raise IndexError
  | VStr (String a _) => Ok (VStr (String a EmptyString))
  | VStr EmptyString => Raise IndexError
  | VDict _ => Raise KeyError
  | _ => Raise TypeError
  end.

(** [v[k]] for a string [k] *)
Definition item (v : value) (k : string) : res value :=
  match v with
  | VDict d => match d !! k with Some x => Ok x | None => Raise KeyError end
  | _ => Raise TypeError
  end.

Fixpoint chars (s : string) : list value :=
  match s with
  | EmptyString => []
  | String a s' => VStr (String a EmptyString) :: chars s'
  end.

(** The elements [for x in v] visits.  A dict yields its keys; Python
    visits them in insertion order, the model in the order of the map. *)
Definition iter (v : value) : res (list value) :=
  match v with
  | VList l => Ok l
  | VStr s => Ok (chars s)
  | VDict d => Ok (map (fun kv => VStr (fst kv)) (map_to_list d))
  | _ => Raise TypeError
  end.

(** The newline character. *)
Definition nl : string := String (ascii_of_nat 10) EmptyString.

Fixpoint join (sep : string) (l : list string) : string :=
  match l with
  | [] => EmptyString
  | [x] => x
  | x :: rest => (x ++ sep ++ join sep rest)%string
  end.

Fixpoint all_str (l : list value) : res (list string) :=
  match l with
  | [] => Ok []
  | VStr s :: rest => ss <- all_str rest ;; Ok (s :: ss)
  | _ :: _ => Raise TypeError
  end.

(** [sep.join(v)]: every element must be a string. *)
Definition str_join (sep : string) (v : value) : res string :=
  xs <- iter v ;; ss <- all_str xs ;; Ok (join sep ss).

(** [s.split(sep)] for a non-empty separator: [skip] counts the
    characters of a separator occurrence still to be passed over, [cur] is
    the piece being read. *)
Fixpoint split_from (sep : string) (skip : nat) (cur s : string) : list string :=
  match s with
  | EmptyString => [cur]
  | String a s' =>
      match skip with
      | S n => split_from sep n cur s'
      | O =>
          if is_prefix sep s
          then cur :: split_from sep (String.length sep - 1) EmptyString s'
          else split_from sep O (cur ++ String a EmptyString)%string s'
      end
  end.

Definition split (sep s : string) : list string := split_from sep O EmptyString s.

(** [v == s] for a string literal [s]. *)
Definition eq_str (v : value) (s : string) : bool := is_str s v.

(** [s.lower()] on ASCII text: the letters [A] to [Z] are folded, every
    other character is kept ([str.lower] folds letters outside ASCII as
    well; the names the program looks for are ASCII). *)
Definition lower_ascii (a : ascii) : ascii :=
  let n := nat_of_ascii a in
  if (Nat.leb 65 n && Nat.leb n 90)%bool then ascii_of_nat (n + 32) else a.

Fixpoint lower (s : string) : string :=
  match s with
  | EmptyString => EmptyString
  | String a s' => String (lower_ascii a) (lower s')
  end.

(** A stand-in for [str(v)] in the scenarios below: exact on strings. *)
Definition plain_str (v : value) : string :=
  match v with VStr s => s | _ => EmptyString end.

End Py.

Import Py.
#[local] Open Scope py_scope.

(** ** protocols/knowledge.py: KnowledgeAccessProtocol *)

Module Knowledge.

(** One entry of [relevant_info]: [{"content", "score", "source"}]; the
    score is a number. *)
Record info : Type := Info {
  content : string;
  score : pyfloat;
  source : string
}.

(** The knowledge context [{"relevant_info", "sources", "confidence"}]. *)
Record KnowledgeContext : Type := {
  relevant_info : list info;
  sources : list string;
  confidence : pyfloat
}.

Definition empty_context : KnowledgeContext :=
  {| relevant_info := []; sources := []; confidence := 0%Q |}.

(** A hit of the vector store and a hit of the external search provider,
    as [_perform_vector_search] and [_perform_external_search] read them. *)
Record vector_result : Type := {
  vr_content : string;
  vr_score : pyfloat;
  vr_metadata_source : option string
}.

Record search_result : Type := {
  sr_content : string;
  sr_score : option pyfloat;
  sr_source : string
}.

(** Calls made to the two search collaborators, in program order. *)
Inductive call : Type :=
| VectorSearch (query : string) (limit threshold : value)
| ExternalSearch (query : string) (limit : value).

(** [_should_perform_external_search] *)
Definition _should_perform_external_search
  (knowledge_context : KnowledgeContext) (context : dict) : res bool :=
  if truthy (get_or context "always_search_external" (VBool false)) then Ok true
  else
    enough <- ge (confidence knowledge_context)
                 (get_or context "sufficient_confidence" (VFloat (85 # 100))) ;;
    if enough then Ok false
    else
      few <- lt (inject_Z (Z.of_nat (length (relevant_info knowledge_context))))
                (get_or context "min_relevant_info" (VInt 2)) ;;
      if few then Ok true
      else Ok true.

(** The insertion-ordered dict [unique_info] of [_deduplicate_and_rank]:
    keys are contents, in order of first insertion. *)
Fixpoint lookup_content (c : string) (d : list (string * info)) : option info :=
  match d with
  | [] => None
  | (k, v) :: d' => if String.eqb k c then Some v else lookup_content c d'
  end.

(** [unique_info[c] = i]: an existing key keeps its position. *)
Fixpoint assign (c : string) (i : info) (d : list (string * info))
  : list (string * info) :=
  match d with
  | [] => [(c, i)]
  | (k, v) :: d' => if String.eqb k c then (k, i) :: d' else (k, v) :: assign c i d'
  end.

(** Body of the loop [for info in relevant_info]. *)
Definition dedup_step (unique_info : list (string * info)) (i : info)
  : list (string * info) :=
  match lookup_content (content i) unique_info with
  | None => assign (content i) i unique_info
  | Some kept =>
      if float_lt (score kept) (score i)
      then assign (content i) i unique_info
      else unique_info
  end.

(** [sorted(xs, key=lambda x: x["score"], reverse=True)]: a stable sort,
    equal scores keep their input order.  When no score is NaN the scores
    are totally ordered and every stable sort returns this list.  With a
    NaN among two or more scores the comparisons are no order and the
    list Python returns depends on the steps of its sorting algorithm;
    the model is exact there only for lists of at most one entry. *)
Fixpoint insert_desc (x : info) (l : list info) : list info :=
  match l with
  | [] => [x]
  | y :: l' =>
      if float_lt (score x) (score y) then y :: insert_desc x l' else x :: y :: l'
  end.

Definition sorted_desc (l : list info) : list info :=
  fold_right insert_desc [] l.

(** [_deduplicate_and_rank] *)
Definition _deduplicate_and_rank (relevant_info : list info) : list info :=
  let unique_info := fold_left dedup_step relevant_info [] in
  sorted_desc (map snd unique_info).

Section Retrieval.

(** [self.vector_db.search(query, limit=, threshold=)] and
    [self.search_service.search(query, limit=)]. *)
Variable vector_db_search : string -> value -> value -> res (list vector_result).
Variable search_service_search : string -> value -> res (list search_result).

Definition vector_info (r : vector_result) : info :=
  {| content := vr_content r;
     score := vr_score r;
     source := default "vector_db" (vr_metadata_source r) |}.

Definition vector_sources (results : list vector_result) : list string :=
  omap vr_metadata_source results.

(** [_perform_vector_search]: [None] on an empty result and on any error. *)
Definition _perform_vector_search (query : string) (context : dict)
  : option KnowledgeContext :=
  let limit := get_or context "vector_search_limit" (VInt 5) in
  let threshold := get_or context "vector_search_threshold" (VFloat (7 # 10)) in
  match vector_db_search query limit threshold with
  | Raise _ => None
  | Ok [] => None
  | Ok results =>
      Some {| relevant_info := map vector_info results;
              sources := vector_sources results;
              confidence :=
                fold_left (fun c r => float_max2 c (vr_score r)) results
                          (Finite 0) |}
  end.

Definition search_info (r : search_result) : info :=
  {| content := sr_content r;
     score := default (Finite (7 # 10)) (sr_score r);
     source := sr_source r |}.

(** [_perform_external_search]: the provider returns no comparable score,
    the confidence is the constant 0.7. *)
Definition _perform_external_search (query : string) (context : dict)
  : option KnowledgeContext :=
  let limit := get_or context "external_search_limit" (VInt 3) in
  match search_service_search query limit with
  | Raise _ => None
  | Ok [] => None
  | Ok results =>
      Some {| relevant_info := map search_info results;
              sources := map sr_source results;
              confidence := (7 # 10)%Q |}
  end.

(** [knowledge_context[...].extend(...)] and the [max] on confidences. *)
Definition absorb (kc : KnowledgeContext) (found : option KnowledgeContext)
  : KnowledgeContext :=
  match found with
  | None => kc
  | Some r =>
      {| relevant_info := relevant_info kc ++ relevant_info r;
         sources := sources kc ++ sources r;
         confidence := float_max2 (confidence kc) (confidence r) |}
  end.

(** [list(set(xs))]; Python fixes no order for a set, the model lists the
    elements of the finite set. *)
Definition list_set (xs : list string) : list string :=
  elements (list_to_set xs : gset string).

Definition finish (kc : KnowledgeContext) : KnowledgeContext :=
  {| relevant_info := _deduplicate_and_rank (relevant_info kc);
     sources := list_set (sources kc);
     confidence := confidence kc |}.

Definition vector_call (query : string) (context : dict) : call :=
  VectorSearch query (get_or context "vector_search_limit" (VInt 5))
               (get_or context "vector_search_threshold" (VFloat (7 # 10))).

Definition external_call (query : string) (context : dict) : call :=
  ExternalSearch query (get_or context "external_search_limit" (VInt 3)).

(** [retrieve_knowledge], together with the collaborator calls it made.
    An exception inside the [try] yields the empty context. *)
Definition retrieve_knowledge (query : string) (context : dict)
  : KnowledgeContext * list call :=
  let kc := absorb empty_context (_perform_vector_search query context) in
  match _should_perform_external_search kc context with
  | Raise _ => (empty_context, [vector_call query context])
  | Ok false => (finish kc, [vector_call query context])
  | Ok true =>
      (finish (absorb kc (_perform_external_search query context)),
       [vector_call query context; external_call query context])
  end.

End Retrieval.







(** No score of the list is NaN. *)
Definition comparable (l : list info) : Prop :=
  List.Forall (fun i => is_nan (score i) = false) l.

(** Invariant of the deduplication loop: [seen] is the part of the input
    already visited, [d] the dict built from it.  The kept entry has the
    highest score as long as no score seen was NaN. *)
Record dedup_inv (seen : list info) (d : list (string * info)) : Prop := {
  inv_nodup : List.NoDup (map fst d);
  inv_key : forall k v, In (k, v) d -> content v = k;
  inv_from_input : forall k v, In (k, v) d -> In v seen;
  inv_max : comparable seen ->
            forall k v e, In (k, v) d -> In e seen -> content e = k ->
                          float_le (score e) (score v) = true;
  inv_complete : forall e, In e seen -> In (content e) (map fst d)
}.

(** The order the result is sorted by. *)
Definition desc (a b : info) : Prop := float_le (score b) (score a) = true.

(** The scenario of the specification: [always_search_external=false],
    [min_relevant_info=2], an empty vector store. *)
Definition scenario_context : dict :=
  <["always_search_external" := VBool false]> (<["min_relevant_info" := VInt 2]> ∅).

Definition empty_store (query : string) (limit threshold : value)
  : res (list vector_result) := Ok [].



(** Two hits with the same content: the first with a score that is NaN
    (a similarity the store could not compute), the second with 0.9. *)
Definition nan_first : list info :=
  [Info "MCP is a protocol" NaN "vector_db";
   Info "MCP is a protocol" (Finite (9 # 10)) "web"].

End Knowledge.

(** ** protocols/reasoning.py: AnalyticalReasoningProtocol *)

Module Reasoning.

(** The four prompt templates.  A template is fixed text around the
    interpolated expressions, so a prompt is represented by its template
    and the interpolated values. *)
Inductive prompt : Type :=
| RequestAnalysisPrompt (query : string)
| KnowledgeEvaluationPrompt (query knowledge_text : string)
| KeyPointsPrompt (query : string) (intent domain complexity : value)
                  (knowledge_text : string)
| ResponsePlanPrompt (query : string) (intent domain complexity : value)
                     (points : list value).

Inductive step : Type :=
| RequestAnalysis
| KnowledgeEvaluation
| KeyPointsExtraction
| ResponsePlanning.

Definition step_of (p : prompt) : step :=
  match p with
  | RequestAnalysisPrompt _ => RequestAnalysis
  | KnowledgeEvaluationPrompt _ _ => KnowledgeEvaluation
  | KeyPointsPrompt _ _ _ _ _ => KeyPointsExtraction
  | ResponsePlanPrompt _ _ _ _ _ => ResponsePlanning
  end.

(** Arguments of one call [llm_service.generate_text(prompt=, max_tokens=,
    temperature=0.3, options={"format": "json"})]. *)
Record llm_request : Type := {
  rq_prompt : prompt;
  rq_max_tokens : Z;
  rq_temperature : Q;
  rq_options : dict
}.

Definition json_request (p : prompt) (max_tokens : Z) : llm_request :=
  {| rq_prompt := p;
     rq_max_tokens := max_tokens;
     rq_temperature := (3 # 10)%Q;
     rq_options := <["format" := VStr "json"]> ∅ |}.

(** The reasoning result returned by [analyze]. *)
Record ReasoningResult : Type := {
  intent : value;
  domain : value;
  complexity : value;
  knowledge_sufficiency : value;
  key_points : value;
  suggested_format : value;
  tone : value;
  structure : value
}.

(** The dict returned by the [except] branch of [analyze]. *)
Definition fallback_result : ReasoningResult :=
  {| intent := VStr "unknown";
     domain := VStr "general";
     complexity := VStr "medium";
     knowledge_sufficiency := VStr "unknown";
     key_points := VList [];
     suggested_format := VStr "text";
     tone := VStr "neutral";
     structure := VStr "default" |}.

(** The dicts returned by the [except] branch of each step. *)
Definition request_analysis_default : dict :=
  <["intent" := VStr "unknown"]> (<["domain" := VStr "general"]>
  (<["complexity" := VStr "medium"]> (<["keywords" := VList []]> ∅))).

Definition knowledge_evaluation_default : dict :=
  <["sufficiency" := VStr "unknown"]> (<["gaps" := VList []]>
  (<["reliability" := VStr "medium"]> ∅)).

Definition key_points_default : dict :=
  <["points" := VList []]> (<["importance" := VList []]>
  (<["relevance" := VList []]> ∅)).

Definition response_plan_default : dict :=
  <["format" := VStr "text"]> (<["tone" := VStr "neutral"]>
  (<["structure" := VStr "default"]> (<["sections" := VList []]> ∅))).

(** Returned without an LLM call when the knowledge context has no
    relevant info. *)
Definition knowledge_evaluation_empty : dict :=
  <["sufficiency" := VStr "insufficient"]>
  (<["gaps" := VList [VStr "관련 정보 없음"]]>
  (<["reliability" := VStr "low"]> ∅)).

Section Chain.

(** [json.loads] and [llm_service.generate_text]. *)
Variable json_loads : string -> res value.
Variable generate_text : llm_request -> res string.

(** The common tail of the four steps:
    [try: response = await generate_text(...); return json.loads(response)
     except Exception: return default]. *)
Definition ask (p : prompt) (max_tokens : Z) (dflt : dict) : value :=
  match (response <- generate_text (json_request p max_tokens) ;;
         json_loads response) with
  | Ok parsed => parsed
  | Raise _ => VDict dflt
  end.

(** [_analyze_request] *)
Definition _analyze_request (query : string) (context : dict) : value :=
  ask (RequestAnalysisPrompt query) 300 request_analysis_default.

(** [_evaluate_knowledge]; the [join] is evaluated before the [try]. *)
Definition _evaluate_knowledge (query : string) (knowledge_context context : dict)
  : res value :=
  if negb (truthy (get knowledge_context "relevant_info"))
  then Ok (VDict knowledge_evaluation_empty)
  else
    knowledge_text <- str_join (nl ++ nl)
                        (get_or knowledge_context "relevant_info" (VList [])) ;;
    Ok (ask (KnowledgeEvaluationPrompt query knowledge_text) 300
            knowledge_evaluation_default).

(** [_extract_key_points]; the [join] and the three [request_analysis.get]
    of the f-string are evaluated before the [try]. *)
Definition _extract_key_points (query : string) (knowledge_context : dict)
  (request_analysis : value) (context : dict) : res value :=
  knowledge_text <- str_join (nl ++ nl)
                      (get_or knowledge_context "relevant_info" (VList [])) ;;
  i <- obj_get request_analysis "intent" (VStr "unknown") ;;
  d <- obj_get request_analysis "domain" (VStr "general") ;;
  c <- obj_get request_analysis "complexity" (VStr "medium") ;;
  Ok (ask (KeyPointsPrompt query i d c knowledge_text) 500 key_points_default).

(** [_plan_response]; the comprehension over the points and the three
    [request_analysis.get] are evaluated before the [try]. *)
Definition _plan_response (query : string) (key_points request_analysis : value)
  (context : dict) : res value :=
  pts <- obj_get key_points "points" (VList []) ;;
  points <- iter pts ;;
  i <- obj_get request_analysis "intent" (VStr "unknown") ;;
  d <- obj_get request_analysis "domain" (VStr "general") ;;
  c <- obj_get request_analysis "complexity" (VStr "medium") ;;
  Ok (ask (ResponsePlanPrompt query i d c points) 400 response_plan_default).

(** The dict literal [reasoning_result] and the [len] of the completion
    log entry. *)
Definition assemble (request_analysis knowledge_evaluation key_points
                     response_plan : value) : res ReasoningResult :=
  i <- obj_get request_analysis "intent" VNone ;;
  d <- obj_get request_analysis "domain" VNone ;;
  c <- obj_get request_analysis "complexity" VNone ;;
  s <- obj_get knowledge_evaluation "sufficiency" VNone ;;
  k <- obj_get key_points "points" (VList []) ;;
  f <- obj_get response_plan "format" VNone ;;
  t <- obj_get response_plan "tone" VNone ;;
  st <- obj_get response_plan "structure" VNone ;;
  _ <- len k ;;
  Ok {| intent := i; domain := d; complexity := c; knowledge_sufficiency := s;
        key_points := k; suggested_format := f; tone := t; structure := st |}.

(** State of [self.reasoning_steps]: entries [{"step": name, "result": r}]. *)
Definition steps := list (string * value).

(** The body of the [try] of [analyze], threading [self.reasoning_steps]. *)
Definition chain (reasoning_steps : steps) (query : string)
  (knowledge_context context : dict) : steps * res ReasoningResult :=
  match len (get_or knowledge_context "relevant_info" (VList [])) with
  | Raise e => (reasoning_steps, Raise e)
  | Ok _ =>
    let request_analysis := _analyze_request query context in
    let s1 := [("request_analysis", request_analysis)] in
    match _evaluate_knowledge query knowledge_context context with
    | Raise e => (s1, Raise e)
    | Ok knowledge_evaluation =>
      let s2 := s1 ++ [("knowledge_evaluation", knowledge_evaluation)] in
      match _extract_key_points query knowledge_context request_analysis context with
      | Raise e => (s2, Raise e)
      | Ok key_points =>
        let s3 := s2 ++ [("key_points_extraction", key_points)] in
        match _plan_response query key_points request_analysis context with
        | Raise e => (s3, Raise e)
        | Ok response_plan =>
          let s4 := s3 ++ [("response_planning", response_plan)] in
          (s4, assemble request_analysis knowledge_evaluation key_points
                        response_plan)
        end
      end
    end
  end.

(** [analyze]: any exception of the chain is replaced by the fallback
    result. *)
Definition analyze (reasoning_steps : steps) (query : string)
  (knowledge_context context : dict) : steps * res ReasoningResult :=
  let (steps', outcome) := chain reasoning_steps query knowledge_context context in
  (steps', try_except outcome (fun _ => Ok fallback_result)).

(** Step [k] receives an LLM response that [json.loads] rejects. *)
Definition unparseable (k : step) : Prop :=
  forall rq, step_of (rq_prompt rq) = k ->
    exists response e, generate_text rq = Ok response /\ json_loads response = Raise e.

End Chain.

(** The fields of the result that a step feeds, and their documented
    defaults. *)
Definition fields_of (k : step) (r : ReasoningResult) : list value :=
  match k with
  | RequestAnalysis => [intent r; domain r; complexity r]
  | KnowledgeEvaluation => [knowledge_sufficiency r]
  | KeyPointsExtraction => [key_points r]
  | ResponsePlanning => [suggested_format r; tone r; structure r]
  end.

Definition defaults_of (k : step) : list value :=
  match k with
  | RequestAnalysis => [VStr "unknown"; VStr "general"; VStr "medium"]
  | KnowledgeEvaluation => [VStr "unknown"]
  | KeyPointsExtraction => [VList []]
  | ResponsePlanning => [VStr "text"; VStr "neutral"; VStr "default"]
  end.

(** An LLM that answers every prompt with text that is not JSON, as the
    test mode of the LLM service does, and a parser that rejects it. *)
Definition not_json (rq : llm_request) : res string := Ok "This is a test response".

Definition reject (response : string) : res value := Raise JSONDecodeError.

Definition one_fact : dict :=
  <["relevant_info" := VList [VStr "MCP is a protocol"]]> ∅.

(** A knowledge context as the knowledge stage builds it: the entries of
    [relevant_info] are dicts. *)
Definition retrieved_fact : dict :=
  <["relevant_info" :=
      VList [VDict (<["content" := VStr "MCP is a protocol"]>
                    (<["score" := VFloat (8 # 10)]>
                    (<["source" := VStr "web"]> ∅)))]]> ∅.





(** A parser that accepts every response as a JSON array. *)
Definition parse_as_list (response : string) : res value := Ok (VList []).

End Reasoning.

(** ** services/llm.py: LLMService *)

Module LLM.

(** The attributes the class [Settings] of core/config.py declares.
    [getattr(settings, name, default)] yields the default for any other
    name. *)
Definition settings_attributes : list string :=
  ["PROJECT_NAME"; "PROJECT_DESCRIPTION"; "VERSION"; "DOCS_URL"; "REDOC_URL";
   "CORS_ORIGINS"; "DATABASE_URL"; "OPENAI_API_KEY"; "ANTHROPIC_API_KEY";
   "GOOGLE_API_KEY"; "VECTOR_DB_PATH"; "GOOGLE_SEARCH_API_KEY";
   "GOOGLE_SEARCH_ENGINE_ID"; "PERPLEXITY_API_KEY"; "PERPLEXITY_API_URL";
   "SEARCH_PROVIDER"; "LOG_LEVEL"; "LOG_FILE"; "SECRET_KEY";
   "ACCESS_TOKEN_EXPIRE_MINUTES"; "UNIVERSAL_PROMPT_TEMPLATE_PATH";
   "DEFAULT_LLM_PROVIDER"; "DEFAULT_LLM_MODEL"; "EMBEDDING_MODEL"].

Definition getattr_settings (settings : string -> string) (name dflt : string)
  : string :=
  if existsb (String.eqb name) settings_attributes then settings name else dflt.

(** The fields of an [LLMService] instance that the protocols read. *)
Record LLMService : Type := {
  api_key : string;
  default_model : string;
  api_base_url : string;
  test_mode : bool
}.

(** [LLMService.__init__(api_key=None)] *)
Definition __init__ (settings : string -> string) (key : option string)
  : LLMService :=
  let k :=
    match key with
    | Some s => if truthy (VStr s) then s
                else getattr_settings settings "LLM_API_KEY" "sk-test"
    | None => getattr_settings settings "LLM_API_KEY" "sk-test"
    end in
  {| api_key := k;
     default_model := getattr_settings settings "LLM_DEFAULT_MODEL" "gpt-3.5-turbo";
     api_base_url :=
       getattr_settings settings "LLM_API_BASE_URL" "https://api.openai.com/v1";
     test_mode := is_prefix "sk-dummy" k || is_prefix "sk-test" k |}.

(** What [_extract_generated_text] returns: the object found at a known
    field, or [json.dumps(result)]; the serialisation itself belongs to
    the [json] module and is kept symbolic. *)
Inductive extraction : Type :=
| Field (v : value)
| Serialized (result : value).

(** The model-specific part: [Some v] when a [return] is reached inside
    the [if]/[elif] on the model name. *)
Definition extract_model_specific (result : value) (model : string)
  : res (option value) :=
  let m := lower model in
  if contains "openai" m || contains "gpt" m then
    has_choices <- str_in "choices" result ;;
    nonempty <- (if has_choices
                 then (choices <- item result "choices" ;;
                       n <- len choices ;; Ok (0 <? n))
                 else Ok false) ;;
    if nonempty then
      choices <- item result "choices" ;;
      choice <- item0 choices ;;
      has_message <- str_in "message" choice ;;
      has_content <- (if has_message
                      then (message <- item choice "message" ;;
                            str_in "content" message)
                      else Ok false) ;;
      if has_content then
        message <- item choice "message" ;;
        text <- item message "content" ;;
        Ok (Some text)
      else
        has_text <- str_in "text" choice ;;
        if has_text then (text <- item choice "text" ;; Ok (Some text))
        else Ok None
    else Ok None
  else if contains "anthropic" m || contains "claude" m then
    has_completion <- str_in "completion" result ;;
    if has_completion then (text <- item result "completion" ;; Ok (Some text))
    else Ok None
  else Ok None.

(** The generic part: [text], [generated_text], [output], else the whole
    response serialised. *)
Definition extract_generic (result : value) : res extraction :=
  has_text <- str_in "text" result ;;
  if has_text then (v <- item result "text" ;; Ok (Field v))
  else
    has_generated <- str_in "generated_text" result ;;
    if has_generated then (v <- item result "generated_text" ;; Ok (Field v))
    else
      has_output <- str_in "output" result ;;
      if has_output then (v <- item result "output" ;; Ok (Field v))
      else Ok (Serialized result).

(** [_extract_generated_text] *)
Definition _extract_generated_text (result : value) (model : string)
  : res extraction :=
  specific <- extract_model_specific result model ;;
  match specific with
  | Some text => Ok (Field text)
  | None => extract_generic result
  end.

(** Probing a response along a path of keys, in the words of the
    specification. *)
Inductive selector : Type :=
| Key (name : string)
| First.

Fixpoint probe (path : list selector) (v : value) : option value :=
  match path with
  | [] => Some v
  | Key name :: rest =>
      match v with
      | VDict d => match d !! name with Some x => probe rest x | None => None end
      | _ => None
      end
  | First :: rest =>
      match v with
      | VList (x :: _) => probe rest x
      | _ => None
      end
  end.

Fixpoint first_found (paths : list (list selector)) (v : value) : option value :=
  match paths with
  | [] => None
  | p :: rest =>
      match probe p v with
      | Some x => Some x
      | None => first_found rest v
      end
  end.

Definition chat_completion_content : list selector :=
  [Key "choices"; First; Key "message"; Key "content"].

Definition completion_choice_text : list selector :=
  [Key "choices"; First; Key "text"].

Definition generic_fields : list (list selector) :=
  [[Key "text"]; [Key "generated_text"]; [Key "output"]].

Definition is_openai (model : string) : bool :=
  contains "openai" (lower model) || contains "gpt" (lower model).

Definition is_anthropic (model : string) : bool :=
  contains "anthropic" (lower model) || contains "claude" (lower model).

(** The probing order the code follows for a given model name. *)
Definition probe_order (model : string) : list (list selector) :=
  (if is_openai model then [chat_completion_content; completion_choice_text]
   else if is_anthropic model then [[Key "completion"]]
   else [])
  ++ generic_fields.

(** One order for every model, whatever its name. *)
Definition fixed_probe_order : list (list selector) :=
  [chat_completion_content; [Key "completion"]] ++ generic_fields.

Definition extract_by_probing (order : list (list selector)) (result : value)
  : extraction :=
  match first_found order result with
  | Some v => Field v
  | None => Serialized result
  end.

(** A response object whose [choices], when present, is a list whose
    first element, when present, is an object whose [message], when
    present, is an object. *)
Definition choices_well_shaped (result : dict) : bool :=
  match result !! "choices" with
  | None => true
  | Some (VList []) => true
  | Some (VList (VDict choice :: _)) =>
      match choice !! "message" with
      | None => true
      | Some (VDict _) => true
      | Some _ => false
      end
  | Some _ => false
  end.

(** A chat-completion response that also carries a top-level [text]. *)
Definition chat_response : dict :=
  <["choices" :=
      VList [VDict (<["message" := VDict (<["content" := VStr "A"]> ∅)]> ∅)]]>
    (<["text" := VStr "B"]> ∅).

End LLM.
(** ** services/llm.py: the request side of LLMService *)

Module LLMRequest.

(** What [httpx] exchanges: the arguments of [client.post(endpoint,
    json=payload, headers=headers)] and the parts of the response the
    code reads ([response.json()] may raise). *)
Record request : Type := {
  endpoint : string;
  json_body : dict;
  headers : dict
}.

Record response : Type := {
  status_code : Z;
  json : res value;
  response_text : string
}.

(** A byte that continues a UTF-8 encoded character. *)
Definition is_continuation (a : ascii) : bool :=
  let n := nat_of_ascii a in
  (Nat.leb 128 n && Nat.ltb n 192)%bool.

(** [s[:n]]: the first [n] characters of a UTF-8 encoded text. *)
Fixpoint slice_prefix (n : nat) (s : string) : string :=
  match s with
  | EmptyString => EmptyString
  | String a s' =>
      if is_continuation a then String a (slice_prefix n s')
      else match n with
           | O => EmptyString
           | S n' => String a (slice_prefix n' s')
           end
  end.

Definition system_message (content : value) : value :=
  VDict (<["role" := VStr "system"]> (<["content" := content]> ∅)).

Definition user_message (prompt : string) : value :=
  VDict (<["role" := VStr "user"]> (<["content" := VStr prompt]> ∅)).

(** [key not in ["system_prompt", "format"]] is [negb (reserved key)]. *)
Definition reserved (key : string) : bool :=
  String.eqb key "system_prompt" || String.eqb key "format".

(** Body of the loop [for key, value in options.items()]. *)
Definition copy_option (payload : dict) (kv : string * value) : dict :=
  if negb (reserved (fst kv)) && negb (bool_decide (is_Some (payload !! fst kv)))
  then <[fst kv := snd kv]> payload
  else payload.

(** [_prepare_payload] *)
Definition _prepare_payload (prompt : string) (max_tokens temperature model : value)
  (options : option dict) : dict :=
  let base (system : value) : dict :=
    <["model" := model]>
    (<["messages" := VList [system_message system; user_message prompt]]>
    (<["max_tokens" := max_tokens]> (<["temperature" := temperature]> ∅))) in
  match options with
  | Some o =>
      if truthy (VDict o) then
        let payload :=
          if truthy (get o "system_prompt") then base (get o "system_prompt")
          else base (VStr "You are a helpful assistant.") in
        let payload :=
          if eq_str (get o "format") "json"
          then <["response_format" :=
                   VDict (<["type" := VStr "json_object"]> ∅)]> payload
          else payload in
        fold_left copy_option (map_to_list o) payload
      else base (VStr "You are a helpful assistant.")
  | None => base (VStr "You are a helpful assistant.")
  end.

(** [_prepare_headers] *)
Definition _prepare_headers (self : LLM.LLMService) : dict :=
  <["Content-Type" := VStr "application/json"]>
  (<["Authorization" := VStr ("Bearer " ++ LLM.api_key self)]> ∅).

(** [@retry(stop=stop_after_attempt(3), ...)]: the call is repeated while
    it raises; after the last attempt [tenacity] raises its [RetryError].
    [n] numbers the attempts, [sent] collects the requests made. *)
Fixpoint retrying {A : Type} (attempts n : nat)
  (call : nat -> res A * list request) : res A * list request :=
  match attempts with
  | O => (Raise (BackendError "RetryError"), [])
  | S k =>
      match call n with
      | (Ok a, sent) => (Ok a, sent)
      | (Raise _, sent) =>
          let (outcome, sent') := retrying k (S n) call in
          (outcome, sent ++ sent')
      end
  end.

(** [settings.NAME]: an attribute the class does not declare raises
    [AttributeError]. *)
Definition settings_attribute (settings : string -> string) (name : string)
  : res string :=
  if existsb (String.eqb name) LLM.settings_attributes then Ok (settings name)
  else Raise AttributeError.

Section Client.

(** [str(v)] as used by f-strings, the settings object, and the HTTP
    client: the answer to the [n]-th attempt's request, or the exception
    the transport raises. *)
Variable str : value -> string.
Variable settings : string -> string.
Variable post : nat -> request -> res response.

(** [_generate_mock_response] *)
Definition _generate_mock_response (prompt : string) (model : value) : string :=
  ("이것은 '" ++ str model ++ "' 모델의 테스트 응답입니다. 프롬프트: "
   ++ slice_prefix 30 prompt ++ "...")%string.

(** [model or self.default_model] *)
Definition effective_model (self : LLM.LLMService) (model : value) : value :=
  if truthy model then model else VStr (LLM.default_model self).

(** The body of [generate_text], run once: the outcome and the requests
    sent.  The [except] clause logs and raises the exception again. *)
Definition attempt (self : LLM.LLMService) (prompt : string)
  (max_tokens temperature model : value) (options : option dict) (n : nat)
  : res LLM.extraction * list request :=
  let model := effective_model self model in
  if LLM.test_mode self
  then (Ok (LLM.Field (VStr (_generate_mock_response prompt model))), [])
  else
    let rq :=
      {| endpoint := (LLM.api_base_url self ++ "/chat/completions")%string;
         json_body := _prepare_payload prompt max_tokens temperature model options;
         headers := _prepare_headers self |} in
    (r <- post n rq ;;
     if status_code r =? 200 then
       result <- json r ;;
       match model with
       | VStr m => LLM._extract_generated_text result m
       | _ => Raise AttributeError
       end
     else Raise (BackendError ("LLM API error: " ++ pretty (status_code r)
                               ++ " - " ++ response_text r)%string),
     [rq]).

(** [generate_text] *)
Definition generate_text (self : LLM.LLMService) (prompt : string)
  (max_tokens temperature model : value) (options : option dict)
  : res LLM.extraction * list request :=
  retrying 3 0 (attempt self prompt max_tokens temperature model options).

(** [generate_embeddings]; it carries no [retry]. *)
Definition generate_embeddings (self : LLM.LLMService) (text : string)
  (model : value) : res value * list request :=
  match (model <- (if truthy model then Ok model
                   else (m <- settings_attribute settings "EMBEDDING_MODEL" ;;
                         Ok (VStr m))) ;;
         let payload : dict :=
           <["model" := model]> (<["input" := VStr text]> ∅) in
         let headers := _prepare_headers self in
         url <- settings_attribute settings "EMBEDDING_API_BASE_URL" ;;
         Ok {| endpoint := url; json_body := payload; headers := headers |}) with
  | Raise e => (Raise e, [])
  | Ok rq =>
      (r <- post 0 rq ;;
       if status_code r =? 200 then
         result <- json r ;;
         has_data <- str_in "data" result ;;
         nonempty <- (if has_data
                      then (data <- item result "data" ;;
                            n <- len data ;; Ok (0 <? n))
                      else Ok false) ;;
         has_embedding <- (if nonempty
                           then (data <- item result "data" ;;
                                 first <- item0 data ;;
                                 str_in "embedding" first)
                           else Ok false) ;;
         if has_embedding then
           data <- item result "data" ;;
           first <- item0 data ;;
           item first "embedding"
         else Raise (BackendError "Unexpected embedding response format")
       else Raise (BackendError ("Embedding API error: " ++ pretty (status_code r)
                                 ++ " - " ++ response_text r)%string),
       [rq])
  end.

End Client.

(** The options without the two keys [_prepare_payload] consumes. *)
Definition passed_through (options : option dict) (key : string) : option value :=
  if reserved key then None
  else match options with
       | Some o => o !! key
       | None => None
       end.

(** An endpoint that is down, one that answers with a chat completion,
    and a service holding a live key. *)
Definition always_503 (n : nat) (rq : request) : res response :=
  Ok {| status_code := 503; json := Raise JSONDecodeError;
        response_text := "Service Unavailable" |}.

Definition always_completes (n : nat) (rq : request) : res response :=
  Ok {| status_code := 200; json := Ok (VDict LLM.chat_response);
        response_text := EmptyString |}.

Definition live_service : LLM.LLMService :=
  LLM.__init__ (fun _ => EmptyString) (Some "sk-live-1").

End LLMRequest.
(** ** services/vector_db.py and services/search.py: what the knowledge
       stage finds when it calls the services it constructs *)

Module Services.

(** The attributes of a [VectorDBService] instance: the methods of the
    class and the fields set by [__init__].  Looking up any other name
    raises [AttributeError]. *)
Definition VectorDBService_attributes : list string :=
  ["initialize"; "_init_qdrant"; "_init_pinecone"; "_init_weaviate";
   "_init_inmemory"; "store_embeddings"; "_store_qdrant"; "_store_pinecone";
   "_store_weaviate"; "_store_inmemory"; "search_similar"; "_search_qdrant";
   "_search_pinecone"; "_search_weaviate"; "_search_inmemory"; "delete_by_ids";
   "_delete_qdrant"; "_delete_pinecone"; "_delete_weaviate"; "_delete_inmemory";
   "close"; "collection_name"; "llm_service"; "initialized"; "client"].

(** The parameters of [SearchService.search] after [self].  A call with
    any other keyword fails with [TypeError]. *)
Definition SearchService_search_parameters : list string :=
  ["query"; "num_results"; "search_type"; "options"; "api_key";
   "search_engine_id"].

Section Wiring.

(** What a method [search] of the vector store would return, and what
    the body of [SearchService.search] returns once it is entered. *)
Variable vector_store : string -> value -> value -> res (list Knowledge.vector_result).
Variable search_body : string -> value -> res (list Knowledge.search_result).

(** [self.vector_db.search(query, limit=limit, threshold=threshold)] with
    [self.vector_db = VectorDBService()]: the attribute lookup comes
    first. *)
Definition vector_db_search (query : string) (limit threshold : value)
  : res (list Knowledge.vector_result) :=
  if existsb (String.eqb "search") VectorDBService_attributes
  then vector_store query limit threshold
  else Raise AttributeError.

(** [self.search_service.search(query, limit=limit)] with
    [self.search_service = SearchService()]: the keyword is bound to a
    parameter before the body runs; the [retry] decorator repeats the
    failing call and raises its [RetryError]. *)
Definition search_service_search (query : string) (limit : value)
  : res (list Knowledge.search_result) :=
  if existsb (String.eqb "limit") SearchService_search_parameters
  then search_body query limit
  else Raise (BackendError "RetryError").

End Wiring.

(** A vector store holding two documents, one with a similarity it could
    not compute, and a search provider that is down. *)
Definition documents : list Knowledge.vector_result :=
  [{| Knowledge.vr_content := "MCP is a protocol";
      Knowledge.vr_score := Finite (9 # 10);
      Knowledge.vr_metadata_source := Some "handbook" |};
   {| Knowledge.vr_content := "an empty page";
      Knowledge.vr_score := NaN;
      Knowledge.vr_metadata_source := None |}].

Definition two_documents (query : string) (limit threshold : value)
  : res (list Knowledge.vector_result) := Ok documents.

Definition search_down (query : string) (limit : value)
  : res (list Knowledge.search_result) := Raise (BackendError "timeout").

End Services.

(** ** protocols/generation.py: ContentGenerationProtocol *)

Module Generation.

(** Arguments of the call [llm_service.generate_text(prompt=, max_tokens=,
    temperature=, model=, options=)], and the service instance that
    receives it. *)
Record llm_call : Type := {
  via : LLM.LLMService;
  call_prompt : string;
  call_max_tokens : value;
  call_temperature : value;
  call_model : value;
  call_options : dict
}.

(** An entry of [self.generation_history]. *)
Record history_entry : Type := {
  h_prompt : string;
  h_content : string;
  h_timestamp : string;
  h_params : dict
}.

(** The instance state: the stored LLM service and the history.  The
    execution log and the metadata bag of the base class are write-only
    for this protocol and are left out. *)
Record ContentGenerationProtocol : Type := {
  llm_service : LLM.LLMService;
  generation_history : list history_entry
}.

(** The sampling parameters [generate] settles on before the call. *)
Record resolved : Type := {
  model : value;
  max_tokens : value;
  temperature : value;
  options : dict
}.

(** The argument of [dict.update]: a mapping.  (Python also accepts an
    iterable of key/value pairs; any other object raises.) *)
Definition as_mapping (v : value) : res dict :=
  match v with
  | VDict d => Ok d
  | _ => Raise TypeError
  end.

Definition is_none (v : value) : bool :=
  match v with VNone => true | _ => false end.

(** [_prepare_generation_params] *)
Definition _prepare_generation_params (prompt : string)
  (reasoning_result knowledge_context context : dict) : res dict :=
  let params : dict := ∅ in
  let params := <["format" := get_or context "format" (VStr "text")]> params in
  let params := <["domain" := get context "domain"]> params in
  let params :=
    if truthy (get reasoning_result "suggested_format")
    then <["format" := get reasoning_result "suggested_format"]> params
    else params in
  let params :=
    if truthy (get reasoning_result "tone")
    then <["tone" := get reasoning_result "tone"]> params
    else params in
  let params :=
    if truthy (get knowledge_context "sources")
    then <["sources" := get knowledge_context "sources"]> params
    else params in
  if truthy (get context "options")
  then (custom <- as_mapping (get context "options") ;; Ok (custom ∪ params))
  else Ok params.

(** Lines 61-74 of [generate]: the defaults read from the context and the
    caller-supplied [llm_config] applied on top. *)
Definition apply_llm_config (generation_params context : dict)
  (llm_config : option dict) : res resolved :=
  let model := VNone in
  let max_tokens := get_or context "max_tokens" (VInt 1000) in
  let temperature := get_or context "temperature" (VFloat (7 # 10)) in
  let options := generation_params in
  match llm_config with
  | None => Ok {| model := model; max_tokens := max_tokens;
                  temperature := temperature; options := options |}
  | Some cfg =>
      if truthy (VDict cfg) then
        let model := get cfg "model" in
        let max_tokens :=
          if truthy (get cfg "max_tokens") then get cfg "max_tokens"
          else max_tokens in
        let temperature :=
          if negb (is_none (get cfg "temperature")) then get cfg "temperature"
          else temperature in
        if truthy (get cfg "options")
        then (extra <- as_mapping (get cfg "options") ;;
              Ok {| model := model; max_tokens := max_tokens;
                    temperature := temperature; options := extra ∪ options |})
        else Ok {| model := model; max_tokens := max_tokens;
                   temperature := temperature; options := options |}
      else Ok {| model := model; max_tokens := max_tokens;
                 temperature := temperature; options := options |}
  end.

Definition resolve_parameters (prompt : string)
  (reasoning_result knowledge_context context : dict) (llm_config : option dict)
  : res resolved :=
  generation_params <- _prepare_generation_params prompt reasoning_result
                         knowledge_context context ;;
  apply_llm_config generation_params context llm_config.

Section Generate.

(** [str(v)] as used by f-strings, the clock, the settings object and the
    LLM endpoint. *)
Variable str : value -> string.
Variable now : string.
Variable settings : string -> string.
Variable generate_text : llm_call -> res string.

Definition bullets (items : list value) : string :=
  fold_left (fun acc item => (acc ++ "- " ++ str item ++ nl)%string) items EmptyString.

(** [_build_enhanced_prompt] *)
Definition _build_enhanced_prompt (prompt : string)
  (reasoning_result knowledge_context : dict) : res string :=
  let enhanced := ("원본 요청: " ++ prompt ++ nl ++ nl)%string in
  enhanced <-
    (if truthy (get knowledge_context "relevant_info")
     then (infos <- iter (get knowledge_context "relevant_info") ;;
           Ok (enhanced ++ "참고 정보:" ++ nl ++ bullets infos ++ nl)%string)
     else Ok enhanced) ;;
  enhanced <-
    (if truthy (get reasoning_result "key_points")
     then (points <- iter (get reasoning_result "key_points") ;;
           Ok (enhanced ++ "핵심 포인트:" ++ nl ++ bullets points ++ nl)%string)
     else Ok enhanced) ;;
  Ok (enhanced ++ "위 정보를 바탕으로 다음 요청에 응답하세요:" ++ nl ++ prompt)%string.

(** [self.llm_service.api_key = k] *)
Definition set_api_key (self : ContentGenerationProtocol) (k : string)
  : ContentGenerationProtocol :=
  {| llm_service :=
       {| LLM.api_key := k;
          LLM.default_model := LLM.default_model (llm_service self);
          LLM.api_base_url := LLM.api_base_url (llm_service self);
          LLM.test_mode := LLM.test_mode (llm_service self) |};
     generation_history := generation_history self |}.

(** [_store_generation_history] *)
Definition _store_generation_history (self : ContentGenerationProtocol)
  (prompt content : string) (context : dict) : ContentGenerationProtocol :=
  {| llm_service := llm_service self;
     generation_history :=
       generation_history self ++
       [{| h_prompt := prompt;
           h_content := content;
           h_timestamp := now;
           h_params :=
             <["max_tokens" := get context "max_tokens"]>
             (<["temperature" := get context "temperature"]>
             (<["format" := get context "format"]>
             (<["domain" := get context "domain"]> ∅))) |}] |}.

Definition nonempty (k : option string) : bool :=
  match k with
  | Some s => truthy (VStr s)
  | None => false
  end.

(** [generate]: the instance after the call and the outcome of the call. *)
Definition generate (self : ContentGenerationProtocol) (prompt : string)
  (reasoning_result knowledge_context context : dict)
  (llm_config : option dict) (api_key : option string)
  : ContentGenerationProtocol * res string :=
  match resolve_parameters prompt reasoning_result knowledge_context context
                           llm_config with
  | Raise e => (self, Raise e)
  | Ok params =>
      (* original_api_key = None; if api_key: back up and replace *)
      let original_api_key :=
        if nonempty api_key then Some (LLM.api_key (llm_service self)) else None in
      let self :=
        match api_key with
        | Some k => if nonempty api_key then set_api_key self k else self
        | None => self
        end in
      (* try *)
      let service :=
        if nonempty api_key then LLM.__init__ settings api_key
        else llm_service self in
      let outcome :=
        enhanced <- _build_enhanced_prompt prompt reasoning_result
                      knowledge_context ;;
        generate_text {| via := service;
                         call_prompt := enhanced;
                         call_max_tokens := max_tokens params;
                         call_temperature := temperature params;
                         call_model := model params;
                         call_options := options params |} in
      (* finally: if original_api_key: restore *)
      let self :=
        if nonempty original_api_key
        then match original_api_key with
             | Some k => set_api_key self k
             | None => self
             end
        else self in
      match outcome with
      | Ok content =>
          (_store_generation_history self prompt content context, Ok content)
      | Raise e => (self, Raise e)
      end
  end.

(** *** One call of [generate] in its two halves

    [generate] is a coroutine.  It is suspended at
    [await llm_service.generate_text(...)], between the assignment to
    [self.llm_service.api_key] and the [finally] that restores it, and
    the endpoints share one instance (the module-level
    [generation_protocol] of api/chat.py and api/generate.py): other
    calls run on that instance while this one is suspended. *)

(** The local variables of a suspended call that its second half reads. *)
Record frame : Type := {
  frame_prompt : string;
  frame_context : dict;
  original_api_key : option string
}.

(** [finally: if original_api_key: self.llm_service.api_key = original_api_key] *)
Definition restore (self : ContentGenerationProtocol)
  (original_api_key : option string) : ContentGenerationProtocol :=
  if nonempty original_api_key
  then match original_api_key with
       | Some k => set_api_key self k
       | None => self
       end
  else self.

(** From the entry of [generate] to its [await]: the instance as the call
    leaves it there, with the frame and the LLM call it waits for; or the
    exception raised before the [await] was reached (after the [finally],
    when the key had been replaced already). *)
Definition enter (self : ContentGenerationProtocol) (prompt : string)
  (reasoning_result knowledge_context context : dict)
  (llm_config : option dict) (api_key : option string)
  : ContentGenerationProtocol * res (frame * llm_call) :=
  match resolve_parameters prompt reasoning_result knowledge_context context
                           llm_config with
  | Raise e => (self, Raise e)
  | Ok params =>
      let original_api_key :=
        if nonempty api_key then Some (LLM.api_key (llm_service self)) else None in
      let self :=
        match api_key with
        | Some k => if nonempty api_key then set_api_key self k else self
        | None => self
        end in
      let service :=
        if nonempty api_key then LLM.__init__ settings api_key
        else llm_service self in
      match _build_enhanced_prompt prompt reasoning_result knowledge_context with
      | Raise e => (restore self original_api_key, Raise e)
      | Ok enhanced =>
          (self,
           Ok ({| frame_prompt := prompt; frame_context := context;
                  original_api_key := original_api_key |},
               {| via := service;
                  call_prompt := enhanced;
                  call_max_tokens := max_tokens params;
                  call_temperature := temperature params;
                  call_model := model params;
                  call_options := options params |}))
      end
  end.

(** From the [await] to the end of the call, on the instance as the other
    calls have left it in the meantime: the [finally], then the history. *)
Definition leave (self : ContentGenerationProtocol) (f : frame)
  (outcome : res string) : ContentGenerationProtocol * res string :=
  let self := restore self (original_api_key f) in
  match outcome with
  | Ok content =>
      (_store_generation_history self (frame_prompt f) content (frame_context f),
       Ok content)
  | Raise e => (self, Raise e)
  end.

End Generate.

(** [ContentGenerationProtocol.__init__] *)
Definition __init__ (settings : string -> string) : ContentGenerationProtocol :=
  {| llm_service := LLM.__init__ settings None; generation_history := [] |}.

(** The instances the program can hold: a freshly constructed one, and
    one obtained from a call of [generate]. *)
Inductive reachable : ContentGenerationProtocol -> Prop :=
| reachable_init settings : reachable (__init__ settings)
| reachable_generate str now settings generate_text self prompt
    reasoning_result knowledge_context context llm_config api_key :
    reachable self ->
    reachable (fst (generate str now settings generate_text self prompt
                      reasoning_result knowledge_context context llm_config api_key)).




















(** A fresh instance, a client key, and an endpoint that fails. *)
Definition no_settings (name : string) : string := EmptyString.

Definition unavailable (c : llm_call) : res string := Raise (BackendError "503").

Definition echo_key (c : llm_call) : res string := Ok (LLM.api_key (via c)).

End Generation.

(** ** protocols/communication.py: CommunicationProtocol *)

Module Communication.

(** The rewrite prompts of the five helpers: fixed text around the
    content (and the language, for code). *)
Inductive template : Type :=
| ConversationalPrompt
| MarkdownPrompt
| JsonPrompt
| CodePrompt (language : value)
| TablePrompt.

(** Arguments of one [llm_service.generate_text(prompt=, max_tokens=,
    temperature=, options=)]. *)
Record llm_request : Type := {
  rq_template : template;
  rq_content : string;
  rq_max_tokens : Z;
  rq_temperature : Q;
  rq_options : dict
}.

Definition quote : string := String (ascii_of_nat 34) EmptyString.
Definition backslash : string := String (ascii_of_nat 92) EmptyString.

(** [content.replace('"', '\\"')] *)
Fixpoint escape_quotes (s : string) : string :=
  match s with
  | EmptyString => EmptyString
  | String a s' =>
      if Ascii.eqb a (ascii_of_nat 34)
      then (backslash ++ quote ++ escape_quotes s')%string
      else String a (escape_quotes s')
  end.

(** The paragraph loop of [_format_as_text]: three sentences a paragraph. *)
Fixpoint paragraphs (current : list string) (sentences : list string)
  : list string :=
  match sentences with
  | [] =>
      match current with
      | [] => []
      | _ :: _ => [(join ". " current ++ ".")%string]
      end
  | sentence :: rest =>
      let current := current ++ [sentence] in
      if (3 <=? length current)%nat
      then (join ". " current ++ ".")%string :: paragraphs [] rest
      else paragraphs current rest
  end.

(** The [except] branch of [_format_as_markdown]: the first line becomes a
    heading, every line is followed by an empty line. *)
Definition markdown_fallback (content : string) : string :=
  let lines := split nl content in
  let lines :=
    match lines with
    | [] => []
    | first :: rest => ("# " ++ first)%string :: rest
    end in
  join nl (flat_map (fun line => [line; EmptyString]) lines).

(** The same text in the words of the specification: a heading line, then
    each remaining line set off by a blank line. *)
Definition heading_and_paragraphs (first : string) (rest : list string) : string :=
  (("# " ++ first ++ nl)
   ++ fold_right String.append EmptyString
        (map (fun line => nl ++ line ++ nl) rest))%string.

Section Format.

(** [str(v)] as used by f-strings; [json.dumps]; [json.loads]; and the
    value of the expression [await llm_service.generate_text(...)]
    evaluated inside a helper. *)
Variable str : value -> string.
Variable json_dumps : value -> res string.
Variable json_loads : string -> res value.
Variable llm_service_generate_text : llm_request -> res string.

(** [_format_as_text] *)
Definition _format_as_text (content : string) (context : dict) : string :=
  let content :=
    if negb (contains (nl ++ nl) content)
    then join (nl ++ nl) (paragraphs [] (split ". " content))
    else content in
  let tone := get_or context "tone" (VStr "neutral") in
  if eq_str tone "conversational" then
    match llm_service_generate_text
            {| rq_template := ConversationalPrompt;
               rq_content := content;
               rq_max_tokens := str_len content + 100;
               rq_temperature := (4 # 10)%Q;
               rq_options := ∅ |} with
    | Ok rewritten => rewritten
    | Raise _ => content
    end
  else content.

(** [_format_as_markdown] *)
Definition _format_as_markdown (content : string) (context : dict) : string :=
  match llm_service_generate_text
          {| rq_template := MarkdownPrompt;
             rq_content := content;
             rq_max_tokens := str_len content + 200;
             rq_temperature := (3 # 10)%Q;
             rq_options := ∅ |} with
  | Ok markdown_content => markdown_content
  | Raise _ => markdown_fallback content
  end.

(** [_format_as_json] *)
Definition _format_as_json (content : string) (context : dict) : string :=
  match llm_service_generate_text
          {| rq_template := JsonPrompt;
             rq_content := content;
             rq_max_tokens := str_len content + 200;
             rq_temperature := (2 # 10)%Q;
             rq_options := <["format" := VStr "json"]> ∅ |} with
  | Ok json_content => json_content
  | Raise _ =>
      match json_dumps (VDict (<["content" := VStr content]> ∅)) with
      | Ok wrapped => wrapped
      | Raise _ =>
          ("{" ++ quote ++ "content" ++ quote ++ ": " ++ quote
           ++ escape_quotes content ++ quote ++ "}")%string
      end
  end.

(** [_format_as_code] *)
Definition _format_as_code (content : string) (context : dict) : string :=
  let language := get_or context "code_language" (VStr "python") in
  match llm_service_generate_text
          {| rq_template := CodePrompt language;
             rq_content := content;
             rq_max_tokens := str_len content + 200;
             rq_temperature := (2 # 10)%Q;
             rq_options := ∅ |} with
  | Ok code_content =>
      ("```" ++ str language ++ nl ++ code_content ++ nl ++ "```")%string
  | Raise _ => ("```" ++ str language ++ nl ++ content ++ nl ++ "```")%string
  end.

(** [_format_as_table] *)
Definition _format_as_table (content : string) (context : dict) : string :=
  match llm_service_generate_text
          {| rq_template := TablePrompt;
             rq_content := content;
             rq_max_tokens := str_len content + 300;
             rq_temperature := (3 # 10)%Q;
             rq_options := ∅ |} with
  | Ok table_content => table_content
  | Raise _ => content
  end.

(** [f"{i+1}. {source}" for i, source in enumerate(sources)] *)
Fixpoint numbered (i : nat) (sources : list value) : list string :=
  match sources with
  | [] => []
  | source :: rest =>
      (pretty (i + 1)%nat ++ ". " ++ str source)%string :: numbered (i + 1) rest
  end.

Definition markdown_citations (sources_text : string) : string :=
  (nl ++ nl ++ "---" ++ nl ++ nl ++ "**출처:**" ++ nl ++ sources_text)%string.

Definition plain_citations (sources_text : string) : string :=
  (nl ++ nl ++ "출처:" ++ nl ++ sources_text)%string.

(** [_add_citations] *)
Definition _add_citations (content : string) (sources output_format : value)
  : res string :=
  if negb (truthy sources) then Ok content
  else
    items <- iter sources ;;
    let sources_text := join nl (numbered 0 items) in
    if eq_str output_format "markdown" then
      Ok (content ++ markdown_citations sources_text)%string
    else if eq_str output_format "json" then
      match json_loads content with
      | Ok (VDict content_json) =>
          match json_dumps (VDict (<["sources" := sources]> content_json)) with
          | Ok merged => Ok merged
          | Raise _ => Ok (content ++ plain_citations sources_text)%string
          end
      | _ => Ok (content ++ plain_citations sources_text)%string
      end
    else Ok (content ++ plain_citations sources_text)%string.

(** The dispatch on [context.get("format", "text")]. *)
Definition dispatch (content : string) (context : dict) : string :=
  let output_format := get_or context "format" (VStr "text") in
  if eq_str output_format "json" then _format_as_json content context
  else if eq_str output_format "markdown" then _format_as_markdown content context
  else if eq_str output_format "code" then _format_as_code content context
  else if eq_str output_format "table" then _format_as_table content context
  else _format_as_text content context.

Definition wants_citations (context : dict) : bool :=
  truthy (get_or context "add_citations" (VBool false))
  && truthy (get context "sources").

(** The body of the [try] of [format_response]. *)
Definition format_response_body (content prompt : string) (context : dict)
  : res string :=
  let output_format := get_or context "format" (VStr "text") in
  let formatted_response := dispatch content context in
  if wants_citations context
  then _add_citations formatted_response (get_or context "sources" (VList []))
                      output_format
  else Ok formatted_response.

(** [format_response]: on any exception the original content is
    returned. *)
Definition format_response (content prompt : string) (context : dict)
  (api_key : option string) : res string :=
  try_except (format_response_body content prompt context)
             (fun _ => Ok content).

(** The LLM call of the markdown helper fails. *)
Definition markdown_rewrite_fails : Prop :=
  forall rq, rq_template rq = MarkdownPrompt ->
             exists e, llm_service_generate_text rq = Raise e.

End Format.

(** The helpers are methods of their own: [llm_service] is a local
    variable of [format_response] and is not bound inside them, so in the
    program as written the evaluation of [llm_service.generate_text]
    raises [NameError]. *)
Definition unbound_llm_service (rq : llm_request) : res string := Raise NameError.

(** A serialiser and a parser for the scenarios; neither is reached on
    the markdown path. *)
Definition no_dumps (v : value) : res string := Raise TypeError.

Definition no_loads (s : string) : res value := Raise JSONDecodeError.

Definition two_lines : string := ("Title" ++ nl ++ "body")%string.

Definition markdown_context : dict := <["format" := VStr "markdown"]> ∅.

(** A markdown request that also asks for citations. *)
Definition cited_context : dict :=
  <["format" := VStr "markdown"]>
    (<["add_citations" := VBool true]>
       (<["sources" := VList [VStr "s1"]]> ∅)).

End Communication.

(** ** services/database.py: DatabaseService *)

Module Database.

(** The methods the class defines.  [getattr] of any other name raises
    [AttributeError]. *)
Inductive method : Type :=
| get_session
| insert_data
| find_data
| update_data
| find_one
| upsert
| delete_data.

Definition method_named (name : string) : option method :=
  if String.eqb name "get_session" then Some get_session
  else if String.eqb name "insert_data" then Some insert_data
  else if String.eqb name "find_data" then Some find_data
  else if String.eqb name "update_data" then Some update_data
  else if String.eqb name "find_one" then Some find_one
  else if String.eqb name "upsert" then Some upsert
  else if String.eqb name "delete_data" then Some delete_data
  else None.

Definition getattr (name : string) : res method :=
  match method_named name with
  | Some m => Ok m
  | None => Raise AttributeError
  end.

(** Whether a method accepts a keyword argument of the given name. *)
Definition accepts_keyword (m : method) (keyword : string) : bool :=
  match m with
  | get_session => false
  | insert_data => String.eqb keyword "collection" || String.eqb keyword "data"
  | find_data | find_one | delete_data =>
      String.eqb keyword "collection" || String.eqb keyword "query"
  | update_data =>
      String.eqb keyword "collection" || String.eqb keyword "query"
      || String.eqb keyword "update_data"
  | upsert =>
      String.eqb keyword "collection" || String.eqb keyword "query"
      || String.eqb keyword "data"
  end.

(** The tables declared on [metadata]; the rows of each. *)
Definition declared_tables : list string :=
  ["feedback"; "learning_metrics"; "conversation_context"].

Record DatabaseService : Type := {
  tables : gmap string (list dict)
}.

Definition empty_database : DatabaseService := {| tables := ∅ |}.

Definition rows (db : DatabaseService) (collection : string) : list dict :=
  default [] (tables db !! collection).

(** A row matches a query of string-valued columns. *)
Definition matches (query : list (string * string)) (row : dict) : bool :=
  forallb (fun kv => is_str (snd kv) (get row (fst kv))) query.

(** [bool(table)] for what [metadata.tables.get(collection)] returns.
    For an undeclared table that is [None], which is falsy.  For a
    declared one it is a SQLAlchemy [Table], a clause element, whose
    truth value is not defined: [ClauseElement.__bool__] raises
    [TypeError]. *)
Definition table_truth (collection : string) : res bool :=
  if existsb (String.eqb collection) declared_tables
  then Raise TypeError
  else Ok false.

(** [find_data]: [if not table] comes first, inside the [try]; an
    undeclared table and every exception give [[]]. *)
Definition find_data_rows (db : DatabaseService) (collection : string)
  (query : list (string * string)) : list dict :=
  match table_truth collection with
  | Ok true => filter (fun row => matches query row) (rows db collection)
  | Ok false => []
  | Raise _ => []
  end.

(** [find_one]: the first matching row, or [None]. *)
Definition find_one_row (db : DatabaseService) (collection : string)
  (query : list (string * string)) : option dict :=
  head (find_data_rows db collection query).

(** [insert_data]: [if not table] comes first, inside the [try]; past
    it the row is appended when the SQL engine accepts the insert.  An
    undeclared table and every exception are reported as [-1], so the
    call never raises. *)
Definition insert_data_row (engine_accepts : string -> dict -> bool)
  (db : DatabaseService) (collection : string) (data : dict) : DatabaseService :=
  match table_truth collection with
  | Ok true =>
      if engine_accepts collection data
      then {| tables := <[collection := rows db collection ++ [data]]> (tables db) |}
      else db
  | Ok false => db
  | Raise _ => db
  end.

End Database.

(** ** protocols/learning.py: AdaptiveLearningProtocol (database-backed) *)

Module Learning.

Definition feedback_collection : string := "feedback".
Definition metrics_collection : string := "learning_metrics".

(** The analysis [{"sentiment", "improvement_areas", "strengths"}]. *)
Record analysis : Type := {
  sentiment : string;
  improvement_areas : list string;
  strengths : list string
}.

Definition neutral_analysis : analysis :=
  {| sentiment := "neutral"; improvement_areas := []; strengths := [] |}.

(** The aggregate [{"metric_type": "feedback_summary", ...}]. *)
Record metrics : Type := {
  total_feedback_count : Z;
  average_rating : pyfloat;
  sentiment_distribution : gmap string Z;
  improvement_area_counts : gmap string Z;
  strength_counts : gmap string Z;
  last_updated : string
}.

Definition initial_metrics (now : string) : metrics :=
  {| total_feedback_count := 0;
     average_rating := Finite 0;
     sentiment_distribution :=
       <["positive" := 0]> (<["neutral" := 0]> (<["negative" := 0]> ∅));
     improvement_area_counts := ∅;
     strength_counts := ∅;
     last_updated := now |}.

Section Protocol.

(** The clock and the SQL engine behind [insert_data]. *)
Variable now : string.
Variable engine_accepts : string -> dict -> bool.

(** The record [store_feedback] builds and hands to [insert_data]. *)
Definition feedback_record (feedback_id request_id session_id user_id rating
                            feedback_type comment metadata : value) : dict :=
  <["feedback_id" := feedback_id]> (<["request_id" := request_id]>
  (<["session_id" := session_id]> (<["user_id" := user_id]>
  (<["rating" := rating]> (<["feedback_type" := feedback_type]>
  (<["comment" := comment]>
  (<["metadata" := if truthy metadata then metadata else VDict ∅]>
  (<["timestamp" := VStr now]> ∅)))))))).

(** [store_feedback] *)
Definition store_feedback (db : Database.DatabaseService)
  (feedback_id request_id session_id user_id rating feedback_type comment
   metadata : value) : Database.DatabaseService :=
  Database.insert_data_row engine_accepts db feedback_collection
    (feedback_record feedback_id request_id session_id user_id rating
                     feedback_type comment metadata).

(** The tag of a feedback type on a low (at most 3) or a high rating. *)
Definition type_tags (feedback_type : value) : option (string * string) :=
  if eq_str feedback_type "accuracy" then Some ("정확성 향상 필요", "높은 정확성")
  else if eq_str feedback_type "relevance" then Some ("관련성 향상 필요", "높은 관련성")
  else if eq_str feedback_type "clarity" then Some ("명확성 향상 필요", "높은 명확성")
  else if eq_str feedback_type "completeness"
       then Some ("완전성 향상 필요", "높은 완전성")
  else None.

Definition negative_keywords : list string :=
  ["오류"; "잘못"; "부정확"; "이해하기 어려움"; "불완전"; "관련 없음"].

Definition positive_keywords : list string :=
  ["좋음"; "정확"; "명확"; "유용"; "도움"; "완벽"].

(** [for keyword in keywords: if keyword in comment and tag not in tags:
    tags.append(tag); break] *)
Fixpoint scan (keywords : list string) (comment : value) (tag : string)
  (tags : list string) : res (list string) :=
  match keywords with
  | [] => Ok tags
  | keyword :: rest =>
      found <- str_in keyword comment ;;
      if found && negb (existsb (String.eqb tag) tags)
      then Ok (tags ++ [tag])
      else scan rest comment tag tags
  end.

Definition analyze_body (feedback_data : dict) : res analysis :=
  let rating := get_or feedback_data "rating" (VInt 0) in
  high <- cmp float_le (VInt 4) rating ;;
  s <- (if high then Ok "positive"
        else (low <- cmp float_le rating (VInt 2) ;;
              Ok (if low then "negative" else "neutral"))) ;;
  let feedback_type := get_or feedback_data "feedback_type" (VStr EmptyString) in
  tagged <-
    match type_tags feedback_type with
    | Some (improve, strong) =>
        low <- cmp float_le rating (VInt 3) ;;
        Ok (if low then ([improve], []) else ([], [strong]))
    | None => Ok ([], [])
    end ;;
  let comment := get_or feedback_data "comment" (VStr EmptyString) in
  if truthy comment then
    areas <- scan negative_keywords comment "개선 필요" (fst tagged) ;;
    strong <- scan positive_keywords comment "전반적으로 만족" (snd tagged) ;;
    Ok {| sentiment := s; improvement_areas := areas; strengths := strong |}
  else
    Ok {| sentiment := s; improvement_areas := fst tagged;
          strengths := snd tagged |}.

(** [_analyze_feedback]: any exception yields the neutral analysis. *)
Definition _analyze_feedback (feedback_data : dict) : analysis :=
  match analyze_body feedback_data with
  | Ok a => a
  | Raise _ => neutral_analysis
  end.

(** Reading the aggregate back from a stored row. *)
Definition as_int (v : value) : res Z :=
  match v with
  | VInt z => Ok z
  | VBool b => Ok (if b then 1 else 0)
  | _ => Raise TypeError
  end.

Definition as_number (v : value) : res pyfloat :=
  match number_of v with
  | Some x => Ok x
  | None => Raise TypeError
  end.

Fixpoint as_counters (entries : list (string * value)) : res (gmap string Z) :=
  match entries with
  | [] => Ok ∅
  | (k, v) :: rest =>
      n <- as_int v ;; m <- as_counters rest ;; Ok (<[k := n]> m)
  end.

Definition counters_of (v : value) : res (gmap string Z) :=
  match v with
  | VDict d => as_counters (map_to_list d)
  | _ => Raise TypeError
  end.

Definition metrics_of_row (row : dict) : res metrics :=
  count <- (v <- item (VDict row) "total_feedback_count" ;; as_int v) ;;
  average <- (v <- item (VDict row) "average_rating" ;; as_number v) ;;
  dist <- (v <- item (VDict row) "sentiment_distribution" ;; counters_of v) ;;
  areas <- (v <- item (VDict row) "improvement_areas" ;; counters_of v) ;;
  strong <- (v <- item (VDict row) "strengths" ;; counters_of v) ;;
  Ok {| total_feedback_count := count; average_rating := average;
        sentiment_distribution := dist; improvement_area_counts := areas;
        strength_counts := strong; last_updated := now |}.

(** [for tag in tags: counts[tag] = counts[tag] + 1 if tag in counts else 1] *)
Definition bump (counts : gmap string Z) (tag : string) : gmap string Z :=
  match counts !! tag with
  | Some n => <[tag := n + 1]> counts
  | None => <[tag := 1]> counts
  end.

(** The read-modify part of [_update_learning_metrics]: the new aggregate
    computed in memory from the old one and one feedback event. *)
Definition updated_metrics (m : metrics) (feedback_data : dict) (a : analysis)
  : res metrics :=
  let count := total_feedback_count m + 1 in
  let current_total := float_mul (average_rating m) (count - 1) in
  rating <- as_number (get_or feedback_data "rating" (VInt 0)) ;;
  let new_total := float_add current_total rating in
  average <- (if count =? 0 then Raise ZeroDivisionError
              else Ok (float_div new_total count)) ;;
  n <- match sentiment_distribution m !! sentiment a with
       | Some n => Ok n
       | None => Raise KeyError
       end ;;
  Ok {| total_feedback_count := count;
        average_rating := average;
        sentiment_distribution := <[sentiment a := n + 1]> (sentiment_distribution m);
        improvement_area_counts :=
          fold_left bump (improvement_areas a) (improvement_area_counts m);
        strength_counts := fold_left bump (strengths a) (strength_counts m);
        last_updated := now |}.

Definition feedback_summary : list (string * string) :=
  [("metric_type", "feedback_summary")].

(** [_update_learning_metrics].  The write is
    [self.db_service.update_one(collection, filter, {"$set": metrics},
    upsert=True)]: the attribute lookup comes first, and a method that is
    found is called with the keyword [upsert].  Every exception is logged
    and swallowed. *)
Definition update_body (db : Database.DatabaseService) (feedback_data : dict)
  (a : analysis) : res Database.DatabaseService :=
  m <- match Database.find_one_row db metrics_collection feedback_summary with
       | Some row => if truthy (VDict row) then metrics_of_row row
                     else Ok (initial_metrics now)
       | None => Ok (initial_metrics now)
       end ;;
  m' <- updated_metrics m feedback_data a ;;
  update_one <- Database.getattr "update_one" ;;
  if Database.accepts_keyword update_one "upsert"
  then Ok db
  else Raise TypeError.

Definition _update_learning_metrics (db : Database.DatabaseService)
  (feedback_data : dict) (a : analysis) : Database.DatabaseService :=
  match update_body db feedback_data a with
  | Ok db' => db'
  | Raise _ => db
  end.

(** [process_feedback]: the database after the call. *)
Definition process_feedback (db : Database.DatabaseService) (feedback_data : dict)
  : Database.DatabaseService :=
  let db := store_feedback db
              (get feedback_data "feedback_id") (get feedback_data "request_id")
              (get feedback_data "session_id") (get feedback_data "user_id")
              (get feedback_data "rating") (get feedback_data "feedback_type")
              (get feedback_data "comment") (get feedback_data "metadata") in
  let analysis_result := _analyze_feedback feedback_data in
  _update_learning_metrics db feedback_data analysis_result.

(** [get_learning_metrics]: the stored aggregate, or the zero aggregate. *)
Definition zero_summary : dict :=
  <["metric_type" := VStr "feedback_summary"]>
  (<["total_feedback_count" := VInt 0]>
  (<["average_rating" := VInt 0]>
  (<["sentiment_distribution" :=
       VDict (<["positive" := VInt 0]> (<["neutral" := VInt 0]>
             (<["negative" := VInt 0]> ∅)))]>
  (<["improvement_areas" := VDict ∅]>
  (<["strengths" := VDict ∅]>
  (<["last_updated" := VStr now]> ∅)))))).

Definition get_learning_metrics (db : Database.DatabaseService) : dict :=
  match Database.find_one_row db metrics_collection feedback_summary with
  | Some row => if truthy (VDict row) then row else zero_summary
  | None => zero_summary
  end.

End Protocol.

(** A feedback event carrying only a rating. *)
Definition rated (r : Z) : dict := <["rating" := VInt r]> ∅.

(** One feedback event applied to an aggregate held in memory. *)
Definition fed_back (now : string) (m : metrics) (feedback_data : dict)
  : res metrics :=
  updated_metrics now m feedback_data (_analyze_feedback feedback_data).

End Learning.
(** ** protocols/learning.py: the remaining accessors of the
       database-backed protocol *)

Module LearningStore.

(** The columns each declared table has ([table.c]).  The column
    collection has method names of its own as well; no query of the
    program uses one as a key. *)
Definition columns (collection : string) : list string :=
  if String.eqb collection "feedback"
  then ["id"; "user_id"; "session_id"; "feedback_type"; "content"; "rating";
        "metadata"; "created_at"]
  else if String.eqb collection "learning_metrics"
  then ["id"; "metric_type"; "value"; "created_at"]
  else if String.eqb collection "conversation_context"
  then ["id"; "session_id"; "messages"; "created_at"; "updated_at"]
  else [].

(** [find_data]: only the keys of the query that name a column of the
    table become conditions ([if hasattr(table.c, key)]). *)
Definition find_data (db : Database.DatabaseService) (collection : string)
  (query : list (string * string)) : list dict :=
  Database.find_data_rows db collection
    (filter (fun kv => existsb (String.eqb (fst kv)) (columns collection)) query).

(** [find_one] *)
Definition find_one (db : Database.DatabaseService) (collection : string)
  (query : list (string * string)) : option dict :=
  head (find_data db collection query).

(** [get_feedback] *)
Definition get_feedback (db : Database.DatabaseService) (feedback_id : string)
  : option dict :=
  find_one db Learning.feedback_collection [("feedback_id", feedback_id)].

(** [get_feedback_by_request]: the call is
    [self.db_service.find(collection, {"request_id": request_id})]; the
    attribute lookup comes first, and every exception yields [[]]. *)
Definition get_feedback_by_request (db : Database.DatabaseService)
  (request_id : string) : list dict :=
  match (find <- Database.getattr "find" ;;
         match find with
         | Database.find_data =>
             Ok (find_data db Learning.feedback_collection
                   [("request_id", request_id)])
         | _ => Raise TypeError
         end) with
  | Ok feedbacks => feedbacks
  | Raise _ => []
  end.

Section Store.

(** The clock, [str(e)] of an exception, and the SQL engine. *)
Variable now : string.
Variable str_exn : exn -> string.
Variable engine_accepts : string -> dict -> bool.

(** [store_interaction]: the database after the call and the dict
    returned.  [{**interaction_data, ...}] needs a mapping. *)
Definition store_interaction (db : Database.DatabaseService)
  (interaction_data context : value) : Database.DatabaseService * dict :=
  match Generation.as_mapping interaction_data with
  | Raise e =>
      (db, <["error" := VStr (str_exn e)]> (<["status" := VStr "failed"]> ∅))
  | Ok data =>
      let interaction := <["created_at" := VStr now]> data in
      let interaction :=
        if truthy context then <["context" := context]> interaction
        else interaction in
      (Database.insert_data_row engine_accepts db "user_interactions" interaction,
       interaction)
  end.

(** A run of feedback events over an aggregate held in memory, each
    update starting from the result of the one before. *)
Fixpoint feed (m : Learning.metrics) (events : list dict) : res Learning.metrics :=
  match events with
  | [] => Ok m
  | feedback_data :: rest =>
      m' <- Learning.fed_back now m feedback_data ;; feed m' rest
  end.

End Store.

Definition counter (counts : gmap string Z) (key : string) : Z :=
  default 0 (counts !! key).

(** A rating the arithmetic of [_update_learning_metrics] takes without
    an [OverflowError]: a float, a bool, or an integer that a double
    holds exactly. *)
Definition float_safe (v : value) : bool :=
  match v with
  | VFloat _ | VBool _ => true
  | VInt z => Z.abs z <=? 2 ^ 53
  | _ => false
  end.

(** Three feedback events, the second with a rating that is NaN. *)
Definition mixed_ratings : list dict :=
  [Learning.rated 5; <["rating" := VFloat NaN]> ∅; Learning.rated 1].

(** A feedback with a top rating whose comment reports an error. *)
Definition praised_with_error : dict :=
  <["rating" := VInt 5]> (<["comment" := VStr "오류가 있음"]> ∅).

End LearningStore.

(** ** protocols/adaptive_learning.py: AdaptiveLearningProtocol (in-memory) *)

Module AdaptiveLearning.

Inductive template : Type :=
| FeedbackAnalysisPrompt (content : value)
| ImprovementPrompt (content rating summary sentiment : value)
                    (aspects : list string).

Record llm_request : Type := {
  rq_template : template;
  rq_max_tokens : Z;
  rq_temperature : Q;
  rq_options : dict
}.

Definition json_request (t : template) : llm_request :=
  {| rq_template := t;
     rq_max_tokens := 500;
     rq_temperature := (3 # 10)%Q;
     rq_options := <["format" := VStr "json"]> ∅ |}.

(** The instance state. *)
Record AdaptiveLearningProtocol : Type := {
  feedback_history : list dict;
  improvement_suggestions : list dict;
  metadata : dict
}.

(** Python arithmetic on numbers; a non-number raises [TypeError]. *)
Definition add (a b : value) : res value :=
  match a, b with
  | VInt x, VInt y => Ok (VInt (x + y))
  | _, _ =>
      match number_of a, number_of b with
      | Some x, Some y => Ok (VFloat (float_add x y))
      | _, _ => Raise TypeError
      end
  end.

(** [a / n]: true division, a float. *)
Definition truediv (a : value) (n : Z) : res value :=
  match number_of a with
  | Some x => if n =? 0 then Raise ZeroDivisionError
              else Ok (VFloat (float_div x n))
  | None => Raise TypeError
  end.

Fixpoint sum_from (acc : value) (xs : list value) : res value :=
  match xs with
  | [] => Ok acc
  | x :: rest => acc' <- add acc x ;; sum_from acc' rest
  end.

Definition has_key (k : string) (d : dict) : bool :=
  match d !! k with Some _ => true | None => false end.

(** [d[k] = feedback[k]] when [k in feedback] *)
Definition copy_if_present (k : string) (feedback validated : dict) : dict :=
  match feedback !! k with
  | Some v => <[k := v]> validated
  | None => validated
  end.

(** [min(max(rating, 1), 5)] *)
Definition clamp (rating : value) : res value :=
  floor <- max2 rating (VInt 1) ;; min2 floor (VInt 5).

Section Protocol.

(** The clock in its two formats, [json.loads] and the LLM service. *)
Variable now : string.
Variable now_compact : string.
Variable json_loads : string -> res value.
Variable generate_text : llm_request -> res string.

(** [_validate_feedback] *)
Definition _validate_feedback (feedback : dict) : res dict :=
  let validated : dict := ∅ in
  let validated :=
    <["id" := get_or feedback "id" (VStr ("feedback_" ++ now_compact))]> validated in
  let validated := <["type" := get_or feedback "type" (VStr "general")]> validated in
  let validated :=
    <["content" := get_or feedback "content" (VStr EmptyString)]> validated in
  rating <- clamp (get_or feedback "rating" (VInt 5)) ;;
  let validated := <["rating" := rating]> validated in
  let validated := copy_if_present "request_id" feedback validated in
  let validated := copy_if_present "user_id" feedback validated in
  let validated := copy_if_present "tags" feedback validated in
  let validated := copy_if_present "metadata" feedback validated in
  Ok (<["timestamp" := get_or feedback "timestamp" (VStr now)]> validated).

(** [_store_feedback]: the history is extended first; the instance after
    the call and whether the call raised. *)
Definition _store_feedback (self : AdaptiveLearningProtocol) (feedback : dict)
  : AdaptiveLearningProtocol * res unit :=
  let history := feedback_history self ++ [feedback] in
  let appended :=
    {| feedback_history := history;
       improvement_suggestions := improvement_suggestions self;
       metadata := metadata self |} in
  match (i <- item (VDict feedback) "id" ;;
         t <- item (VDict feedback) "timestamp" ;;
         r <- item (VDict feedback) "rating" ;;
         Ok (<["id" := i]> (<["timestamp" := t]> (<["rating" := r]> ∅)) : dict)) with
  | Raise e => (appended, Raise e)
  | Ok last =>
      let noted := <["last_feedback" := VDict last]> (metadata self) in
      let ratings :=
        map (fun f : dict => get_or f "rating" (VInt 0))
            (filter (fun f : dict => has_key "rating" f) history) in
      match (match ratings with
             | [] => Ok (VInt 0)
             | _ :: _ =>
                 total <- sum_from (VInt 0) ratings ;;
                 truediv total (Z.of_nat (length ratings))
             end) with
      | Raise e =>
          ({| feedback_history := history;
              improvement_suggestions := improvement_suggestions self;
              metadata := noted |}, Raise e)
      | Ok avg_rating =>
          ({| feedback_history := history;
              improvement_suggestions := improvement_suggestions self;
              metadata := <["average_rating" := avg_rating]> noted |}, Ok tt)
      end
  end.

Definition analysis_dict (sentiment summary confidence aspects : value) : dict :=
  <["sentiment" := sentiment]> (<["summary" := summary]>
  (<["confidence" := confidence]> (<["aspects" := aspects]> ∅))).

(** [_analyze_rating] *)
Definition _analyze_rating (feedback : dict) : res dict :=
  rating <- item (VDict feedback) "rating" ;;
  high <- cmp float_le (VInt 4) rating ;;
  if high then
    Ok (analysis_dict (VStr "positive") (VStr "사용자가 응답에 만족했습니다.")
                      (VFloat (9 # 10)) (VDict ∅))
  else
    middle <- cmp float_le (VInt 3) rating ;;
    if middle then
      Ok (analysis_dict (VStr "neutral")
                        (VStr "사용자가 응답에 보통 수준으로 만족했습니다.")
                        (VFloat (9 # 10)) (VDict ∅))
    else
      Ok (analysis_dict (VStr "negative") (VStr "사용자가 응답에 불만족했습니다.")
                        (VFloat (9 # 10)) (VDict ∅)).

Definition failed_text_analysis : dict :=
  analysis_dict (VStr "unknown") (VStr "피드백 분석 중 오류가 발생했습니다.")
                (VFloat (3 # 10)) (VDict ∅).

(** [_analyze_text_feedback]: never raises. *)
Definition _analyze_text_feedback (feedback context : dict) : dict :=
  let content := get_or feedback "content" (VStr EmptyString) in
  if negb (truthy content) then
    analysis_dict (VStr "unknown") (VStr "텍스트 피드백이 없습니다.")
                  (VFloat (5 # 10)) (VDict ∅)
  else
    match generate_text (json_request (FeedbackAnalysisPrompt content)) with
    | Raise _ => failed_text_analysis
    | Ok analysis_result =>
        match json_loads analysis_result with
        | Raise _ => failed_text_analysis
        | Ok parsed =>
            match (s <- obj_get parsed "sentiment" (VStr "unknown") ;;
                   m <- obj_get parsed "summary" (VStr "분석 불가") ;;
                   c <- obj_get parsed "confidence" (VFloat (5 # 10)) ;;
                   a <- obj_get parsed "aspects" (VDict ∅) ;;
                   Ok (analysis_dict s m c a)) with
            | Ok d => d
            | Raise _ => failed_text_analysis
            end
        end
    end.

(** [_analyze_general_feedback] *)
Definition _analyze_general_feedback (feedback context : dict) : res dict :=
  rating_analysis <- _analyze_rating feedback ;;
  if truthy (get feedback "content") then
    let text_analysis := _analyze_text_feedback feedback context in
    total <- add (get rating_analysis "confidence")
                 (get_or text_analysis "confidence" (VFloat (5 # 10))) ;;
    confidence <- truediv total 2 ;;
    Ok (analysis_dict
          (get_or text_analysis "sentiment" (get rating_analysis "sentiment"))
          (get_or text_analysis "summary" (get rating_analysis "summary"))
          confidence
          (get_or text_analysis "aspects" (VDict ∅)))
  else Ok rating_analysis.

(** [_analyze_feedback] *)
Definition _analyze_feedback (feedback context : dict) : res dict :=
  type <- item (VDict feedback) "type" ;;
  if eq_str type "rating_only" then _analyze_rating feedback
  else if eq_str type "text_feedback"
       then Ok (_analyze_text_feedback feedback context)
  else _analyze_general_feedback feedback context.

Definition suggestion (feedback_id area text priority : value) : dict :=
  <["id" := VStr ("suggestion_" ++ now_compact)]>
  (<["feedback_id" := feedback_id]> (<["area" := area]>
  (<["suggestion" := text]> (<["priority" := priority]>
  (<["timestamp" := VStr now]> (<["implemented" := VBool false]> ∅)))))).

(** The keys of [analysis.get('aspects', {})] joined by the f-string. *)
Definition aspect_names (analysis : dict) : res (list string) :=
  if truthy (get analysis "aspects") then
    match get_or analysis "aspects" (VDict ∅) with
    | VDict d => Ok (map fst (map_to_list d))
    | _ => Raise AttributeError
    end
  else Ok [].

(** [_generate_improvement_suggestion] *)
Definition _generate_improvement_suggestion (feedback analysis context : dict)
  : res dict :=
  names <- aspect_names analysis ;;
  let prompt :=
    ImprovementPrompt (get_or feedback "content" (VStr "(내용 없음)"))
                      (get_or feedback "rating" (VStr "없음"))
                      (get_or analysis "summary" (VStr "분석 없음"))
                      (get_or analysis "sentiment" (VStr "알 수 없음"))
                      names in
  match generate_text (json_request prompt) with
  | Raise _ =>
      i <- item (VDict feedback) "id" ;;
      Ok (suggestion i (VStr "general")
            (VStr "개선 제안을 생성하는 중 오류가 발생했습니다.") (VStr "low"))
  | Ok suggestion_result =>
      match json_loads suggestion_result with
      | Raise JSONDecodeError =>
          match item (VDict feedback) "id" with
          | Ok i => Ok (suggestion i (VStr "general")
                          (VStr "사용자 피드백을 기반으로 응답의 품질을 개선하세요.")
                          (VStr "medium"))
          | Raise _ =>
              i <- item (VDict feedback) "id" ;;
              Ok (suggestion i (VStr "general")
                    (VStr "개선 제안을 생성하는 중 오류가 발생했습니다.") (VStr "low"))
          end
      | Raise _ =>
          i <- item (VDict feedback) "id" ;;
          Ok (suggestion i (VStr "general")
                (VStr "개선 제안을 생성하는 중 오류가 발생했습니다.") (VStr "low"))
      | Ok parsed =>
          match (i <- item (VDict feedback) "id" ;;
                 a <- obj_get parsed "area" (VStr "general") ;;
                 s <- obj_get parsed "suggestion"
                        (VStr "개선 제안을 생성할 수 없습니다.") ;;
                 p <- obj_get parsed "priority" (VStr "medium") ;;
                 Ok (suggestion i a s p)) with
          | Ok d => Ok d
          | Raise _ =>
              i <- item (VDict feedback) "id" ;;
              Ok (suggestion i (VStr "general")
                    (VStr "개선 제안을 생성하는 중 오류가 발생했습니다.")
                    (VStr "low"))
          end
      end
  end.

Definition add_suggestion (self : AdaptiveLearningProtocol) (improvement : dict)
  : AdaptiveLearningProtocol :=
  {| feedback_history := feedback_history self;
     improvement_suggestions := improvement_suggestions self ++ [improvement];
     metadata := metadata self |}.

Definition processed (validated analysis_result : dict) : dict :=
  <["feedback_id" := get validated "id"]> (<["status" := VStr "processed"]>
  (<["timestamp" := VStr now]> (<["analysis" := VDict analysis_result]> ∅))).

(** [process_feedback]: the instance after the call and its outcome; an
    exception is logged and raised again. *)
Definition process_feedback (self : AdaptiveLearningProtocol)
  (feedback context : dict) : AdaptiveLearningProtocol * res dict :=
  match _validate_feedback feedback with
  | Raise e => (self, Raise e)
  | Ok validated_feedback =>
      match _store_feedback self validated_feedback with
      | (self, Raise e) => (self, Raise e)
      | (self, Ok _) =>
          match _analyze_feedback validated_feedback context with
          | Raise e => (self, Raise e)
          | Ok analysis_result =>
              match cmp float_lt (get_or feedback "rating" (VInt 5)) (VInt 4) with
              | Raise e => (self, Raise e)
              | Ok true =>
                  match _generate_improvement_suggestion validated_feedback
                          analysis_result context with
                  | Raise e => (self, Raise e)
                  | Ok improvement =>
                      (add_suggestion self improvement,
                       Ok (processed validated_feedback analysis_result))
                  end
              | Ok false =>
                  (self, Ok (processed validated_feedback analysis_result))
              end
          end
      end
  end.

End Protocol.

(** A feedback with a rating of 7, and one without a rating. *)
Definition over_rated : dict :=
  <["id" := VStr "f1"]> (<["type" := VStr "rating_only"]>
  (<["rating" := VInt 7]> ∅)).

Definition unrated : dict :=
  <["id" := VStr "f2"]> (<["type" := VStr "rating_only"]> ∅).

(** A feedback whose rating is NaN, and a feedback that carries a text
    and no rating. *)
Definition nan_rated : dict :=
  <["id" := VStr "f3"]> (<["type" := VStr "rating_only"]>
  (<["rating" := VFloat NaN]> ∅)).

Definition unrated_text : dict :=
  <["id" := VStr "f4"]> (<["content" := VStr "too slow"]> ∅).

Definition fresh : AdaptiveLearningProtocol :=
  {| feedback_history := []; improvement_suggestions := []; metadata := ∅ |}.

Definition no_loads (s : string) : res value := Raise JSONDecodeError.

Definition no_llm (rq : llm_request) : res string := Raise (BackendError "503").

End AdaptiveLearning.
(** ** api/generate.py and api/chat.py: how the stages are chained *)

Module Pipeline.

(** The Python object a [Knowledge.KnowledgeContext] stands for, as
    [retrieve_knowledge] returns it and the endpoints hand it to
    [reasoning_protocol.analyze]: the entries of [relevant_info] are the
    dicts [{"content", "score", "source"}] the search helpers build. *)
Definition info_dict (i : Knowledge.info) : dict :=
  <["content" := VStr (Knowledge.content i)]>
  (<["score" := VFloat (Knowledge.score i)]>
  (<["source" := VStr (Knowledge.source i)]> ∅)).

Definition knowledge_dict (kc : Knowledge.KnowledgeContext) : dict :=
  <["relevant_info" := VList (map (fun i => VDict (info_dict i))
                                  (Knowledge.relevant_info kc))]>
  (<["sources" := VList (map VStr (Knowledge.sources kc))]>
  (<["confidence" := VFloat (Knowledge.confidence kc)]> ∅)).

(** An LLM that fails on the knowledge-evaluation prompt and answers
    every other prompt like [Reasoning.not_json]. *)
Definition silent_on_evaluation (rq : Reasoning.llm_request) : res string :=
  match Reasoning.step_of (Reasoning.rq_prompt rq) with
  | Reasoning.KnowledgeEvaluation => Raise (BackendError "unused")
  | _ => Reasoning.not_json rq
  end.

(** A knowledge context holding one retrieved entry. *)
Definition one_hit : Knowledge.KnowledgeContext :=
  {| Knowledge.relevant_info :=
       [{| Knowledge.content := "MCP is a protocol";
           Knowledge.score := (8 # 10)%Q;
           Knowledge.source := "web" |}];
     Knowledge.sources := ["web"];
     Knowledge.confidence := (8 # 10)%Q |}.

End Pipeline.
(** ** protocols/adaptive_learning.py: the accessors of the in-memory
       protocol and the states it can reach *)

Module AdaptiveState.

Section State.

(** [self._get_timestamp()] *)
Variable now : string.

(** The loop of [mark_suggestion_implemented]: the first suggestion whose
    id equals [suggestion_id] is updated in place; [None] when the loop
    runs to its end. *)
Fixpoint mark (suggestions : list dict) (suggestion_id : string)
  : option (list dict) :=
  match suggestions with
  | [] => None
  | suggestion :: rest =>
      if eq_str (get suggestion "id") suggestion_id
      then Some (<["implementation_date" := VStr now]>
                   (<["implemented" := VBool true]> suggestion) :: rest)
      else option_map (cons suggestion) (mark rest suggestion_id)
  end.

(** [mark_suggestion_implemented]: the instance after the call and the
    value returned. *)
Definition mark_suggestion_implemented
  (self : AdaptiveLearning.AdaptiveLearningProtocol) (suggestion_id : string)
  : AdaptiveLearning.AdaptiveLearningProtocol * bool :=
  match mark (AdaptiveLearning.improvement_suggestions self) suggestion_id with
  | Some suggestions =>
      ({| AdaptiveLearning.feedback_history :=
            AdaptiveLearning.feedback_history self;
          AdaptiveLearning.improvement_suggestions := suggestions;
          AdaptiveLearning.metadata := AdaptiveLearning.metadata self |}, true)
  | None => (self, false)
  end.

End State.

(** [get_feedback_history] *)
Definition get_feedback_history
  (self : AdaptiveLearning.AdaptiveLearningProtocol) : list dict :=
  AdaptiveLearning.feedback_history self.

(** [get_improvement_suggestions] *)
Definition get_improvement_suggestions
  (self : AdaptiveLearning.AdaptiveLearningProtocol) (implemented_only : bool)
  : list dict :=
  if implemented_only
  then List.filter (fun s : dict => truthy (get_or s "implemented" (VBool false)))
                   (AdaptiveLearning.improvement_suggestions self)
  else AdaptiveLearning.improvement_suggestions self.

(** The instances the program can hold: a freshly constructed one, and
    one obtained from a call of [process_feedback] or of
    [mark_suggestion_implemented]. *)
Inductive reachable : AdaptiveLearning.AdaptiveLearningProtocol -> Prop :=
| reachable_fresh : reachable AdaptiveLearning.fresh
| reachable_process now now_compact json_loads generate_text self feedback
    context :
    reachable self ->
    reachable (fst (AdaptiveLearning.process_feedback now now_compact json_loads
                      generate_text self feedback context))
| reachable_mark now self suggestion_id :
    reachable self ->
    reachable (fst (mark_suggestion_implemented now self suggestion_id)).

(** A feedback carrying only a rating, for either protocol. *)
Definition rating_only (rating : value) : dict := <["rating" := rating]> ∅.

(** A general feedback with a low rating and a text. *)
Definition complaint : dict :=
  <["id" := VStr "f3"]> (<["rating" := VInt 2]>
  (<["content" := VStr "too slow"]> ∅)).

End AdaptiveState.
(** ** api/feedback.py and api/chat.py: the endpoints over the protocols *)

Module Api.

(** What a handler can raise: a Python exception, or FastAPI's
    [HTTPException], which is an [Exception] too. *)
Inductive raised : Type :=
| PyExn (e : exn)
| HTTPException (status_code : Z) (detail : string).

Inductive outcome (A : Type) : Type :=
| Return (a : A)
| Raised (e : raised).

Arguments Return {A} a.
Arguments Raised {A} e.

Definition and_then {A B : Type} (m : outcome A) (k : A -> outcome B) : outcome B :=
  match m with
  | Return a => k a
  | Raised e => Raised e
  end.

(** [try: body except Exception as e:
     raise HTTPException(status_code=500, detail=str(e))] *)
Definition internal_error {A : Type} (str : raised -> string) (body : outcome A)
  : outcome A :=
  match body with
  | Return a => Return a
  | Raised e => Raised (HTTPException 500 (str e))
  end.

(** A local variable of a function body: [None] until an assignment has
    run.  Reading it before raises [UnboundLocalError], a [NameError]. *)
Definition read_local {A : Type} (x : option A) : outcome A :=
  match x with
  | Some a => Return a
  | None => Raised (PyExn NameError)
  end.

(** An [Optional[str]] and an [Optional[Dict]] field as Python objects. *)
Definition optional_str (o : option string) : value :=
  match o with Some s => VStr s | None => VNone end.

Definition optional_dict (o : option dict) : value :=
  match o with Some d => VDict d | None => VNone end.

(** The models of api/feedback.py. *)
Record FeedbackRequest : Type := {
  fr_request_id : string;
  fr_session_id : option string;
  fr_user_id : option string;
  fr_rating : Z;
  fr_feedback_type : string;
  fr_comment : option string;
  fr_metadata : option dict
}.

Record FeedbackResponse : Type := {
  feedback_id : string;
  status : string;
  timestamp : string
}.

(** The models of api/chat.py. *)
Record ChatMessage : Type := {
  role : string;
  content : string;
  message_timestamp : string
}.

Record ChatRequest : Type := {
  messages : list ChatMessage;
  session_id : option string;
  user_id : option string;
  stream : bool;
  options : option dict;
  llm_config : option dict;
  api_key : option string
}.

Record ChatResponse : Type := {
  message : ChatMessage;
  response_session_id : string;
  response_request_id : string;
  used_knowledge : value;
  reasoning_steps : value
}.

Section Endpoints.

(** [str(e)], the [n]-th [uuid.uuid4()] drawn by a call, the clock and
    the SQL engine. *)
Variable str : raised -> string.
Variable uuid4 : nat -> string.
Variable now : string.
Variable engine_accepts : string -> dict -> bool.

(** [submit_feedback]: the database after the call and its outcome.  The
    range check raises inside the [try]. *)
Definition submit_feedback (db : Database.DatabaseService)
  (request : FeedbackRequest)
  : Database.DatabaseService * outcome FeedbackResponse :=
  let feedback_id := uuid4 0 in
  if (fr_rating request <? 1) || (5 <? fr_rating request)
  then (db, internal_error str
              (Raised (HTTPException 400 "Rating must be between 1 and 5")))
  else
    (Learning.store_feedback now engine_accepts db
       (VStr feedback_id) (VStr (fr_request_id request))
       (optional_str (fr_session_id request)) (optional_str (fr_user_id request))
       (VInt (fr_rating request)) (VStr (fr_feedback_type request))
       (optional_str (fr_comment request)) (optional_dict (fr_metadata request)),
     internal_error str
       (Return {| feedback_id := feedback_id; status := "success";
                  timestamp := now |})).

(** The five stages as [chat] calls them. *)
Variable manage_context : list ChatMessage -> string -> dict.
Variable retrieve_knowledge : string -> dict -> dict.
Variable analyze : string -> dict -> dict -> option string -> dict.
Variable generate : string -> dict -> dict -> dict -> option dict -> option string
                    -> res string.
Variable format_response : string -> string -> dict -> option string -> string.
Variable get_sources : value.
Variable get_steps : value.

(** The body of the [try] of [chat].  [api_key] is a local variable of
    the function (it is assigned at line 81), so the read at line 77,
    in the arguments of [analyze], comes before any assignment. *)
Definition chat_body (request : ChatRequest) : outcome ChatResponse :=
  let api_key_local : option (option string) := None in
  let request_id := uuid4 0 in
  let session_id :=
    match session_id request with
    | Some s => if truthy (VStr s) then s else uuid4 1
    | None => uuid4 1
    end in
  match find (fun m => String.eqb (role m) "user") (messages request) with
  | None => Raised (HTTPException 400 "User message not found")
  | Some user_message =>
      let context := manage_context (messages request) session_id in
      let knowledge_context :=
        retrieve_knowledge (content user_message) context in
      and_then (read_local api_key_local) (fun key =>
      let reasoning_result :=
        analyze (content user_message) knowledge_context context key in
      let llm_config := llm_config request in
      let api_key_local := Some (api_key request) in
      and_then (read_local api_key_local) (fun key =>
      match generate (content user_message) reasoning_result knowledge_context
                     context llm_config key with
      | Raise e => Raised (PyExn e)
      | Ok generated_content =>
          let final_response :=
            format_response generated_content (content user_message) context
                            key in
          Return {| message := {| role := "assistant";
                                  content := final_response;
                                  message_timestamp := now |};
                    response_session_id := session_id;
                    response_request_id := request_id;
                    used_knowledge := get_sources;
                    reasoning_steps := get_steps |}
      end))
  end.

(** [chat] *)
Definition chat (request : ChatRequest) : outcome ChatResponse :=
  internal_error str (chat_body request).

End Endpoints.

End Api.

(** * Properties *)

(** ** Comparisons on rationals *)

Module PyProps.

Lemma Qlt_bool_iff (a b : Q) : Qlt_bool a b = true <-> (a < b)%Q.
Proof.
  unfold Qlt_bool. rewrite negb_true_iff.
  split.
  - intros H. apply Qnot_le_lt. intros Hle.
    apply Qle_bool_iff in Hle. congruence.
  - intros H. destruct (Qle_bool b a) eqn:E; [|reflexivity].
    apply Qle_bool_iff in E. exfalso. exact (Qlt_not_le _ _ H E).
Qed.

Lemma Qlt_bool_false (a b : Q) : Qlt_bool a b = false <-> (b <= a)%Q.
Proof.
  unfold Qlt_bool. rewrite negb_false_iff. apply Qle_bool_iff.
Qed.

(** A rational is a number of its own. *)
Lemma num_number_of v q : num v = Some q -> number_of v = Some (Finite q).
Proof.
  destruct v as [| b | z | [x | p |] | | |]; simpl; try discriminate;
    now intros [= <-].
Qed.

(** *** The order of the floats other than NaN *)

Lemma float_lt_not_nan a b :
  float_lt a b = true -> is_nan a = false /\ is_nan b = false.
Proof. destruct a, b; simpl; try discriminate; auto. Qed.

Lemma float_le_refl a : is_nan a = false -> float_le a a = true.
Proof.
  destruct a as [q | [] |]; simpl; try discriminate; intros _; auto.
  apply Qle_bool_iff, Qle_refl.
Qed.

Lemma float_lt_le a b : float_lt a b = true -> float_le a b = true.
Proof.
  destruct a as [x | [] |], b as [y | [] |]; simpl; try discriminate; auto.
  intros H. apply Qlt_bool_iff in H. now apply Qle_bool_iff, Qlt_le_weak.
Qed.

Lemma float_le_total a b :
  is_nan a = false -> is_nan b = false ->
  float_lt a b = false -> float_le b a = true.
Proof.
  destruct a as [x | [] |], b as [y | [] |]; simpl; try discriminate;
    intros _ _; auto.
  intros H. now apply Qle_bool_iff, Qlt_bool_false.
Qed.

Lemma float_le_trans a b c :
  float_le a b = true -> float_le b c = true -> float_le a c = true.
Proof.
  destruct a as [x | [] |], b as [y | [] |], c as [z | [] |]; simpl;
    try discriminate; auto.
  intros H1 H2. apply Qle_bool_iff in H1, H2.
  apply Qle_bool_iff. now apply Qle_trans with y.
Qed.

Lemma float_lt_irrefl_le a b :
  float_lt a b = true -> float_le b a = false.
Proof.
  destruct a as [x | [] |], b as [y | [] |]; simpl; try discriminate; auto.
  intros H. apply Qlt_bool_iff in H.
  destruct (Qle_bool y x) eqn:E; [|reflexivity].
  apply Qle_bool_iff in E. exfalso. exact (Qlt_not_le _ _ H E).
Qed.

Lemma float_max2_ge_l a b :
  is_nan a = false -> float_le a (float_max2 a b) = true.
Proof.
  intros Ha. unfold float_max2.
  destruct (float_lt a b) eqn:E; [now apply float_lt_le | now apply float_le_refl].
Qed.

Lemma float_max2_ge_r a b :
  is_nan a = false -> is_nan b = false -> float_le b (float_max2 a b) = true.
Proof.
  intros Ha Hb. unfold float_max2.
  destruct (float_lt a b) eqn:E; [now apply float_le_refl | now apply float_le_total].
Qed.

Lemma float_max2_cases a b : float_max2 a b = a \/ float_max2 a b = b.
Proof. unfold float_max2. destruct (float_lt a b); auto. Qed.

(** The running maximum that starts at a float other than NaN never
    becomes NaN. *)
Lemma float_max2_not_nan a b : is_nan a = false -> is_nan (float_max2 a b) = false.
Proof.
  intros Ha. unfold float_max2. destruct (float_lt a b) eqn:E; [|exact Ha].
  now apply float_lt_not_nan in E.
Qed.

End PyProps.

(** ** Knowledge stage *)

Module KnowledgeProps.
Import Knowledge PyProps.

(** *** The insertion-ordered dict *)

Lemma lookup_content_In c d v :
  lookup_content c d = Some v -> In (c, v) d.
Proof.
  induction d as [|[k w] d IH]; simpl; [discriminate|].
  destruct (String.eqb k c) eqn:E.
  - apply String.eqb_eq in E. intros [= ->]. subst. now left.
  - intros H. right. auto.
Qed.

Lemma lookup_content_None c d :
  lookup_content c d = None <-> ~ In c (map fst d).
Proof.
  induction d as [|[k w] d IH]; simpl.
  - tauto.
  - destruct (String.eqb k c) eqn:E.
    + apply String.eqb_eq in E. split; [discriminate|]. intros H. exfalso. auto.
    + apply String.eqb_neq in E. rewrite IH. tauto.
Qed.

Lemma assign_keys_present c i d :
  In c (map fst d) -> map fst (assign c i d) = map fst d.
Proof.
  induction d as [|[k w] d IH]; simpl; [tauto|].
  destruct (String.eqb k c) eqn:E; simpl; [reflexivity|].
  apply String.eqb_neq in E. intros [H|H]; [congruence|].
  now rewrite IH.
Qed.

Lemma assign_keys_fresh c i d :
  ~ In c (map fst d) -> map fst (assign c i d) = map fst d ++ [c].
Proof.
  induction d as [|[k w] d IH]; simpl; [reflexivity|].
  intros H. destruct (String.eqb k c) eqn:E.
  - apply String.eqb_eq in E. exfalso. auto.
  - simpl. rewrite IH; auto.
Qed.

Lemma assign_In c i d k v :
  List.NoDup (map fst d) ->
  In (k, v) (assign c i d) ->
  (k = c /\ v = i) \/ (k <> c /\ In (k, v) d).
Proof.
  induction d as [|[k' w] d IH]; simpl; intros Hnd Hin.
  - destruct Hin as [[= <- <-]|[]]. now left.
  - apply List.NoDup_cons_iff in Hnd as [Hk' Hnd].
    destruct (String.eqb k' c) eqn:E.
    + apply String.eqb_eq in E. subst k'.
      destruct Hin as [[= <- <-]|Hin]; [now left|].
      right. split; [|now right].
      intros ->. apply Hk'. change c with (fst (c, v)). now apply in_map.
    + apply String.eqb_neq in E.
      destruct Hin as [[= <- <-]|Hin].
      * right. split; [assumption|now left].
      * destruct (IH Hnd Hin) as [?|[? ?]]; [now left|]. right. split; [assumption|now right].
Qed.

Lemma assign_lookup_same c i d : lookup_content c (assign c i d) = Some i.
Proof.
  induction d as [|[k w] d IH]; simpl.
  - now rewrite String.eqb_refl.
  - destruct (String.eqb k c) eqn:E; simpl; rewrite E; auto.
Qed.

Lemma assign_lookup_other c i d c' :
  c' <> c -> lookup_content c' (assign c i d) = lookup_content c' d.
Proof.
  intros Hne. induction d as [|[k w] d IH]; simpl.
  - destruct (String.eqb c c') eqn:E; [|reflexivity].
    apply String.eqb_eq in E. congruence.
  - destruct (String.eqb k c) eqn:E; simpl.
    + apply String.eqb_eq in E. subst k.
      destruct (String.eqb c c') eqn:E'; [|reflexivity].
      apply String.eqb_eq in E'. congruence.
    + destruct (String.eqb k c'); auto.
Qed.


Lemma dedup_inv_init : dedup_inv [] [].
Proof.
  constructor; simpl; try tauto. constructor.
Qed.

Lemma assign_keys_incl c i d k :
  In k (map fst d) -> In k (map fst (assign c i d)).
Proof.
  intros H. destruct (in_dec string_dec c (map fst d)) as [Hc|Hc].
  - now rewrite assign_keys_present.
  - rewrite assign_keys_fresh by assumption. apply in_or_app. now left.
Qed.

Lemma assign_key_in c i d : In c (map fst (assign c i d)).
Proof.
  destruct (in_dec string_dec c (map fst d)) as [Hc|Hc].
  - now rewrite assign_keys_present.
  - rewrite assign_keys_fresh by assumption. apply in_or_app. right. now left.
Qed.

Lemma assign_nodup c i d :
  List.NoDup (map fst d) -> List.NoDup (map fst (assign c i d)).
Proof.
  intros H. destruct (in_dec string_dec c (map fst d)) as [Hc|Hc].
  - now rewrite assign_keys_present.
  - rewrite assign_keys_fresh by assumption.
    apply List.NoDup_app; [assumption|repeat constructor; simpl; tauto|].
    intros x Hx [<-|[]]. contradiction.
Qed.

Lemma comparable_app l l' : comparable (l ++ l') <-> comparable l /\ comparable l'.
Proof. apply List.Forall_app. Qed.

Lemma comparable_In l e : comparable l -> In e l -> is_nan (score e) = false.
Proof. intros H He. exact (proj1 (List.Forall_forall _ l) H e He). Qed.

(** A key has one entry in a dict without repeated keys. *)
Lemma unique_entry (d : list (string * info)) k v w :
  List.NoDup (map fst d) -> In (k, v) d -> In (k, w) d -> v = w.
Proof.
  induction d as [|[k' u] d IH]; [contradiction|].
  simpl. intros Hnd Hv Hw. apply List.NoDup_cons_iff in Hnd as [Hk' Hnd].
  destruct Hv as [Hv|Hv], Hw as [Hw|Hw].
  - congruence.
  - exfalso. apply Hk'. injection Hv as -> _.
    change k with (fst (k, w)). now apply in_map.
  - exfalso. apply Hk'. injection Hw as -> _.
    change k with (fst (k, v)). now apply in_map.
  - auto.
Qed.

Lemma dedup_inv_step seen d i :
  dedup_inv seen d -> dedup_inv (seen ++ [i]) (dedup_step d i).
Proof.
  intros [Hnd Hkey Hin Hmax Hcomp]. unfold dedup_step.
  destruct (lookup_content (content i) d) as [kept|] eqn:Hl.
  - pose proof (lookup_content_In _ _ _ Hl) as Hkept.
    destruct (float_lt (score kept) (score i)) eqn:Hlt.
    + constructor.
      * now apply assign_nodup.
      * intros k v H. destruct (assign_In _ _ _ _ _ Hnd H) as [[-> ->]|[_ H']]; eauto.
      * intros k v H. apply in_or_app.
        destruct (assign_In _ _ _ _ _ Hnd H) as [[-> ->]|[_ H']]; [right; now left|left; eauto].
      * intros Hscores k v e H He Hc.
        apply comparable_app in Hscores as [Hseen Hi].
        destruct (assign_In _ _ _ _ _ Hnd H) as [[-> ->]|[Hne H']].
        -- apply in_app_or in He as [He|[<-|[]]].
           ++ apply float_le_trans with (score kept); [eauto|now apply float_lt_le].
           ++ apply float_le_refl. apply (comparable_In [i]); [assumption|now left].
        -- apply in_app_or in He as [He|[<-|[]]]; [eauto|congruence].
      * intros e He. apply in_app_or in He as [He|[<-|[]]].
        -- apply assign_keys_incl. auto.
        -- apply assign_key_in.
    + constructor; auto.
      * intros k v H. apply in_or_app. left. eauto.
      * intros Hscores k v e H He Hc.
        apply comparable_app in Hscores as [Hseen Hi].
        apply in_app_or in He as [He|[<-|[]]]; [eauto|].
        assert (v = kept) as ->.
        { subst k. exact (unique_entry d _ _ _ Hnd H Hkept). }
        apply float_le_total; [| |exact Hlt].
        -- apply (comparable_In seen); [assumption|eauto].
        -- apply (comparable_In [i]); [assumption|now left].
      * intros e He. apply in_app_or in He as [He|[<-|[]]]; [auto|].
        change (content i) with (fst (content i, kept)). now apply in_map.
  - apply lookup_content_None in Hl.
    constructor.
    + now apply assign_nodup.
    + intros k v H. destruct (assign_In _ _ _ _ _ Hnd H) as [[-> ->]|[_ H']]; eauto.
    + intros k v H. apply in_or_app.
      destruct (assign_In _ _ _ _ _ Hnd H) as [[-> ->]|[_ H']]; [right; now left|left; eauto].
    + intros Hscores k v e H He Hc.
      apply comparable_app in Hscores as [Hseen Hi].
      destruct (assign_In _ _ _ _ _ Hnd H) as [[-> ->]|[Hne H']].
      * apply in_app_or in He as [He|[<-|[]]].
        -- exfalso. apply Hl. rewrite <- Hc. auto.
        -- apply float_le_refl. apply (comparable_In [i]); [assumption|now left].
      * apply in_app_or in He as [He|[<-|[]]]; [eauto|congruence].
    + intros e He. apply in_app_or in He as [He|[<-|[]]].
      * apply assign_keys_incl. auto.
      * apply assign_key_in.
Qed.

Lemma dedup_inv_fold l seen d :
  dedup_inv seen d -> dedup_inv (seen ++ l) (fold_left dedup_step l d).
Proof.
  revert seen d. induction l as [|i l IH]; intros seen d H; simpl.
  - now rewrite app_nil_r.
  - replace (seen ++ i :: l) with ((seen ++ [i]) ++ l) by now rewrite <- app_assoc.
    apply IH. now apply dedup_inv_step.
Qed.

(** *** The stable descending sort *)

Lemma insert_desc_perm x l : Permutation (insert_desc x l) (x :: l).
Proof.
  induction l as [|y l IH]; simpl; [reflexivity|].
  destruct (float_lt (score x) (score y)); [|reflexivity].
  rewrite IH. apply perm_swap.
Qed.

Lemma sorted_desc_perm l : Permutation (sorted_desc l) l.
Proof.
  induction l as [|x l IH]; simpl; [reflexivity|].
  rewrite insert_desc_perm. now constructor.
Qed.

Lemma insert_desc_sorted x l :
  is_nan (score x) = false -> comparable l ->
  StronglySorted desc l -> StronglySorted desc (insert_desc x l).
Proof.
  intros Hx. induction l as [|y l IH]; simpl; intros Hl Hs.
  - repeat constructor.
  - apply StronglySorted_inv in Hs as [Hs Hall].
    apply List.Forall_cons_iff in Hl as [Hy Hl].
    destruct (float_lt (score x) (score y)) eqn:E.
    + constructor; [auto|].
      apply List.Forall_forall. intros z Hz.
      apply (Permutation_in _ (insert_desc_perm x l)) in Hz as [<-|Hz].
      * now apply float_lt_le.
      * rewrite List.Forall_forall in Hall. auto.
    + apply float_le_total in E; [|assumption|assumption]. constructor.
      * now constructor.
      * constructor; [exact E|].
        rewrite List.Forall_forall in Hall |- *. intros z Hz.
        apply float_le_trans with (score y); [apply Hall, Hz|exact E].
Qed.

Lemma sorted_desc_comparable l : comparable l -> comparable (sorted_desc l).
Proof.
  intros H. apply List.Forall_forall. intros e He.
  apply (Permutation_in _ (sorted_desc_perm l)) in He.
  now apply (comparable_In l).
Qed.

Lemma sorted_desc_sorted l : comparable l -> StronglySorted desc (sorted_desc l).
Proof.
  induction l as [|x l IH]; simpl; intros H; [constructor|].
  apply List.Forall_cons_iff in H as [Hx Hl].
  apply insert_desc_sorted; [assumption|now apply sorted_desc_comparable|auto].
Qed.

(** C2 (amended).  [_deduplicate_and_rank] returns a list in which no
    content occurs twice; every returned entry is an input entry and
    every input content survives.  When no score of the input is NaN,
    every returned entry has the maximal score among the input entries
    with the same content, and the list is sorted by descending score. *)
Theorem deduplicate_and_rank_correct (relevant_info : list info) :
  let merged := _deduplicate_and_rank relevant_info in
  List.NoDup (map content merged)
  /\ (forall e, In e merged -> In e relevant_info)
  /\ (forall e', In e' relevant_info -> exists e, In e merged /\ content e = content e')
  /\ (comparable relevant_info ->
      (forall e e', In e merged -> In e' relevant_info -> content e' = content e ->
                    float_le (score e') (score e) = true)
      /\ StronglySorted (fun a b => float_le (score b) (score a) = true) merged).
Proof.
  intros merged. subst merged. unfold _deduplicate_and_rank.
  pose proof (dedup_inv_fold relevant_info [] [] dedup_inv_init) as Hinv.
  simpl in Hinv. set (d := fold_left dedup_step relevant_info []) in *.
  destruct Hinv as [Hnd Hkey Hin Hmax Hcomp].
  pose proof (sorted_desc_perm (map snd d)) as Hperm.
  assert (Hmem : forall e, In e (sorted_desc (map snd d)) <-> In (content e, e) d).
  { intros e. split.
    - intros H. apply (Permutation_in _ Hperm) in H.
      apply in_map_iff in H as [[k v] [<- H]]. simpl.
      now rewrite (Hkey _ _ H).
    - intros H. apply (Permutation_in _ (Permutation_sym Hperm)).
      change e with (snd (content e, e)). now apply in_map. }
  split; [|split; [|split]].
  - apply (Permutation_NoDup (l := map content (map snd d))).
    + apply Permutation_map. now apply Permutation_sym.
    + replace (map content (map snd d)) with (map fst d); [assumption|].
      rewrite map_map. apply map_ext_in. intros [k v] H. simpl. symmetry. eauto.
  - intros e H. apply Hmem in H. eauto.
  - intros e' He'. specialize (Hcomp _ He').
    apply in_map_iff in Hcomp as [[k v] [Hk Hv]]. simpl in Hk. subst k.
    exists v. pose proof (Hkey _ _ Hv) as Hc. split; [|assumption].
    apply Hmem. now rewrite Hc.
  - intros Hscores. split.
    + intros e e' H He' Hc. apply Hmem in H. eauto.
    + apply sorted_desc_sorted. apply List.Forall_forall. intros e He.
      apply in_map_iff in He as [[k v] [<- Hv]]. simpl.
      apply (comparable_In relevant_info); eauto.
Qed.

(** The unit test of the repository: the higher-scored duplicate is kept
    and ranked first. *)
Example deduplicate_and_rank_unit_test :
  _deduplicate_and_rank
    [Info "Duplicate content" (7 # 10) "source1";
     Info "Duplicate content" (8 # 10) "source2";
     Info "Unique content" (6 # 10) "source3"]
  = [Info "Duplicate content" (8 # 10) "source2";
     Info "Unique content" (6 # 10) "source3"].
Proof. reflexivity. Qed.

(** C2 as stated fails at a score that is NaN.  Of two hits with the
    same content the first, whose score is NaN, is kept: the second is
    not greater than NaN.  The survivor's score is not the maximum of the
    duplicates: 0.9 is not below or equal to it. *)
Lemma deduplicate_and_rank_keeps_nan :
  _deduplicate_and_rank nan_first = [Info "MCP is a protocol" NaN "vector_db"]
  /\ ~ (forall e e',
         In e (_deduplicate_and_rank nan_first) -> In e' nan_first ->
         content e' = content e -> float_le (score e') (score e) = true).
Proof.
  split; [reflexivity|].
  intros H.
  specialize (H (Info "MCP is a protocol" NaN "vector_db")
                (Info "MCP is a protocol" (Finite (9 # 10)) "web")).
  discriminate H; [now left | right; now left | reflexivity].
Qed.

(** *** The external-search decision *)






End KnowledgeProps.

(** ** Reasoning stage *)

Module ReasoningProps.
Import Reasoning.

Section Facts.

Variable json_loads : string -> res value.
Variable generate_text : llm_request -> res string.

Abbreviation ask := (ask json_loads generate_text).
Abbreviation unparseable := (unparseable json_loads generate_text).

(** A step whose response cannot be parsed returns its default dict. *)
Lemma ask_default k p max_tokens dflt :
  unparseable k -> step_of p = k -> ask p max_tokens dflt = VDict dflt.
Proof.
  intros Hk Hp. unfold Reasoning.ask.
  destruct (Hk (json_request p max_tokens) Hp) as (response & e & -> & Hparse).
  simpl. now rewrite Hparse.
Qed.

Lemma analyze_request_default query context :
  unparseable RequestAnalysis ->
  _analyze_request json_loads generate_text query context
  = VDict request_analysis_default.
Proof. intros H. now apply (ask_default RequestAnalysis). Qed.

Lemma evaluate_knowledge_default query knowledge_context context :
  unparseable KnowledgeEvaluation ->
  truthy (get knowledge_context "relevant_info") = true ->
  _evaluate_knowledge json_loads generate_text query knowledge_context context
  = (_ <- str_join (nl ++ nl) (get_or knowledge_context "relevant_info" (VList [])) ;;
     Ok (VDict knowledge_evaluation_default)).
Proof.
  intros H Ht. unfold _evaluate_knowledge. rewrite Ht. simpl.
  destruct (str_join _ _); simpl; [|reflexivity].
  now rewrite (ask_default KnowledgeEvaluation).
Qed.

Lemma extract_key_points_default query knowledge_context request_analysis context :
  unparseable KeyPointsExtraction ->
  _extract_key_points json_loads generate_text query knowledge_context
                      request_analysis context
  = (_ <- str_join (nl ++ nl) (get_or knowledge_context "relevant_info" (VList [])) ;;
     _ <- obj_get request_analysis "intent" (VStr "unknown") ;;
     _ <- obj_get request_analysis "domain" (VStr "general") ;;
     _ <- obj_get request_analysis "complexity" (VStr "medium") ;;
     Ok (VDict key_points_default)).
Proof.
  intros H. unfold _extract_key_points.
  destruct (str_join _ _); simpl; [|reflexivity].
  destruct request_analysis; simpl; try reflexivity.
  now rewrite (ask_default KeyPointsExtraction).
Qed.

Lemma plan_response_default query key_points request_analysis context :
  unparseable ResponsePlanning ->
  _plan_response json_loads generate_text query key_points request_analysis context
  = (pts <- obj_get key_points "points" (VList []) ;;
     _ <- iter pts ;;
     _ <- obj_get request_analysis "intent" (VStr "unknown") ;;
     _ <- obj_get request_analysis "domain" (VStr "general") ;;
     _ <- obj_get request_analysis "complexity" (VStr "medium") ;;
     Ok (VDict response_plan_default)).
Proof.
  intros H. unfold _plan_response.
  destruct (obj_get key_points _ _); simpl; [|reflexivity].
  destruct (iter _); simpl; [|reflexivity].
  destruct request_analysis; simpl; try reflexivity.
  now rewrite (ask_default ResponsePlanning).
Qed.

(** [assemble] reads each field from the dict of the step that feeds it. *)
Lemma assemble_fields ra ke kp rp r :
  assemble ra ke kp rp = Ok r ->
  obj_get ra "intent" VNone = Ok (intent r)
  /\ obj_get ra "domain" VNone = Ok (domain r)
  /\ obj_get ra "complexity" VNone = Ok (complexity r)
  /\ obj_get ke "sufficiency" VNone = Ok (knowledge_sufficiency r)
  /\ obj_get kp "points" (VList []) = Ok (key_points r)
  /\ obj_get rp "format" VNone = Ok (suggested_format r)
  /\ obj_get rp "tone" VNone = Ok (tone r)
  /\ obj_get rp "structure" VNone = Ok (structure r).
Proof.
  unfold assemble.
  destruct ra; simpl; try discriminate.
  destruct ke; simpl; try discriminate.
  destruct kp; simpl; try discriminate.
  destruct rp; simpl; try discriminate.
  destruct (len _); simpl; try discriminate.
  intros [= <-]. simpl. repeat split.
Qed.

(** The outcome of the chain is either an exception or an assembled
    result of four step results. *)
Lemma chain_outcome steps0 query knowledge_context context r :
  snd (chain json_loads generate_text steps0 query knowledge_context context) = Ok r ->
  exists ke kp rp,
    _evaluate_knowledge json_loads generate_text query knowledge_context context = Ok ke
    /\ _extract_key_points json_loads generate_text query knowledge_context
         (_analyze_request json_loads generate_text query context) context = Ok kp
    /\ _plan_response json_loads generate_text query kp
         (_analyze_request json_loads generate_text query context) context = Ok rp
    /\ assemble (_analyze_request json_loads generate_text query context) ke kp rp = Ok r.
Proof.
  unfold chain. cbv zeta.
  destruct (len _); simpl; [|discriminate].
  destruct (_evaluate_knowledge _ _ _ _ _) as [ke|] eqn:Hke; simpl; [|discriminate].
  destruct (_extract_key_points _ _ _ _ _ _) as [kp|] eqn:Hkp; simpl; [|discriminate].
  destruct (_plan_response _ _ _ _ _ _) as [rp|] eqn:Hrp; simpl; [|discriminate].
  intros H. exists ke, kp, rp. repeat split; assumption.
Qed.

Lemma analyze_outcome steps0 query knowledge_context context :
  snd (analyze json_loads generate_text steps0 query knowledge_context context)
  = match snd (chain json_loads generate_text steps0 query knowledge_context context) with
    | Ok r => Ok r
    | Raise _ => Ok fallback_result
    end.
Proof.
  unfold analyze. now destruct (chain _ _ _ _ _ _) as [s [r|e]].
Qed.

Lemma bind_Ok {A B : Type} (m : res A) (k : A -> res B) (b : B) :
  (x <- m ;; k x) = Ok b -> exists a, m = Ok a /\ k a = Ok b.
Proof. destruct m; simpl; [eauto|discriminate]. Qed.

(** When every step receives an unparseable response and the knowledge
    entries are strings, no step aborts the chain: the four steps are
    recorded in order, each with its default dict (the second with the
    dict of the empty knowledge context when there is no knowledge). *)
Lemma chain_completes_on_parse_failures steps0 query knowledge_context context
  knowledge_text :
  (forall k, unparseable k) ->
  str_join (nl ++ nl) (get_or knowledge_context "relevant_info" (VList []))
    = Ok knowledge_text ->
  exists n, len (get_or knowledge_context "relevant_info" (VList [])) = Ok n
  /\ analyze json_loads generate_text steps0 query knowledge_context context
     = ([("request_analysis", VDict request_analysis_default);
         ("knowledge_evaluation",
          VDict (if truthy (get knowledge_context "relevant_info")
                 then knowledge_evaluation_default
                 else knowledge_evaluation_empty));
         ("key_points_extraction", VDict key_points_default);
         ("response_planning", VDict response_plan_default)],
        Ok {| intent := VStr "unknown";
              domain := VStr "general";
              complexity := VStr "medium";
              knowledge_sufficiency :=
                VStr (if truthy (get knowledge_context "relevant_info")
                      then "unknown" else "insufficient");
              key_points := VList [];
              suggested_format := VStr "text";
              tone := VStr "neutral";
              structure := VStr "default" |}).
Proof.
  intros Hall Hjoin.
  assert (Hlen : exists n,
             len (get_or knowledge_context "relevant_info" (VList [])) = Ok n).
  { unfold str_join in Hjoin.
    destruct (get_or knowledge_context "relevant_info" (VList []));
      simpl in Hjoin; try discriminate; simpl; eauto. }
  destruct Hlen as [n Hn]. exists n. split; [exact Hn|].
  assert (Hke : _evaluate_knowledge json_loads generate_text query
                  knowledge_context context
                = Ok (VDict (if truthy (get knowledge_context "relevant_info")
                             then knowledge_evaluation_default
                             else knowledge_evaluation_empty))).
  { destruct (truthy (get knowledge_context "relevant_info")) eqn:Ht.
    - rewrite (evaluate_knowledge_default _ _ _ (Hall KnowledgeEvaluation) Ht).
      now rewrite Hjoin.
    - unfold _evaluate_knowledge. now rewrite Ht. }
  unfold analyze, chain. cbv zeta. rewrite Hn.
  rewrite (analyze_request_default _ _ (Hall RequestAnalysis)).
  rewrite Hke.
  rewrite (extract_key_points_default _ _ _ _ (Hall KeyPointsExtraction)).
  rewrite Hjoin. cbn [bind obj_get].
  rewrite (plan_response_default _ _ _ _ (Hall ResponsePlanning)).
  destruct (truthy (get knowledge_context "relevant_info")); reflexivity.
Qed.

(** What holds of [analyze] on every input.  It always returns a
    reasoning result.  If the response a step receives from the LLM is
    rejected by [json.loads], the step returns its default dict instead
    of raising, and the fields of the result fed by that step carry the
    documented defaults.  When every response is rejected and the
    knowledge entries can be joined, all four steps run and are
    recorded.  If an exception escapes the chain, the result is the
    single fallback result. *)
Theorem analyze_degrades_to_defaults
  (steps0 : steps) (query : string) (knowledge_context context : dict) :
  let out := snd (analyze json_loads generate_text steps0 query
                          knowledge_context context) in
  (exists r, out = Ok r)
  /\ (forall k,
        unparseable k ->
        (k = KnowledgeEvaluation ->
         truthy (get knowledge_context "relevant_info") = true) ->
        (forall p max_tokens dflt,
            step_of p = k -> ask p max_tokens dflt = VDict dflt)
        /\ exists r, out = Ok r /\ fields_of k r = defaults_of k)
  /\ ((forall k, unparseable k) ->
      forall knowledge_text,
        str_join (nl ++ nl) (get_or knowledge_context "relevant_info" (VList []))
          = Ok knowledge_text ->
        map fst (fst (analyze json_loads generate_text steps0 query
                              knowledge_context context))
        = ["request_analysis"; "knowledge_evaluation"; "key_points_extraction";
           "response_planning"])
  /\ (forall e,
        snd (chain json_loads generate_text steps0 query knowledge_context context)
          = Raise e ->
        out = Ok fallback_result).
Proof.
  intros out. subst out. rewrite analyze_outcome.
  split; [|split; [|split]].
  - destruct (snd (chain _ _ _ _ _ _)); eauto.
  - intros k Hk Hcall. split.
    { intros p n d Hp. now apply (ask_default k). }
    destruct (snd (chain _ _ _ _ _ _)) as [r|e] eqn:Hchain.
    2:{ exists fallback_result. split; [reflexivity|]. now destruct k. }
    exists r. split; [reflexivity|].
    apply chain_outcome in Hchain as (ke & kp & rp & Hke & Hkp & Hrp & Hr).
    apply assemble_fields in Hr as (Hi & Hd & Hc & Hs & Hp & Hf & Ht & Hst).
    destruct k; simpl.
    + rewrite (analyze_request_default _ _ Hk) in Hi, Hd, Hc.
      injection Hi as <-. injection Hd as <-. injection Hc as <-. reflexivity.
    + clear Hkp Hrp. rewrite (evaluate_knowledge_default _ _ _ Hk (Hcall eq_refl)) in Hke.
      apply bind_Ok in Hke as (_ & _ & [= <-]).
      injection Hs as <-. reflexivity.
    + clear Hrp. rewrite (extract_key_points_default _ _ _ _ Hk) in Hkp.
      apply bind_Ok in Hkp as (_ & _ & Hkp).
      apply bind_Ok in Hkp as (_ & _ & Hkp).
      apply bind_Ok in Hkp as (_ & _ & Hkp).
      apply bind_Ok in Hkp as (_ & _ & [= <-]).
      injection Hp as <-. reflexivity.
    + rewrite (plan_response_default _ _ _ _ Hk) in Hrp.
      apply bind_Ok in Hrp as (pts & _ & Hrp).
      apply bind_Ok in Hrp as (_ & _ & Hrp).
      apply bind_Ok in Hrp as (_ & _ & Hrp).
      apply bind_Ok in Hrp as (_ & _ & Hrp).
      apply bind_Ok in Hrp as (_ & _ & [= <-]).
      injection Hf as <-. injection Ht as <-. injection Hst as <-. reflexivity.
  - intros Hall knowledge_text Hjoin.
    destruct (chain_completes_on_parse_failures steps0 query knowledge_context
                context knowledge_text Hall Hjoin) as (n & _ & ->).
    reflexivity.
  - intros e ->. reflexivity.
Qed.

End Facts.


(** Every step answered with text that is not JSON: the result is made of
    the defaults of the four steps. *)
Lemma analyze_degrades_to_defaults_witness :
  unparseable reject not_json RequestAnalysis
  /\ snd (analyze reject not_json [] "What is MCP?" one_fact ∅)
     = Ok fallback_result
  /\ exists r, snd (analyze reject not_json [] "What is MCP?" one_fact ∅) = Ok r
               /\ fields_of RequestAnalysis r = defaults_of RequestAnalysis.
Proof.
  assert (H : unparseable reject not_json RequestAnalysis).
  { intros rq _. now exists "This is a test response", JSONDecodeError. }
  split; [exact H|]. split; [reflexivity|].
  apply (analyze_degrades_to_defaults reject not_json [] "What is MCP?" one_fact ∅).
  - exact H.
  - discriminate.
Defined.


(** The chain run on parseable JSON that is not an object: [.get] raises
    [AttributeError] after the first step, and [analyze] answers with the
    fallback result. *)
Example analyze_fallback_on_escaping_exception :
  snd (chain parse_as_list not_json [] "What is MCP?" one_fact ∅) = Raise AttributeError
  /\ snd (analyze parse_as_list not_json [] "What is MCP?" one_fact ∅)
     = Ok fallback_result.
Proof. split; reflexivity. Qed.

(** On a knowledge context whose entries are dicts the [join] of
    [_evaluate_knowledge] raises [TypeError] before its [try]; the first
    step has been recorded, and the result is the fallback result. *)
Example analyze_fallback_on_retrieved_entries :
  analyze reject not_json [] "What is MCP?" retrieved_fact ∅
  = ([("request_analysis", VDict request_analysis_default)], Ok fallback_result).
Proof. reflexivity. Qed.


End ReasoningProps.

(** ** Generation backend adapter *)

Module LLMProps.
Import LLM.

Lemma str_in_dict k (d : dict) :
  str_in k (VDict d) = Ok (match d !! k with Some _ => true | None => false end).
Proof.
  simpl. f_equal. destruct (d !! k) eqn:E.
  - apply bool_decide_eq_true. eauto.
  - apply bool_decide_eq_false. intros [x Hx]. discriminate.
Qed.

Lemma first_found_app ps qs v :
  first_found (ps ++ qs) v
  = match first_found ps v with Some x => Some x | None => first_found qs v end.
Proof.
  induction ps as [|p ps IH]; simpl; [reflexivity|].
  now destruct (probe p v).
Qed.

Lemma extract_generic_probes (d : dict) :
  extract_generic (VDict d) = Ok (extract_by_probing generic_fields (VDict d)).
Proof.
  unfold extract_generic, extract_by_probing, generic_fields.
  rewrite !str_in_dict. simpl.
  destruct (d !! "text"); simpl; [reflexivity|].
  destruct (d !! "generated_text"); simpl; [reflexivity|].
  destruct (d !! "output"); reflexivity.
Qed.

Lemma extract_openai_probes (d : dict) model :
  is_openai model = true ->
  choices_well_shaped d = true ->
  extract_model_specific (VDict d) model
  = Ok (first_found [chat_completion_content; completion_choice_text] (VDict d)).
Proof.
  intros Hm Hs. unfold extract_model_specific.
  unfold is_openai in Hm. rewrite Hm.
  rewrite str_in_dict. unfold choices_well_shaped in Hs. simpl.
  destruct (d !! "choices") as [c|]; simpl; [|reflexivity].
  destruct c as [| | | | |l|]; try discriminate.
  destruct l as [|choice l]; simpl; [reflexivity|].
  destruct choice as [| | | | | |ch]; try discriminate.
  rewrite (str_in_dict "message" ch), (str_in_dict "text" ch). simpl.
  destruct (ch !! "message") as [m|]; simpl.
  - destruct m as [| | | | | |msg]; try discriminate.
    rewrite (str_in_dict "content" msg). simpl.
    destruct (msg !! "content"); simpl; [reflexivity|].
    destruct (ch !! "text"); reflexivity.
  - destruct (ch !! "text"); reflexivity.
Qed.

Lemma extract_anthropic_probes (d : dict) model :
  is_openai model = false ->
  is_anthropic model = true ->
  extract_model_specific (VDict d) model
  = Ok (first_found [[Key "completion"]] (VDict d)).
Proof.
  intros Ho Ha. unfold extract_model_specific.
  unfold is_openai in Ho. unfold is_anthropic in Ha. rewrite Ho, Ha.
  rewrite str_in_dict. simpl.
  destruct (d !! "completion"); reflexivity.
Qed.

(** C9 (amended).  For a response object of the stated shape the text is
    found by probing field paths in an order that depends on the model
    name: chat-completion message content then the text of the first
    choice for OpenAI/GPT models, the [completion] field for
    Anthropic/Claude models, and no model-specific path for other models;
    then, for every model, [text], [generated_text] and [output]; the
    whole response is serialised when no path matches. *)
Theorem extract_generated_text_probes
  (result : dict) (model : string)
  (Hshape : is_openai model = true -> choices_well_shaped result = true) :
  _extract_generated_text (VDict result) model
  = Ok (extract_by_probing (probe_order model) (VDict result)).
Proof.
  unfold _extract_generated_text, extract_by_probing, probe_order.
  rewrite first_found_app.
  destruct (is_openai model) eqn:Ho.
  - rewrite (extract_openai_probes _ _ Ho (Hshape eq_refl)). unfold bind; cbv beta iota.
    destruct (first_found [chat_completion_content; completion_choice_text] _);
      [reflexivity|].
    apply extract_generic_probes.
  - destruct (is_anthropic model) eqn:Ha.
    + rewrite (extract_anthropic_probes _ _ Ho Ha). unfold bind; cbv beta iota.
      destruct (first_found [[Key "completion"]] _); [reflexivity|].
      apply extract_generic_probes.
    + unfold extract_model_specific.
      unfold is_openai in Ho. unfold is_anthropic in Ha. rewrite Ho, Ha.
      simpl. apply extract_generic_probes.
Qed.


(** A chat-completion response under a GPT model. *)
Lemma extract_generated_text_probes_witness :
  (is_openai "gpt-4" = true -> choices_well_shaped chat_response = true)
  /\ _extract_generated_text (VDict chat_response) "gpt-4"
     = Ok (extract_by_probing (probe_order "gpt-4") (VDict chat_response)).
Proof.
  split; [reflexivity|].
  apply (extract_generated_text_probes chat_response "gpt-4"). reflexivity.
Defined.

(** The same response under three model names: the extracted text differs
    with the model, and differs from what one fixed order would give. *)
Lemma extract_generated_text_depends_on_model :
  _extract_generated_text (VDict chat_response) "gpt-4" = Ok (Field (VStr "A"))
  /\ _extract_generated_text (VDict chat_response) "claude-3" = Ok (Field (VStr "B"))
  /\ extract_by_probing fixed_probe_order (VDict chat_response) = Field (VStr "A")
  /\ _extract_generated_text
       (VDict (<["choices" :=
                   VList [VDict (<["message" :=
                                     VDict (<["content" := VStr "hi"]> ∅)]> ∅)]]> ∅))
       "llama-2"
     = Ok (Serialized
             (VDict (<["choices" :=
                         VList [VDict (<["message" :=
                                           VDict (<["content" := VStr "hi"]> ∅)]> ∅)]]> ∅))).
Proof. repeat split. Qed.

End LLMProps.

(** ** Generation stage *)

Module GenerationProps.
Import Generation.




Lemma falsy_dict_empty (d : dict) : truthy (VDict d) = false -> d = ∅.
Proof.
  simpl. destruct (map_to_list d) eqn:E; [|discriminate].
  intros _. now apply map_to_list_empty_iff.
Qed.







(** *** The stored credential *)

(** [settings] declares no [LLM_API_KEY], so a service built without a
    key holds the test key. *)
Lemma init_api_key settings : LLM.api_key (LLM.__init__ settings None) = "sk-test".
Proof. reflexivity. Qed.

Lemma set_api_key_same self :
  set_api_key self (LLM.api_key (llm_service self)) = self.
Proof. destruct self as [[k m u t] h]. reflexivity. Qed.

Lemma set_api_key_twice self k k' :
  set_api_key (set_api_key self k) k' = set_api_key self k'.
Proof. reflexivity. Qed.

(** One call leaves the stored service as it was, provided the stored key
    is a non-empty string. *)
Lemma generate_restores_service str now settings generate_text self prompt
  reasoning_result knowledge_context context llm_config api_key :
  truthy (VStr (LLM.api_key (llm_service self))) = true ->
  llm_service (fst (generate str now settings generate_text self prompt
                      reasoning_result knowledge_context context llm_config api_key))
  = llm_service self.
Proof.
  intros Hkey. unfold generate.
  destruct (resolve_parameters _ _ _ _ _) as [p|]; [|reflexivity].
  destruct api_key as [k|]; cbn [nonempty].
  - destruct (truthy (VStr k)) eqn:Hk.
    + cbn [nonempty]. rewrite Hkey. rewrite set_api_key_twice, set_api_key_same.
      match goal with
      | |- context [bind ?m ?f] => destruct (bind m f)
      end; reflexivity.
    + cbn [nonempty].
      match goal with
      | |- context [bind ?m ?f] => destruct (bind m f)
      end; reflexivity.
  - match goal with
    | |- context [bind ?m ?f] => destruct (bind m f)
    end; reflexivity.
Qed.

Lemma reachable_key_nonempty self :
  reachable self -> truthy (VStr (LLM.api_key (llm_service self))) = true.
Proof.
  induction 1 as [settings|str now settings generate_text self prompt rr kc ctx
                  cfg key Hreach IH].
  - reflexivity.
  - now rewrite generate_restores_service.
Qed.

(** A call that no other call overlaps.  On every instance reached by
    calls made one after the other, a call of [generate] with a
    caller-supplied API key leaves the stored LLM service, and so its
    [api_key] field, as it was before the call, whether the call returns
    a content or raises. *)
Theorem generate_preserves_default_credential
  (str : value -> string) (now : string) (settings : string -> string)
  (generate_text : llm_call -> res string)
  (self : ContentGenerationProtocol) (prompt : string)
  (reasoning_result knowledge_context context : dict)
  (llm_config : option dict) (api_key : string)
  (Hself : reachable self) :
  let after := generate str now settings generate_text self prompt
                 reasoning_result knowledge_context context llm_config
                 (Some api_key) in
  LLM.api_key (llm_service (fst after)) = LLM.api_key (llm_service self)
  /\ ((exists content, snd after = Ok content) \/ (exists e, snd after = Raise e)).
Proof.
  intros after. subst after. split.
  - rewrite generate_restores_service; [reflexivity|].
    now apply reachable_key_nonempty.
  - destruct (snd _); eauto.
Qed.


(** A fresh instance called with a client key while the endpoint fails:
    the call raises and the stored key is still the default one. *)
Lemma generate_preserves_default_credential_witness :
  reachable (__init__ no_settings)
  /\ LLM.api_key
       (llm_service
          (fst (generate plain_str "t0" no_settings unavailable
                         (__init__ no_settings) "hello" ∅ ∅ ∅ None
                         (Some "sk-client"))))
     = "sk-test"
  /\ snd (generate plain_str "t0" no_settings unavailable
                   (__init__ no_settings) "hello" ∅ ∅ ∅ None (Some "sk-client"))
     = Raise (BackendError "503").
Proof.
  split; [constructor|]. split; [|reflexivity].
  exact (proj1 (generate_preserves_default_credential plain_str "t0" no_settings
                  unavailable (__init__ no_settings) "hello" ∅ ∅ ∅ None "sk-client"
                  (reachable_init no_settings))).
Defined.

(** A call that runs alone is its two halves, one after the other. *)
Lemma generate_in_two_halves str now settings generate_text self prompt
  reasoning_result knowledge_context context llm_config api_key :
  generate str now settings generate_text self prompt reasoning_result
           knowledge_context context llm_config api_key
  = match enter str settings self prompt reasoning_result knowledge_context
                context llm_config api_key with
    | (self', Raise e) => (self', Raise e)
    | (self', Ok (f, call)) => leave now self' f (generate_text call)
    end.
Proof.
  unfold generate, enter, leave, restore.
  destruct (resolve_parameters _ _ _ _ _) as [p|]; [|reflexivity].
  destruct (_build_enhanced_prompt _ _ _ _) as [enhanced|]; reflexivity.
Qed.


(** During the call the client key is the one in use: the service that
    receives the request was built from it. *)
Example generate_uses_client_key :
  snd (generate plain_str "t0" no_settings echo_key (__init__ no_settings)
                "hello" ∅ ∅ ∅ None (Some "sk-client"))
  = Ok "sk-client".
Proof. reflexivity. Qed.

End GenerationProps.

(** ** Formatting stage *)

Module CommunicationProps.
Import Communication.

Lemma append_empty_r (s : string) : (s ++ EmptyString)%string = s.
Proof.
  induction s as [|a s IH]; [reflexivity|].
  change (String a (s ++ EmptyString)%string = String a s). now f_equal.
Qed.

Lemma append_assoc (a b c : string) :
  ((a ++ b) ++ c)%string = (a ++ (b ++ c))%string.
Proof.
  induction a as [|x a IH]; [reflexivity|].
  change (String x ((a ++ b) ++ c)%string = String x (a ++ (b ++ c))%string).
  now f_equal.
Qed.

Lemma split_from_nonempty sep skip cur s : split_from sep skip cur s <> [].
Proof.
  revert skip cur. induction s as [|a s IH]; intros skip cur; simpl.
  - discriminate.
  - destruct skip; [|apply IH].
    destruct (is_prefix sep (String a s)); [discriminate|apply IH].
Qed.

(** [content.split(sep)] always has a first element. *)
Lemma split_first sep s : exists first rest, split sep s = first :: rest.
Proof.
  unfold split. destruct (split_from sep 0 EmptyString s) eqn:E.
  - now apply split_from_nonempty in E.
  - eauto.
Qed.

Lemma join_blank_separated (line : string) (rest : list string) :
  join nl (flat_map (fun l => [l; EmptyString]) (line :: rest))
  = (line ++ nl
     ++ fold_right String.append EmptyString
          (map (fun l => nl ++ l ++ nl) rest))%string.
Proof.
  revert line. induction rest as [|next rest IH]; intros line.
  - reflexivity.
  - change (flat_map (fun l => [l; EmptyString]) (line :: next :: rest))
      with (line :: EmptyString
              :: flat_map (fun l => [l; EmptyString]) (next :: rest)).
    change (join nl (line :: EmptyString
                       :: flat_map (fun l => [l; EmptyString]) (next :: rest)))
      with (line ++ nl ++ (EmptyString ++ nl
              ++ join nl (flat_map (fun l => [l; EmptyString]) (next :: rest))))%string.
    rewrite IH. simpl. now rewrite !append_assoc.
Qed.

(** The fallback of [_format_as_markdown] is the heading line followed by
    the remaining lines, each set off by a blank line. *)
Lemma markdown_fallback_shape content first rest :
  split nl content = first :: rest ->
  markdown_fallback content = heading_and_paragraphs first rest.
Proof.
  intros H. unfold markdown_fallback, heading_and_paragraphs. rewrite H.
  rewrite join_blank_separated. now rewrite !append_assoc.
Qed.

Section Facts.

Variable str : value -> string.
Variable json_dumps : value -> res string.
Variable json_loads : string -> res value.
Variable llm_service_generate_text : llm_request -> res string.

Abbreviation format_response :=
  (format_response str json_dumps json_loads llm_service_generate_text).
Abbreviation format_response_body :=
  (format_response_body str json_dumps json_loads llm_service_generate_text).
Abbreviation dispatch :=
  (dispatch str json_dumps llm_service_generate_text).
Abbreviation markdown_rewrite_fails :=
  (markdown_rewrite_fails llm_service_generate_text).


Lemma eq_str_inv v s : eq_str v s = true -> v = VStr s.
Proof.
  destruct v; simpl; try discriminate.
  intros H. apply String.eqb_eq in H. now subst.
Qed.

Lemma dispatch_markdown content context :
  eq_str (get_or context "format" (VStr "text")) "markdown" = true ->
  markdown_rewrite_fails ->
  dispatch content context = markdown_fallback content.
Proof.
  intros Hfmt Hfail. unfold Communication.dispatch.
  rewrite (eq_str_inv _ _ Hfmt). simpl.
  unfold _format_as_markdown.
  match goal with
  | |- context [llm_service_generate_text ?rq] =>
      destruct (Hfail rq eq_refl) as [e ->]
  end.
  reflexivity.
Qed.

(** C6 (amended).  [format_response] never raises.  With
    [format="markdown"] and a failing LLM call, the formatted text is the
    heuristic fallback: the first line of the content as a heading, every
    remaining line set off by a blank line.  That text is returned as it
    is when the context does not ask for citations, and followed by the
    markdown citation block when it does; if appending the citations
    raises, and on any other exception of the body, the original content
    is returned unchanged. *)
Theorem format_response_never_raises
  (content prompt : string) (context : dict) (api_key : option string) :
  let out := format_response content prompt context api_key in
  (exists formatted, out = Ok formatted)
  /\ (eq_str (get_or context "format" (VStr "text")) "markdown" = true ->
      markdown_rewrite_fails ->
      exists first rest,
        split nl content = first :: rest
        /\ dispatch content context = heading_and_paragraphs first rest
        /\ (wants_citations context = false ->
            out = Ok (heading_and_paragraphs first rest))
        /\ (wants_citations context = true ->
            forall items,
              iter (get_or context "sources" (VList [])) = Ok items ->
              out = Ok (heading_and_paragraphs first rest
                        ++ markdown_citations (join nl (numbered str 0 items)))%string)
        /\ (wants_citations context = true ->
            forall e,
              iter (get_or context "sources" (VList [])) = Raise e ->
              out = Ok content))
  /\ (forall e, format_response_body content prompt context = Raise e ->
                out = Ok content).
Proof.
  intros out. subst out. unfold Communication.format_response.
  split; [|split].
  - destruct (format_response_body content prompt context); simpl; eauto.
  - intros Hfmt Hfail.
    destruct (split_first nl content) as (first & rest & Hsplit).
    exists first, rest. split; [exact Hsplit|].
    pose proof (dispatch_markdown content context Hfmt Hfail) as Hd.
    rewrite (markdown_fallback_shape _ _ _ Hsplit) in Hd.
    split; [exact Hd|].
    unfold Communication.format_response_body. rewrite Hd.
    split; [|split].
    + intros ->. reflexivity.
    + intros Hc items Hitems. rewrite Hc.
      unfold _add_citations.
      assert (Ht : truthy (get_or context "sources" (VList [])) = true).
      { unfold wants_citations in Hc. apply andb_true_iff in Hc as [_ Hc].
        unfold get, get_or in *. destruct (context !! "sources"); [exact Hc|discriminate]. }
      rewrite Ht, Hitems. simpl. now rewrite Hfmt.
    + intros Hc e He. rewrite Hc.
      unfold _add_citations.
      assert (Ht : truthy (get_or context "sources" (VList [])) = true).
      { unfold wants_citations in Hc. apply andb_true_iff in Hc as [_ Hc].
        unfold get, get_or in *. destruct (context !! "sources"); [exact Hc|discriminate]. }
      rewrite Ht, He. reflexivity.
  - intros e ->. reflexivity.
Qed.

End Facts.


(** Two lines of content, markdown requested, no citation: the heading
    and the blank-line separated body come back. *)
Lemma format_response_never_raises_witness :
  eq_str (get_or markdown_context "format" (VStr "text")) "markdown" = true
  /\ markdown_rewrite_fails unbound_llm_service
  /\ format_response plain_str no_dumps no_loads unbound_llm_service
       two_lines "Describe it" markdown_context None
     = Ok ("# Title" ++ nl ++ nl ++ "body" ++ nl)%string.
Proof.
  assert (Hfail : markdown_rewrite_fails unbound_llm_service).
  { intros rq _. now exists NameError. }
  split; [reflexivity|]. split; [exact Hfail|].
  destruct (proj1 (proj2 (format_response_never_raises plain_str no_dumps no_loads
                            unbound_llm_service two_lines "Describe it"
                            markdown_context None)) eq_refl Hfail)
    as (first & rest & Hsplit & _ & Hplain & _).
  rewrite (Hplain eq_refl).
  injection Hsplit as <- <-. reflexivity.
Defined.


(** A markdown request that also asks for citations: the text returned is
    longer than the heuristic fallback. *)
Lemma format_response_appends_citations :
  markdown_fallback two_lines = ("# Title" ++ nl ++ nl ++ "body" ++ nl)%string
  /\ format_response plain_str no_dumps no_loads unbound_llm_service
       two_lines "Describe it" cited_context None
     = Ok ("# Title" ++ nl ++ nl ++ "body" ++ nl
           ++ nl ++ nl ++ "---" ++ nl ++ nl ++ "**출처:**" ++ nl ++ "1. s1")%string
  /\ format_response plain_str no_dumps no_loads unbound_llm_service
       two_lines "Describe it" cited_context None
     <> Ok (markdown_fallback two_lines).
Proof.
  split; [reflexivity|]. split; [reflexivity|]. discriminate.
Qed.

(** A source list that cannot be iterated: the exception of the citation
    step is caught and the original content comes back. *)
Example format_response_returns_content_on_error :
  format_response plain_str no_dumps no_loads unbound_llm_service
    two_lines "Describe it"
    (<["format" := VStr "markdown"]>
       (<["add_citations" := VBool true]> (<["sources" := VInt 5]> ∅))) None
  = Ok two_lines.
Proof. reflexivity. Qed.

End CommunicationProps.

(** ** Learning and feedback stage *)

Module LearningProps.
Import Learning.

(** *** The running aggregate (learning.py) *)

Lemma getattr_update_one : Database.getattr "update_one" = Raise AttributeError.
Proof. reflexivity. Qed.

(** No method of [DatabaseService] takes the keyword [upsert]. *)
Lemma no_method_accepts_upsert m : Database.accepts_keyword m "upsert" = false.
Proof. destruct m; reflexivity. Qed.

(** The write of [_update_learning_metrics] never happens: the database
    is left as it was. *)
Lemma update_learning_metrics_no_write now db feedback_data a :
  _update_learning_metrics now db feedback_data a = db.
Proof.
  unfold _update_learning_metrics, update_body.
  destruct (match Database.find_one_row db metrics_collection feedback_summary with
            | Some row => _ | None => _ end) as [m|]; simpl; [|reflexivity].
  destruct (updated_metrics now m feedback_data a); reflexivity.
Qed.

Lemma rows_insert_other engine db collection data other :
  other <> collection ->
  Database.rows (Database.insert_data_row engine db collection data) other
  = Database.rows db other.
Proof.
  intros Hne. unfold Database.insert_data_row.
  destruct (Database.table_truth collection) as [[|]|]; try reflexivity.
  destruct (engine collection data); [|reflexivity].
  unfold Database.rows. simpl. now rewrite lookup_insert_ne.
Qed.

Lemma process_feedback_metrics_rows now engine db feedback_data :
  Database.rows (process_feedback now engine db feedback_data) metrics_collection
  = Database.rows db metrics_collection.
Proof.
  unfold process_feedback. rewrite update_learning_metrics_no_write.
  unfold store_feedback. apply rows_insert_other. discriminate.
Qed.

Lemma events_metrics_rows now engine db events :
  Database.rows (fold_left (process_feedback now engine) events db) metrics_collection
  = Database.rows db metrics_collection.
Proof.
  revert db. induction events as [|e events IH]; intros db; simpl; [reflexivity|].
  rewrite IH. apply process_feedback_metrics_rows.
Qed.

Lemma get_learning_metrics_no_rows now db :
  Database.rows db metrics_collection = [] ->
  get_learning_metrics now db = zero_summary now.
Proof.
  intros H. unfold get_learning_metrics, Database.find_one_row,
    Database.find_data_rows.
  destruct (Database.table_truth metrics_collection) as [[|]|];
    try reflexivity.
  rewrite H. reflexivity.
Qed.

(** C7, the code at the ratings 5, 3, 1.  Starting from an empty database,
    after the three feedback events no aggregate has been stored:
    [get_learning_metrics] still answers with a feedback count of 0 and an
    average of 0. *)
Theorem learning_metrics_never_persisted
  (now : string) (engine_accepts : string -> dict -> bool) :
  let db := fold_left (process_feedback now engine_accepts)
                      [rated 5; rated 3; rated 1] Database.empty_database in
  Database.find_one_row db metrics_collection feedback_summary = None
  /\ get_learning_metrics now db !! "total_feedback_count" = Some (VInt 0)
  /\ get_learning_metrics now db !! "average_rating" = Some (VInt 0).
Proof.
  intros db.
  assert (Hrows : Database.rows db metrics_collection = []).
  { subst db. now rewrite events_metrics_rows. }
  split.
  - unfold Database.find_one_row, Database.find_data_rows.
    destruct (Database.table_truth metrics_collection) as [[|]|];
      first [reflexivity | now rewrite Hrows].
  - rewrite (get_learning_metrics_no_rows _ _ Hrows). split; reflexivity.
Qed.

(** One update computed in memory follows the running-average formula:
    with [n] the incremented count,
    [new_average = (old_average * (n - 1) + rating) / n], here in exact
    arithmetic (the code rounds each operation to a double). *)
Lemma updated_metrics_formula now m feedback_data a m' old_average r :
  average_rating m = Finite old_average ->
  num (get_or feedback_data "rating" (VInt 0)) = Some r ->
  updated_metrics now m feedback_data a = Ok m' ->
  total_feedback_count m' = total_feedback_count m + 1
  /\ exists new_average,
       average_rating m' = Finite new_average
       /\ (new_average
           == (old_average * inject_Z (total_feedback_count m' - 1) + r)
              / inject_Z (total_feedback_count m'))%Q.
Proof.
  intros Hold Hr. unfold updated_metrics, as_number.
  rewrite (PyProps.num_number_of _ _ Hr), Hold. simpl.
  destruct (total_feedback_count m + 1 =? 0); simpl; [discriminate|].
  destruct (sentiment_distribution m !! sentiment a); simpl; [|discriminate].
  intros [= <-]. simpl. split; [reflexivity|].
  eexists. split; reflexivity.
Qed.


(** Had each computed aggregate been written back, the ratings 5, 3, 1
    would give a count of 3 and an average of 3. *)
Example running_average_5_3_1 :
  exists m3,
    (m1 <- fed_back "t" (initial_metrics "t") (rated 5) ;;
     m2 <- fed_back "t" m1 (rated 3) ;;
     fed_back "t" m2 (rated 1)) = Ok m3
    /\ total_feedback_count m3 = 3
    /\ (exists average, average_rating m3 = Finite average /\ (average == 3)%Q)
    /\ sentiment_distribution m3
       = <["positive" := 1]> (<["neutral" := 1]> (<["negative" := 1]> ∅)).
Proof.
  eexists. split; [vm_compute; reflexivity|].
  split; [reflexivity|]. split; [|reflexivity].
  eexists. split; reflexivity.
Qed.

End LearningProps.

Module AdaptiveLearningProps.
Import AdaptiveLearning PyProps.

(** *** The clamp of [_validate_feedback] *)

(** The clamp on a number other than NaN: the result lies between 1 and
    5, whether the number is an [int], a finite [float] or an infinity. *)
Lemma clamp_float rating x :
  number_of rating = Some x -> is_nan x = false ->
  exists c x',
    clamp rating = Ok c
    /\ number_of c = Some x'
    /\ float_le (Finite 1) x' = true /\ float_le x' (Finite 5) = true
    /\ (float_lt x (Finite 1) = true -> c = VInt 1)
    /\ (float_lt (Finite 5) x = true -> c = VInt 5)
    /\ (float_lt x (Finite 1) = false -> float_lt (Finite 5) x = false ->
        c = rating).
Proof.
  intros Hx Hnan. unfold clamp, max2, min2, cmp. rewrite Hx.
  cbn [number_of bind].
  change (Finite (inject_Z 1)) with (Finite 1).
  change (Finite (inject_Z 5)) with (Finite 5).
  destruct (float_lt x (Finite 1)) eqn:Hlow.
  - cbn [number_of bind]. exists (VInt 1), (Finite 1).
    repeat split; try reflexivity; try discriminate.
    intros Hhigh. exfalso.
    pose proof (float_le_trans _ _ _ (float_lt_le _ _ Hhigh) (float_lt_le _ _ Hlow)).
    discriminate.
  - rewrite Hx. cbn [bind].
    change (Finite (inject_Z 5)) with (Finite 5).
    destruct (float_lt (Finite 5) x) eqn:Hhigh.
    + exists (VInt 5), (Finite 5).
      repeat split; try reflexivity; discriminate.
    + exists rating, x. repeat split; try assumption; try discriminate.
      * now apply float_le_total.
      * now apply float_le_total.
Qed.

Lemma copy_if_present_other k feedback validated k' :
  k <> k' -> copy_if_present k feedback validated !! k' = validated !! k'.
Proof.
  intros Hne. unfold copy_if_present.
  destruct (feedback !! k); [|reflexivity]. now rewrite lookup_insert_ne.
Qed.

Section Facts.

Variable now : string.
Variable now_compact : string.
Variable json_loads : string -> res value.
Variable generate_text : llm_request -> res string.

Abbreviation _validate_feedback := (_validate_feedback now now_compact).
Abbreviation process_feedback :=
  (process_feedback now now_compact json_loads generate_text).
Abbreviation _analyze_feedback := (_analyze_feedback json_loads generate_text).

(** Validation succeeds exactly when the clamp does, and the validated
    record carries the clamped rating. *)
Lemma validate_feedback_rating feedback c :
  clamp (get_or feedback "rating" (VInt 5)) = Ok c ->
  exists validated,
    _validate_feedback feedback = Ok validated
    /\ get validated "rating" = c
    /\ validated !! "type" = Some (get_or feedback "type" (VStr "general"))
    /\ validated !! "content" = Some (get_or feedback "content" (VStr EmptyString)).
Proof.
  intros Hc. unfold AdaptiveLearning._validate_feedback. rewrite Hc.
  simpl. eexists. split; [reflexivity|].
  unfold get, get_or.
  repeat split;
    rewrite lookup_insert_ne by discriminate;
    rewrite !copy_if_present_other by discriminate;
    repeat (first [rewrite lookup_insert_eq | rewrite lookup_insert_ne by discriminate]);
    reflexivity.
Qed.

Lemma store_feedback_state self feedback :
  feedback_history (fst (_store_feedback self feedback))
  = feedback_history self ++ [feedback]
  /\ improvement_suggestions (fst (_store_feedback self feedback))
     = improvement_suggestions self.
Proof.
  unfold _store_feedback.
  destruct (bind (item (VDict feedback) "id") _); simpl; [|split; reflexivity].
  match goal with
  | |- context [match ?x with Ok _ => _ | Raise _ => _ end] => destruct x
  end; split; reflexivity.
Qed.

(** [process_feedback] stores the validated record, and nothing else. *)
Lemma process_feedback_history self feedback context validated :
  _validate_feedback feedback = Ok validated ->
  feedback_history (fst (process_feedback self feedback context))
  = feedback_history self ++ [validated].
Proof.
  intros Hv. unfold AdaptiveLearning.process_feedback. rewrite Hv.
  destruct (store_feedback_state self validated) as [Hh _].
  destruct (_store_feedback self validated) as [self' [[]|e]]; simpl in *;
    [|exact Hh].
  destruct (_analyze_feedback validated context); simpl; [|exact Hh].
  destruct (cmp _ _ _) as [[|]|]; simpl; try exact Hh.
  destruct (_generate_improvement_suggestion _ _ _ _ _ _ _); simpl; exact Hh.
Qed.

(** The analysis in the result is the analysis of the validated record. *)
Lemma process_feedback_analysis self feedback context validated result :
  _validate_feedback feedback = Ok validated ->
  snd (process_feedback self feedback context) = Ok result ->
  exists analysis_result,
    _analyze_feedback validated context = Ok analysis_result
    /\ get result "analysis" = VDict analysis_result.
Proof.
  intros Hv. unfold AdaptiveLearning.process_feedback. rewrite Hv.
  destruct (_store_feedback self validated) as [self' [[]|e]]; simpl;
    [|discriminate].
  destruct (_analyze_feedback validated context) as [a|]; simpl; [|discriminate].
  destruct (cmp _ _ _) as [[|]|]; simpl; try discriminate.
  - destruct (_generate_improvement_suggestion _ _ _ _ _ _ _); simpl;
      [|discriminate].
    intros [= <-]. exists a. split; reflexivity.
  - intros [= <-]. exists a. split; reflexivity.
Qed.

(** C8 (amended).  The in-memory protocol of adaptive_learning.py
    clamps every rating that is a number other than NaN (a missing
    rating counts as 5): validation succeeds, the validated rating lies
    in [1,5], a rating below 1 becomes 1, a rating above 5 becomes 5, a
    rating inside the interval is kept, and the validated record is the
    one appended to the history and handed to the analysis. *)
Theorem rating_clamped_by_validation
  (self : AdaptiveLearningProtocol) (feedback context : dict) (x : pyfloat)
  (Hrating : number_of (get_or feedback "rating" (VInt 5)) = Some x)
  (Hnumber : is_nan x = false) :
  exists validated x',
    _validate_feedback feedback = Ok validated
    /\ number_of (get validated "rating") = Some x'
    /\ float_le (Finite 1) x' = true /\ float_le x' (Finite 5) = true
    /\ (float_lt x (Finite 1) = true -> get validated "rating" = VInt 1)
    /\ (float_lt (Finite 5) x = true -> get validated "rating" = VInt 5)
    /\ (float_le (Finite 1) x = true -> float_le x (Finite 5) = true ->
        get validated "rating" = get_or feedback "rating" (VInt 5))
    /\ feedback_history (fst (process_feedback self feedback context))
       = feedback_history self ++ [validated]
    /\ (forall result,
          snd (process_feedback self feedback context) = Ok result ->
          exists analysis_result,
            _analyze_feedback validated context = Ok analysis_result
            /\ get result "analysis" = VDict analysis_result).
Proof.
  destruct (clamp_float _ _ Hrating Hnumber)
    as (c & x' & Hc & Hx' & Hlo' & Hhi' & Hlo & Hhi & Hmid).
  destruct (validate_feedback_rating feedback c Hc) as (validated & Hv & Hget & _).
  exists validated, x'. rewrite Hget.
  repeat split; try assumption.
  - intros H1 H2. apply Hmid.
    + destruct (float_lt x (Finite 1)) eqn:E; [|reflexivity].
      apply float_lt_irrefl_le in E. congruence.
    + destruct (float_lt (Finite 5) x) eqn:E; [|reflexivity].
      apply float_lt_irrefl_le in E. congruence.
  - now apply process_feedback_history.
  - intros result. now apply process_feedback_analysis.
Qed.

(** The analysis of a record of type [t] with content [c], as
    [_analyze_feedback] dispatches it, when the rating analysis is
    [positive]. *)
Lemma analyze_feedback_dispatch feedback context t c positive :
  feedback !! "type" = Some t ->
  feedback !! "content" = Some c ->
  _analyze_rating feedback = Ok positive ->
  _analyze_feedback feedback context
  = if eq_str t "rating_only" then Ok positive
    else if eq_str t "text_feedback"
         then Ok (AdaptiveLearning._analyze_text_feedback json_loads generate_text
                    feedback context)
    else if truthy c
         then _analyze_general_feedback json_loads generate_text feedback context
         else Ok positive.
Proof.
  intros Ht Hc Hpos. unfold AdaptiveLearning._analyze_feedback.
  cbn [item]. rewrite Ht. cbn [bind].
  destruct (eq_str t "rating_only"); [exact Hpos|].
  destruct (eq_str t "text_feedback"); [reflexivity|].
  destruct (truthy c) eqn:Htruthy; [reflexivity|].
  unfold _analyze_general_feedback. rewrite Hpos. cbn [bind].
  unfold get, get_or at 1. rewrite Hc. cbn [default from_option id].
  now rewrite Htruthy.
Qed.

(** C10 (amended).  When the feedback has no [rating] key, validation
    substitutes 5; the record stored in the history carries the rating
    5; the rating analysis of that record is positive; and no improvement
    suggestion is generated.  The analysis of the record is that positive
    rating analysis for a rating-only feedback and for a general feedback
    without text.  A feedback of type [text_feedback] is analysed by its
    text alone, and a general feedback with a text takes the sentiment
    of its text analysis. *)
Theorem missing_rating_defaults_to_five
  (self : AdaptiveLearningProtocol) (feedback context : dict)
  (Hmissing : feedback !! "rating" = None) :
  let positive :=
    analysis_dict (VStr "positive") (VStr "사용자가 응답에 만족했습니다.")
                  (VFloat (9 # 10)) (VDict ∅) in
  let type := get_or feedback "type" (VStr "general") in
  let content := get_or feedback "content" (VStr EmptyString) in
  exists validated,
    _validate_feedback feedback = Ok validated
    /\ get validated "rating" = VInt 5
    /\ feedback_history (fst (process_feedback self feedback context))
       = feedback_history self ++ [validated]
    /\ _analyze_rating validated = Ok positive
    /\ improvement_suggestions (fst (process_feedback self feedback context))
       = improvement_suggestions self
    /\ (eq_str type "rating_only" = true ->
        _analyze_feedback validated context = Ok positive)
    /\ (eq_str type "rating_only" = false -> eq_str type "text_feedback" = true ->
        _analyze_feedback validated context
        = Ok (AdaptiveLearning._analyze_text_feedback json_loads generate_text
                validated context))
    /\ (eq_str type "rating_only" = false -> eq_str type "text_feedback" = false ->
        truthy content = false ->
        _analyze_feedback validated context = Ok positive)
    /\ (eq_str type "rating_only" = false -> eq_str type "text_feedback" = false ->
        truthy content = true ->
        forall analysis,
          _analyze_feedback validated context = Ok analysis ->
          analysis !! "sentiment"
          = Some (get_or (AdaptiveLearning._analyze_text_feedback json_loads
                            generate_text validated context)
                         "sentiment" (VStr "positive"))).
Proof.
  intros positive type content.
  assert (Hraw : get_or feedback "rating" (VInt 5) = VInt 5).
  { unfold get_or. now rewrite Hmissing. }
  assert (Hc : clamp (get_or feedback "rating" (VInt 5)) = Ok (VInt 5)).
  { rewrite Hraw. reflexivity. }
  destruct (validate_feedback_rating feedback (VInt 5) Hc)
    as (validated & Hv & Hget & Htype & Hcontent).
  assert (Hitem : item (VDict validated) "rating" = Ok (VInt 5)).
  { simpl. unfold get, get_or in Hget.
    destruct (validated !! "rating") as [x|] eqn:E; [simpl in Hget; now subst|].
    discriminate. }
  assert (Hpos : _analyze_rating validated = Ok positive).
  { unfold _analyze_rating. rewrite Hitem. reflexivity. }
  pose proof (analyze_feedback_dispatch validated context type content positive
                Htype Hcontent Hpos) as Hdispatch.
  exists validated.
  split; [exact Hv|]. split; [exact Hget|].
  split; [now apply process_feedback_history|]. split; [exact Hpos|].
  split; [|split; [|split; [|split]]].
  - unfold AdaptiveLearning.process_feedback. rewrite Hv.
    destruct (store_feedback_state self validated) as [_ Hs].
    destruct (_store_feedback self validated) as [self' [[]|e]]; simpl in *;
      [|exact Hs].
    destruct (_analyze_feedback validated context); simpl; [|exact Hs].
    rewrite Hraw. simpl. exact Hs.
  - intros H1. now rewrite Hdispatch, H1.
  - intros H1 H2. now rewrite Hdispatch, H1, H2.
  - intros H1 H2 H3. now rewrite Hdispatch, H1, H2, H3.
  - intros H1 H2 H3 analysis. rewrite Hdispatch, H1, H2, H3.
    unfold _analyze_general_feedback. rewrite Hpos. cbn [bind].
    unfold get, get_or at 1. rewrite Hcontent. cbn [default from_option id].
    fold content. rewrite H3.
    destruct (add _ _) as [total|]; cbn [bind]; [|discriminate].
    destruct (truediv total 2) as [confidence|]; cbn [bind]; [|discriminate].
    intros [= <-]. unfold analysis_dict. rewrite lookup_insert_eq.
    subst positive. unfold get, get_or, analysis_dict.
    now rewrite lookup_insert_eq.
Qed.

End Facts.


(** A rating of 7 is stored as 5. *)
Lemma rating_clamped_by_validation_witness :
  number_of (get_or over_rated "rating" (VInt 5)) = Some (Finite 7)
  /\ is_nan (Finite 7) = false
  /\ exists validated,
       _validate_feedback "t0" "20250101000000" over_rated = Ok validated
       /\ get validated "rating" = VInt 5
       /\ feedback_history
            (fst (process_feedback "t0" "20250101000000" no_loads no_llm fresh
                                   over_rated ∅))
          = [validated].
Proof.
  split; [reflexivity|]. split; [reflexivity|].
  destruct (rating_clamped_by_validation "t0" "20250101000000" no_loads
              no_llm fresh over_rated ∅ (Finite 7) eq_refl eq_refl)
    as (validated & x' & Hv & _ & _ & _ & _ & Hhigh & _ & Hhist & _).
  exists validated. split; [exact Hv|]. split; [now apply Hhigh|exact Hhist].
Defined.

(** A feedback without rating is validated with rating 5 and produces no
    suggestion. *)
Lemma missing_rating_defaults_to_five_witness :
  unrated !! "rating" = None
  /\ exists validated,
       _validate_feedback "t0" "20250101000000" unrated = Ok validated
       /\ get validated "rating" = VInt 5
       /\ improvement_suggestions
            (fst (process_feedback "t0" "20250101000000" no_loads no_llm fresh
                                   unrated ∅))
          = [].
Proof.
  split; [reflexivity|].
  destruct (missing_rating_defaults_to_five "t0" "20250101000000" no_loads no_llm
              fresh unrated ∅ eq_refl)
    as (validated & Hv & Hr & _ & _ & Hs & _).
  exists validated. split; [exact Hv|]. split; [exact Hr|exact Hs].
Defined.

(** C8 as stated fails in two places.  In adaptive_learning.py a rating
    that is NaN passes the clamp, because no comparison with NaN holds:
    the record stored in the history carries NaN, which is not in [1,5],
    and it is analysed as negative.  In learning.py there is no clamp: at
    a rating of 7 the record built for the database carries 7 and the
    aggregate computed from it has an average of 7. *)
Lemma nan_rating_is_stored_unclamped :
  (exists validated result analysis,
     _validate_feedback "t0" "20250101000000" nan_rated = Ok validated
     /\ get validated "rating" = VFloat NaN
     /\ cmp float_le (VInt 1) (get validated "rating") = Ok false
     /\ feedback_history
          (fst (process_feedback "t0" "20250101000000" no_loads no_llm fresh
                                 nan_rated ∅))
        = [validated]
     /\ snd (process_feedback "t0" "20250101000000" no_loads no_llm fresh
                              nan_rated ∅) = Ok result
     /\ get result "analysis" = VDict analysis
     /\ analysis !! "sentiment" = Some (VStr "negative"))
  /\ get (Learning.feedback_record "t0" (VStr "f1") (VStr "r1") VNone VNone (VInt 7)
            (VStr "accuracy") VNone VNone) "rating" = VInt 7
  /\ exists m average,
       Learning.fed_back "t0" (Learning.initial_metrics "t0") (Learning.rated 7)
       = Ok m
       /\ Learning.average_rating m = Finite average
       /\ (average == 7)%Q.
Proof.
  split; [|split].
  - eexists. eexists. eexists.
    split; [reflexivity|]. split; [reflexivity|]. split; [reflexivity|].
    split; [reflexivity|]. split; [reflexivity|]. split; reflexivity.
  - reflexivity.
  - eexists. eexists. split; [vm_compute; reflexivity|].
    split; reflexivity.
Qed.

(** C10 as stated fails for a feedback that carries a text: without a
    rating it is validated with rating 5, but its analysis follows the
    text, and when the text cannot be analysed the sentiment is
    [unknown], not positive. *)
Lemma unrated_text_feedback_is_not_positive :
  unrated_text !! "rating" = None
  /\ exists result analysis,
       snd (process_feedback "t0" "20250101000000" no_loads no_llm fresh
                             unrated_text ∅) = Ok result
       /\ get result "analysis" = VDict analysis
       /\ analysis !! "sentiment" = Some (VStr "unknown").
Proof.
  split; [reflexivity|]. eexists. eexists.
  split; [reflexivity|]. split; reflexivity.
Qed.

End AdaptiveLearningProps.

(** ** Knowledge stage: retrieval as a whole *)

Module RetrievalProps.
Import Knowledge.

Import PyProps.

Abbreviation running_max :=
  (fold_left (fun (c : pyfloat) (r : vector_result) => float_max2 c (vr_score r))).

Lemma fold_max_not_nan (rs : list vector_result) (c : pyfloat) :
  is_nan c = false -> is_nan (running_max rs c) = false.
Proof.
  revert c. induction rs as [|r rs IH]; intros c Hc; simpl; [exact Hc|].
  apply IH. now apply float_max2_not_nan.
Qed.

Lemma fold_max_ge_init (rs : list vector_result) (c : pyfloat) :
  is_nan c = false -> float_le c (running_max rs c) = true.
Proof.
  revert c. induction rs as [|r rs IH]; intros c Hc; simpl.
  - now apply float_le_refl.
  - eapply float_le_trans; [apply (float_max2_ge_l c (vr_score r) Hc)|].
    apply IH. now apply float_max2_not_nan.
Qed.

Lemma fold_max_ge_elem (rs : list vector_result) (c : pyfloat) r :
  is_nan c = false -> In r rs -> is_nan (vr_score r) = false ->
  float_le (vr_score r) (running_max rs c) = true.
Proof.
  revert c. induction rs as [|x rs IH]; intros c Hc [] Hr.
  - subst x. simpl.
    eapply float_le_trans; [apply (float_max2_ge_r c (vr_score r) Hc Hr)|].
    apply fold_max_ge_init. now apply float_max2_not_nan.
  - simpl. apply IH; [now apply float_max2_not_nan|assumption|assumption].
Qed.

Lemma fold_max_attained (rs : list vector_result) (c : pyfloat) :
  running_max rs c = c
  \/ exists r, In r rs /\ running_max rs c = vr_score r.
Proof.
  revert c. induction rs as [|x rs IH]; intros c; simpl.
  - now left.
  - destruct (IH (float_max2 c (vr_score x))) as [H | (r & Hr & H)].
    + rewrite H. destruct (float_max2_cases c (vr_score x)) as [-> | ->].
      * now left.
      * right. exists x. split; [now left | reflexivity].
    + right. exists r. split; [now right | exact H].
Qed.

Lemma list_set_In (xs : list string) s : In s (list_set xs) <-> In s xs.
Proof.
  unfold list_set. rewrite <- !list_elem_of_In.
  rewrite elem_of_elements, elem_of_list_to_set. reflexivity.
Qed.

Lemma list_set_NoDup (xs : list string) : List.NoDup (list_set xs).
Proof. unfold list_set. apply NoDup_ListNoDup, NoDup_elements. Qed.

Lemma vector_sources_In (rs : list vector_result) s :
  In s (vector_sources rs)
  <-> exists r, In r rs /\ vr_metadata_source r = Some s.
Proof.
  unfold vector_sources. rewrite <- list_elem_of_In, list_elem_of_omap.
  split; intros (r & H1 & H2); exists r; split; try assumption;
    now apply list_elem_of_In.
Qed.

Section Facts.

Variable vector_db_search : string -> value -> value -> res (list vector_result).
Variable search_service_search : string -> value -> res (list search_result).

Abbreviation retrieve_knowledge :=
  (retrieve_knowledge vector_db_search search_service_search).
Abbreviation _perform_vector_search :=
  (_perform_vector_search vector_db_search).
Abbreviation _perform_external_search :=
  (_perform_external_search search_service_search).

Lemma perform_vector_search_none query context :
  (vector_db_search query (get_or context "vector_search_limit" (VInt 5))
     (get_or context "vector_search_threshold" (VFloat (7 # 10))) = Ok []
   \/ exists e,
       vector_db_search query (get_or context "vector_search_limit" (VInt 5))
         (get_or context "vector_search_threshold" (VFloat (7 # 10))) = Raise e) ->
  _perform_vector_search query context = None.
Proof.
  unfold Knowledge._perform_vector_search. intros [-> | [e ->]]; reflexivity.
Qed.

Lemma perform_external_search_none query context :
  (search_service_search query (get_or context "external_search_limit" (VInt 3))
     = Ok []
   \/ exists e,
       search_service_search query (get_or context "external_search_limit" (VInt 3))
         = Raise e) ->
  _perform_external_search query context = None.
Proof.
  unfold Knowledge._perform_external_search. intros [-> | [e ->]]; reflexivity.
Qed.

(** X1.  When the vector search finds nothing (an empty result or an
    exception) and the external search finds nothing either,
    [retrieve_knowledge] returns the empty context
    [{relevant_info: [], sources: [], confidence: 0.0}], for every
    context: also one whose thresholds make the decision raise. *)
Theorem retrieve_knowledge_nothing_found query context :
  (forall limit threshold,
     vector_db_search query limit threshold = Ok []
     \/ exists e, vector_db_search query limit threshold = Raise e) ->
  (forall limit,
     search_service_search query limit = Ok []
     \/ exists e, search_service_search query limit = Raise e) ->
  fst (retrieve_knowledge query context) = empty_context.
Proof.
  intros Hv He. unfold Knowledge.retrieve_knowledge.
  rewrite (perform_vector_search_none query context (Hv _ _)).
  rewrite (perform_external_search_none query context (He _)).
  cbn [absorb].
  destruct (_should_perform_external_search empty_context context) as [[|]|];
    reflexivity.
Qed.

Lemma vector_confidence query context results :
  vector_db_search query (get_or context "vector_search_limit" (VInt 5))
    (get_or context "vector_search_threshold" (VFloat (7 # 10))) = Ok results ->
  confidence (absorb empty_context (_perform_vector_search query context))
  = float_max2 (Finite 0) (running_max results (Finite 0))
  \/ results = [].
Proof.
  intros H. unfold Knowledge._perform_vector_search. rewrite H.
  destruct results; [now right | left; reflexivity].
Qed.

Lemma decision_total kc context t m :
  number_of (get_or context "sufficient_confidence" (VFloat (85 # 100))) = Some t ->
  number_of (get_or context "min_relevant_info" (VInt 2)) = Some m ->
  exists b, _should_perform_external_search kc context = Ok b.
Proof.
  intros Ht Hm. unfold _should_perform_external_search.
  destruct (truthy _); [eauto |].
  unfold ge, lt. rewrite Ht, Hm. cbn [bind].
  destruct (float_le t (confidence kc)); [eauto |].
  destruct (float_lt _ m); eauto.
Qed.

Lemma absorb_confidence_ge kc found :
  is_nan (confidence kc) = false ->
  float_le (confidence kc) (confidence (absorb kc found)) = true.
Proof.
  intros Hkc. destruct found as [r|]; cbn [absorb confidence].
  - now apply float_max2_ge_l.
  - now apply float_le_refl.
Qed.

Lemma absorb_confidence_not_nan kc found :
  is_nan (confidence kc) = false ->
  is_nan (confidence (absorb kc found)) = false.
Proof.
  intros Hkc. destruct found as [r|]; cbn [absorb confidence]; [|exact Hkc].
  now apply float_max2_not_nan.
Qed.

(** X2.  With thresholds in the context that are numbers, the confidence
    of the returned context is never NaN; it is an upper bound of the
    score of every hit the vector search returned whose score is not
    NaN; and it is attained: it is 0, the external constant 0.7, or the
    score of one of the vector hits. *)
Theorem retrieve_knowledge_confidence_is_max query context results t m :
  number_of (get_or context "sufficient_confidence" (VFloat (85 # 100))) = Some t ->
  number_of (get_or context "min_relevant_info" (VInt 2)) = Some m ->
  vector_db_search query (get_or context "vector_search_limit" (VInt 5))
    (get_or context "vector_search_threshold" (VFloat (7 # 10))) = Ok results ->
  let kc := fst (retrieve_knowledge query context) in
  is_nan (confidence kc) = false
  /\ (forall r, In r results -> is_nan (vr_score r) = false ->
        float_le (vr_score r) (confidence kc) = true)
  /\ (confidence kc = Finite 0 \/ confidence kc = Finite (7 # 10)
      \/ exists r, In r results /\ confidence kc = vr_score r).
Proof.
  intros Ht Hm Hv kc.
  set (vc := absorb empty_context (_perform_vector_search query context)).
  assert (Hnan : is_nan (confidence vc) = false).
  { subst vc. now apply absorb_confidence_not_nan. }
  assert (Hbase :
    (forall r, In r results -> is_nan (vr_score r) = false ->
       float_le (vr_score r) (confidence vc) = true)
    /\ (confidence vc = Finite 0
        \/ exists r, In r results /\ confidence vc = vr_score r)).
  { subst vc. destruct (vector_confidence query context results Hv) as [Hc | ->].
    - rewrite Hc. split.
      + intros r Hr Hscore.
        eapply float_le_trans; [| apply float_max2_ge_r];
          [now apply fold_max_ge_elem | reflexivity |
           now apply fold_max_not_nan].
      + destruct (float_max2_cases (Finite 0) (running_max results (Finite 0)))
          as [-> | ->].
        * now left.
        * destruct (fold_max_attained results (Finite 0)) as [-> | (r & Hr & ->)].
          -- now left.
          -- right. now exists r.
    - split; [intros r [] | left].
      unfold Knowledge._perform_vector_search. rewrite Hv. reflexivity. }
  destruct Hbase as [Hbound Hatt].
  destruct (decision_total vc context t m Ht Hm) as [b Hb].
  subst kc. unfold Knowledge.retrieve_knowledge. fold vc. rewrite Hb.
  destruct b; cbn [fst finish confidence].
  - split; [now apply absorb_confidence_not_nan|]. split.
    + intros r Hr Hscore.
      eapply float_le_trans; [now apply Hbound | now apply absorb_confidence_ge].
    + destruct (_perform_external_search query context) as [found|] eqn:Hf;
        cbn [absorb confidence].
      * assert (Hconf : confidence found = Finite (7 # 10)).
        { unfold Knowledge._perform_external_search in Hf.
          destruct (search_service_search _ _) as [[|? ?]|]; try discriminate.
          injection Hf as <-. reflexivity. }
        rewrite Hconf.
        destruct (float_max2_cases (confidence vc) (Finite (7 # 10)))
          as [-> | ->].
        -- destruct Hatt as [-> | Hatt]; [now left | now right; right].
        -- right. now left.
      * destruct Hatt as [-> | Hatt]; [now left | now right; right].
  - split; [exact Hnan|]. split; [exact Hbound |].
    destruct Hatt as [-> | Hatt]; [now left | now right; right].
Qed.

(** X3.  The [sources] of the returned context list no source twice, and
    every listed source is the metadata source of a hit of the vector
    search or the source of a hit of the external search. *)
Theorem retrieve_knowledge_sources query context :
  let kc := fst (retrieve_knowledge query context) in
  List.NoDup (sources kc)
  /\ forall s, In s (sources kc) ->
       (exists results r,
          vector_db_search query (get_or context "vector_search_limit" (VInt 5))
            (get_or context "vector_search_threshold" (VFloat (7 # 10)))
          = Ok results
          /\ In r results /\ vr_metadata_source r = Some s)
       \/ (exists results r,
             search_service_search query
               (get_or context "external_search_limit" (VInt 3)) = Ok results
             /\ In r results /\ sr_source r = s).
Proof.
  intros kc.
  assert (Hv : forall s,
    In s (sources (absorb empty_context (_perform_vector_search query context))) ->
    exists results r,
      vector_db_search query (get_or context "vector_search_limit" (VInt 5))
        (get_or context "vector_search_threshold" (VFloat (7 # 10))) = Ok results
      /\ In r results /\ vr_metadata_source r = Some s).
  { intros s. unfold Knowledge._perform_vector_search.
    destruct (vector_db_search _ _ _) as [[|r0 rs]|] eqn:E; cbn [absorb sources];
      try (intros []).
    cbn [empty_context sources app]. intros Hs.
    apply vector_sources_In in Hs. destruct Hs as (r & Hr & Hs).
    exists (r0 :: rs), r. auto. }
  assert (He : forall found s,
    _perform_external_search query context = Some found ->
    In s (sources found) ->
    exists results r,
      search_service_search query
        (get_or context "external_search_limit" (VInt 3)) = Ok results
      /\ In r results /\ sr_source r = s).
  { intros found s. unfold Knowledge._perform_external_search.
    destruct (search_service_search _ _) as [[|r0 rs]|] eqn:E; try discriminate.
    intros [= <-]. cbn [sources]. intros Hs.
    change (In s (map sr_source (r0 :: rs))) in Hs.
    apply in_map_iff in Hs. destruct Hs as (r & Hs & Hr).
    exists (r0 :: rs), r. auto. }
  subst kc. unfold Knowledge.retrieve_knowledge.
  destruct (_should_perform_external_search _ context) as [[|]|];
    cbn [fst finish sources].
  - split; [apply list_set_NoDup |].
    intros s Hs. apply (proj1 (list_set_In _ _)) in Hs.
    destruct (_perform_external_search query context) as [found|] eqn:Hf;
      cbn [absorb sources] in Hs.
    + apply in_app_or in Hs. destruct Hs as [Hs | Hs].
      * left. now apply Hv.
      * right. now apply (He found).
    + left. now apply Hv.
  - split; [apply list_set_NoDup |].
    intros s Hs. apply (proj1 (list_set_In _ _)) in Hs. left. now apply Hv.
  - split; [constructor | intros s []].
Qed.

End Facts.

(** X1 at a store that is empty and a provider that is down. *)
Lemma retrieve_knowledge_nothing_found_witness :
  fst (retrieve_knowledge empty_store Services.search_down "what is MCP"
         scenario_context) = empty_context.
Proof.
  apply (retrieve_knowledge_nothing_found empty_store Services.search_down).
  - intros limit threshold. left. reflexivity.
  - intros limit. right. exists (BackendError "timeout"). reflexivity.
Defined.

(** X2 at a store holding a document of score 0.9 and one whose score is
    NaN. *)
Lemma retrieve_knowledge_confidence_is_max_witness :
  let kc := fst (retrieve_knowledge Services.two_documents Services.search_down
                   "what is MCP" scenario_context) in
  is_nan (confidence kc) = false
  /\ (forall r, In r Services.documents -> is_nan (vr_score r) = false ->
        float_le (vr_score r) (confidence kc) = true)
  /\ (confidence kc = Finite 0 \/ confidence kc = Finite (7 # 10)
      \/ exists r, In r Services.documents /\ confidence kc = vr_score r).
Proof.
  apply (retrieve_knowledge_confidence_is_max Services.two_documents
           Services.search_down "what is MCP" scenario_context _
           (Finite (85 # 100)) (Finite (inject_Z 2))); reflexivity.
Defined.

(** X4.  As the repository wires it, the knowledge stage never finds
    anything: [VectorDBService] has no attribute [search] and
    [SearchService.search] has no parameter [limit], so both calls raise,
    both helpers return [None], and [retrieve_knowledge] returns the empty
    context for every query and context, whatever the stores hold. *)
Theorem retrieve_knowledge_as_wired vector_store search_body query context :
  fst (retrieve_knowledge (Services.vector_db_search vector_store)
         (Services.search_service_search search_body) query context)
  = empty_context.
Proof.
  unfold Knowledge.retrieve_knowledge, Knowledge._perform_vector_search,
    Knowledge._perform_external_search.
  change (Services.vector_db_search vector_store query
            (get_or context "vector_search_limit" (VInt 5))
            (get_or context "vector_search_threshold" (VFloat (7 # 10))))
    with (@Raise (list vector_result) AttributeError).
  change (Services.search_service_search search_body query
            (get_or context "external_search_limit" (VInt 3)))
    with (@Raise (list search_result) (BackendError "RetryError")).
  cbn [absorb].
  destruct (_should_perform_external_search empty_context context) as [[|]|];
    reflexivity.
Qed.

End RetrievalProps.

(** ** Reasoning stage: what the chain consults and records *)

Module ChainProps.
Import Reasoning.

Lemma all_str_rejects (l : list value) v :
  In v l -> (forall s, v <> VStr s) -> all_str l = Raise TypeError.
Proof.
  induction l as [|x l IH]; intros [] Hv.
  - subst x. destruct v; try reflexivity. now destruct (Hv s).
  - destruct x; try reflexivity. cbn [all_str]. now rewrite IH.
Qed.

Section Facts.

Variable json_loads : string -> res value.

Lemma ask_ext (g1 g2 : llm_request -> res string) p max_tokens dflt :
  (forall rq, step_of (rq_prompt rq) <> KnowledgeEvaluation -> g1 rq = g2 rq) ->
  step_of p <> KnowledgeEvaluation ->
  ask json_loads g1 p max_tokens dflt = ask json_loads g2 p max_tokens dflt.
Proof.
  intros H Hp. unfold ask. now rewrite (H (json_request p max_tokens) Hp).
Qed.

(** X5.  When the knowledge context has no relevant info (the entry is
    absent or falsy), [analyze] does not consult the LLM for the
    knowledge evaluation: two LLMs that agree on every request other
    than a knowledge-evaluation prompt give the same steps and the same
    result. *)
Theorem analyze_skips_evaluation_without_knowledge
  (g1 g2 : llm_request -> res string) steps0 query knowledge_context context :
  truthy (get knowledge_context "relevant_info") = false ->
  (forall rq, step_of (rq_prompt rq) <> KnowledgeEvaluation -> g1 rq = g2 rq) ->
  analyze json_loads g1 steps0 query knowledge_context context
  = analyze json_loads g2 steps0 query knowledge_context context.
Proof.
  intros Hfalsy Hagree.
  assert (Hask : forall p mt d, step_of p <> KnowledgeEvaluation ->
            ask json_loads g1 p mt d = ask json_loads g2 p mt d).
  { intros. now apply ask_ext. }
  unfold analyze, chain.
  destruct (len _); [|reflexivity].
  unfold _analyze_request, _evaluate_knowledge. rewrite Hfalsy. cbn [negb].
  rewrite (Hask (RequestAnalysisPrompt query)) by discriminate.
  assert (Hkp : forall ra,
    _extract_key_points json_loads g1 query knowledge_context ra context
    = _extract_key_points json_loads g2 query knowledge_context ra context).
  { intros ra. unfold _extract_key_points.
    destruct (str_join _ _) as [kt|]; [|reflexivity]. cbn [bind].
    destruct (obj_get ra "intent" _) as [i|]; [|reflexivity]. cbn [bind].
    destruct (obj_get ra "domain" _) as [d|]; [|reflexivity]. cbn [bind].
    destruct (obj_get ra "complexity" _) as [c|]; [|reflexivity]. cbn [bind].
    now rewrite Hask by discriminate. }
  assert (Hpr : forall kp ra,
    _plan_response json_loads g1 query kp ra context
    = _plan_response json_loads g2 query kp ra context).
  { intros kp ra. unfold _plan_response.
    destruct (obj_get kp "points" _) as [pts|]; [|reflexivity]. cbn [bind].
    destruct (iter pts) as [points|]; [|reflexivity]. cbn [bind].
    destruct (obj_get ra "intent" _) as [i|]; [|reflexivity]. cbn [bind].
    destruct (obj_get ra "domain" _) as [d|]; [|reflexivity]. cbn [bind].
    destruct (obj_get ra "complexity" _) as [c|]; [|reflexivity]. cbn [bind].
    now rewrite Hask by discriminate. }
  rewrite Hkp.
  destruct (_extract_key_points json_loads g2 query knowledge_context _ context)
    as [kp|]; [|reflexivity].
  rewrite Hpr. reflexivity.
Qed.

Variable generate_text : llm_request -> res string.

(** X6.  When [relevant_info] is a list with an entry that is not a
    string, the [join] of the knowledge evaluation raises, and [analyze]
    returns the fallback result with only the first step recorded. *)
Theorem analyze_falls_back_on_structured_entries
  steps0 query knowledge_context context entries entry :
  get knowledge_context "relevant_info" = VList entries ->
  In entry entries ->
  (forall s, entry <> VStr s) ->
  analyze json_loads generate_text steps0 query knowledge_context context
  = ([("request_analysis",
       _analyze_request json_loads generate_text query context)],
     Ok fallback_result).
Proof.
  intros Hinfo Hin Hentry.
  assert (Hget : get_or knowledge_context "relevant_info" (VList []) = VList entries).
  { unfold get, get_or in *. destruct (knowledge_context !! "relevant_info");
      [exact Hinfo | discriminate]. }
  unfold analyze, chain. rewrite Hget. cbn [len].
  unfold _evaluate_knowledge. rewrite Hinfo, Hget.
  destruct entries as [|e0 rest]; [destruct Hin |].
  cbn [truthy negb]. unfold str_join. cbn [iter bind].
  rewrite (all_str_rejects (e0 :: rest) entry Hin Hentry). reflexivity.
Qed.

(** X7.  The knowledge stage hands the reasoning stage entries that are
    dicts, so whenever retrieval returned at least one entry the
    reasoning stage returns its fallback result. *)
Theorem analyze_falls_back_on_retrieved_knowledge
  steps0 query (kc : Knowledge.KnowledgeContext) context :
  Knowledge.relevant_info kc <> [] ->
  snd (analyze json_loads generate_text steps0 query
         (Pipeline.knowledge_dict kc) context)
  = Ok fallback_result.
Proof.
  intros Hne. destruct kc as [infos srcs conf]. cbn [Knowledge.relevant_info] in Hne.
  destruct infos as [|i rest]; [now destruct Hne |].
  unfold analyze, chain, Pipeline.knowledge_dict.
  cbn [Knowledge.relevant_info Knowledge.sources Knowledge.confidence].
  unfold get_or. rewrite lookup_insert_eq. cbn [default len map].
  unfold _evaluate_knowledge, get, get_or. rewrite lookup_insert_eq.
  cbn [default truthy negb]. unfold str_join. cbn [iter bind all_str].
  reflexivity.
Qed.

End Facts.

(** X5 at an LLM that fails on the evaluation prompt only. *)
Lemma analyze_skips_evaluation_without_knowledge_witness :
  analyze reject not_json [] "what is MCP" ∅ ∅
  = analyze reject Pipeline.silent_on_evaluation [] "what is MCP" ∅ ∅.
Proof.
  apply (analyze_skips_evaluation_without_knowledge reject not_json
           Pipeline.silent_on_evaluation [] "what is MCP" ∅ ∅).
  - reflexivity.
  - intros rq Hrq. unfold Pipeline.silent_on_evaluation.
    destruct (step_of (rq_prompt rq)); try reflexivity. now destruct Hrq.
Defined.

(** X6 at the entry the knowledge stage builds. *)
Lemma analyze_falls_back_on_structured_entries_witness :
  analyze reject not_json [] "what is MCP" retrieved_fact ∅
  = ([("request_analysis", _analyze_request reject not_json "what is MCP" ∅)],
     Ok fallback_result).
Proof.
  apply (analyze_falls_back_on_structured_entries reject not_json []
           "what is MCP" retrieved_fact ∅ _ _ eq_refl (or_introl eq_refl)).
  intros s. discriminate.
Defined.

(** X7 at a context holding one hit. *)
Lemma analyze_falls_back_on_retrieved_knowledge_witness :
  snd (analyze reject not_json [] "what is MCP"
         (Pipeline.knowledge_dict Pipeline.one_hit) ∅)
  = Ok fallback_result.
Proof.
  apply (analyze_falls_back_on_retrieved_knowledge reject not_json []
           "what is MCP" Pipeline.one_hit ∅).
  discriminate.
Defined.

End ChainProps.

(** ** LLM service: requests, retries and the test mode *)

Module LLMRequestProps.
Import LLMRequest.

(** The loop over the options copies a key only where the payload has
    none, and never the two reserved keys. *)
Lemma fold_copy_option (l : list (string * value)) (payload : dict) k :
  NoDup (map fst l) ->
  fold_left copy_option l payload !! k
  = match payload !! k with
    | Some v => Some v
    | None => if reserved k then None else (list_to_map l : dict) !! k
    end.
Proof.
  revert payload. induction l as [|[k0 v0] l IH]; intros payload Hnd.
  - cbn [fold_left list_to_map foldr]. rewrite lookup_empty.
    destruct (payload !! k), (reserved k); reflexivity.
  - cbn [map fst] in Hnd. apply NoDup_cons in Hnd. destruct Hnd as [Hk0 Hnd].
    cbn [fold_left]. rewrite IH by exact Hnd.
    change (list_to_map ((k0, v0) :: l) : dict)
      with (<[k0 := v0]> (list_to_map l : dict)).
    assert (Hl : (list_to_map l : dict) !! k0 = None)
      by now apply not_elem_of_list_to_map_1.
    unfold copy_option. cbn [fst snd].
    destruct (reserved k0) eqn:Hres; cbn [negb andb].
    + destruct (payload !! k) eqn:Hp; [reflexivity |].
      destruct (reserved k) eqn:Hrk; [reflexivity |].
      rewrite lookup_insert_ne; [reflexivity |].
      intros ->. congruence.
    + destruct (payload !! k0) eqn:Hp0.
      * rewrite bool_decide_true by eauto. cbn [negb].
        destruct (payload !! k) eqn:Hp; [reflexivity |].
        destruct (reserved k); [reflexivity |].
        rewrite lookup_insert_ne; [reflexivity |].
        intros ->. congruence.
      * rewrite bool_decide_false by (intros [? ?]; discriminate). cbn [negb].
        destruct (decide (k0 = k)) as [-> | Hne].
        -- rewrite !lookup_insert_eq, Hp0, Hres. reflexivity.
        -- rewrite !(lookup_insert_ne _ k0 k) by exact Hne. reflexivity.
Qed.

Lemma copy_options_lookup (o payload : dict) k :
  fold_left copy_option (map_to_list o) payload !! k
  = match payload !! k with
    | Some v => Some v
    | None => if reserved k then None else o !! k
    end.
Proof.
  rewrite fold_copy_option by apply NoDup_fst_map_to_list.
  now rewrite list_to_map_to_list.
Qed.

(** X8.  Whatever the options hold, the payload carries the model, the
    token limit and the temperature it was given and the user's prompt
    as the second message; the keys [system_prompt] and [format] are
    never sent; and every other key, [response_format] apart, is sent
    exactly as the options give it. *)
Theorem prepare_payload_keeps_core_fields
  prompt max_tokens temperature model options :
  let payload := _prepare_payload prompt max_tokens temperature model options in
  payload !! "model" = Some model
  /\ payload !! "max_tokens" = Some max_tokens
  /\ payload !! "temperature" = Some temperature
  /\ (exists system,
        payload !! "messages"
        = Some (VList [system_message system; user_message prompt]))
  /\ payload !! "system_prompt" = None
  /\ payload !! "format" = None
  /\ forall key,
       key <> "model" -> key <> "messages" -> key <> "max_tokens" ->
       key <> "temperature" -> key <> "response_format" ->
       payload !! key = passed_through options key.
Proof.
  intros payload. subst payload. unfold _prepare_payload, passed_through.
  destruct options as [o|].
  - destruct (truthy (VDict o)) eqn:Ho.
    + destruct (truthy (get o "system_prompt")), (eq_str (get o "format") "json");
        (repeat split;
         [ rewrite copy_options_lookup; reflexivity
         | rewrite copy_options_lookup; reflexivity
         | rewrite copy_options_lookup; reflexivity
         | eexists; rewrite copy_options_lookup; reflexivity
         | rewrite copy_options_lookup; reflexivity
         | rewrite copy_options_lookup; reflexivity
         | intros key H1 H2 H3 H4 H5; rewrite copy_options_lookup;
           rewrite ?(lookup_insert_ne _ "response_format" key) by congruence;
           rewrite (lookup_insert_ne _ "model" key) by congruence;
           rewrite (lookup_insert_ne _ "messages" key) by congruence;
           rewrite (lookup_insert_ne _ "max_tokens" key) by congruence;
           rewrite (lookup_insert_ne _ "temperature" key) by congruence;
           rewrite lookup_empty; reflexivity ]).
    + apply GenerationProps.falsy_dict_empty in Ho. subst o.
      repeat split; try reflexivity.
      * eexists; reflexivity.
      * intros key H1 H2 H3 H4 H5.
        rewrite (lookup_insert_ne _ "model" key) by congruence.
        rewrite (lookup_insert_ne _ "messages" key) by congruence.
        rewrite (lookup_insert_ne _ "max_tokens" key) by congruence.
        rewrite (lookup_insert_ne _ "temperature" key) by congruence.
        rewrite !lookup_empty. now destruct (reserved key).
  - repeat split; try reflexivity.
    + eexists; reflexivity.
    + intros key H1 H2 H3 H4 H5.
      rewrite (lookup_insert_ne _ "model" key) by congruence.
      rewrite (lookup_insert_ne _ "messages" key) by congruence.
      rewrite (lookup_insert_ne _ "max_tokens" key) by congruence.
      rewrite (lookup_insert_ne _ "temperature" key) by congruence.
      rewrite lookup_empty. now destruct (reserved key).
Qed.

Section Facts.

Variable str : value -> string.
Variable settings : string -> string.
Variable post : nat -> request -> res response.

Abbreviation generate_text := (generate_text str post).
Abbreviation attempt := (attempt str post).

Lemma retrying_sent {A : Type} (P : request -> Prop) attempts n
  (call : nat -> res A * list request) :
  (forall n, (length (snd (call n)) <= 1)%nat /\ Forall P (snd (call n))) ->
  (length (snd (retrying attempts n call)) <= attempts)%nat
  /\ Forall P (snd (retrying attempts n call)).
Proof.
  intros Hcall. revert n. induction attempts as [|k IH]; intros n.
  - cbn. split; [lia | constructor].
  - cbn [retrying]. destruct (Hcall n) as [Hlen HP].
    destruct (call n) as [[a|e] sent]; cbn [snd] in *.
    + split; [lia | exact HP].
    + destruct (IH (S n)) as [Hlen' HP'].
      destruct (retrying k (S n) call) as [outcome sent']. cbn [snd] in *.
      split.
      * rewrite length_app. lia.
      * apply Forall_app. now split.
Qed.

(** X9.  One call of [generate_text] sends at most three requests, and
    every request it sends goes to [{api_base_url}/chat/completions],
    carries the prepared payload and authorises with the service's own
    key. *)
Theorem generate_text_sends_at_most_three
  self prompt max_tokens temperature model options :
  let sent := snd (generate_text self prompt max_tokens temperature model options) in
  (length sent <= 3)%nat
  /\ Forall (fun rq =>
       endpoint rq = (LLM.api_base_url self ++ "/chat/completions")%string
       /\ json_body rq
          = _prepare_payload prompt max_tokens temperature
              (effective_model self model) options
       /\ headers rq !! "Authorization"
          = Some (VStr ("Bearer " ++ LLM.api_key self))) sent.
Proof.
  intros sent. subst sent. unfold LLMRequest.generate_text.
  apply retrying_sent. intros n. unfold LLMRequest.attempt.
  destruct (LLM.test_mode self); cbn [snd length].
  - split; [lia | constructor].
  - split; [lia |]. constructor; [|constructor]. cbn. auto.
Qed.

Lemma retrying_all_fail {A : Type} attempts n (call : nat -> res A * list request) :
  (forall n, exists e rq, call n = (Raise e, [rq])) ->
  exists sent, retrying attempts n call = (Raise (BackendError "RetryError"), sent)
               /\ length sent = attempts.
Proof.
  intros Hcall. revert n. induction attempts as [|k IH]; intros n.
  - exists []. split; reflexivity.
  - cbn [retrying]. destruct (Hcall n) as (e & rq & ->).
    destruct (IH (S n)) as (sent & -> & Hlen).
    exists ([rq] ++ sent). split; [reflexivity |]. cbn. now rewrite Hlen.
Qed.

(** X10.  Outside the test mode, when every attempt ends in an exception
    of the transport or in a response whose status is not 200,
    [generate_text] raises after exactly three requests and returns no
    text. *)
Theorem generate_text_gives_up_after_three
  self prompt max_tokens temperature model options :
  LLM.test_mode self = false ->
  (forall n rq r, post n rq = Ok r -> status_code r <> 200) ->
  fst (generate_text self prompt max_tokens temperature model options)
  = Raise (BackendError "RetryError")
  /\ length (snd (generate_text self prompt max_tokens temperature model options))
     = 3%nat.
Proof.
  intros Hlive Hdown. unfold LLMRequest.generate_text.
  destruct (retrying_all_fail 3 0
              (attempt self prompt max_tokens temperature model options))
    as (sent & Heq & Hlen).
  - intros n. unfold LLMRequest.attempt. rewrite Hlive.
    match goal with
    | |- context [post n ?rq] =>
        destruct (post n rq) as [r|e] eqn:Hpost; cbn [bind]
    end.
    + apply Hdown in Hpost. apply Z.eqb_neq in Hpost. rewrite Hpost. eauto.
    + eauto.
  - rewrite Heq. cbn [fst snd]. auto.
Qed.

(** X11.  A service constructed without a key, with an empty key or with
    a key that starts with [sk-test] or [sk-dummy] answers every call
    with the mock response for the requested model (the default
    [gpt-3.5-turbo] when none is given) and sends no request. *)
Theorem generate_text_offline_in_test_mode
  key prompt max_tokens temperature model options :
  match key with
  | None => True
  | Some k => k = EmptyString \/ is_prefix "sk-test" k = true
              \/ is_prefix "sk-dummy" k = true
  end ->
  generate_text (LLM.__init__ settings key) prompt max_tokens temperature
                model options
  = (Ok (LLM.Field (VStr (_generate_mock_response str prompt
                            (if truthy model then model
                             else VStr "gpt-3.5-turbo")))), []).
Proof.
  intros Hkey.
  assert (Hmode : LLM.test_mode (LLM.__init__ settings key) = true).
  { destruct key as [k|]; [|reflexivity].
    destruct Hkey as [-> | [Hk | Hk]]; [reflexivity | |].
    - unfold LLM.__init__. destruct (truthy (VStr k)); [|reflexivity].
      cbn [LLM.test_mode]. rewrite Hk. apply orb_true_r.
    - unfold LLM.__init__. destruct (truthy (VStr k)); [|reflexivity].
      cbn [LLM.test_mode]. now rewrite Hk. }
  unfold LLMRequest.generate_text. cbn [retrying].
  unfold LLMRequest.attempt. rewrite Hmode. reflexivity.
Qed.

(** X12.  [generate_embeddings] never sends a request: the settings
    class declares no [EMBEDDING_API_BASE_URL], so reading it raises
    [AttributeError] before the call of the HTTP client, for every text,
    model and stored key. *)
Theorem generate_embeddings_always_raises self text model :
  generate_embeddings settings post self text model = (Raise AttributeError, []).
Proof.
  unfold generate_embeddings. destruct (truthy model); reflexivity.
Qed.

End Facts.

(** X10 at a live key and an endpoint that answers 503. *)
Lemma generate_text_gives_up_after_three_witness :
  fst (generate_text plain_str always_503 live_service "hello"
         (VInt 100) (VFloat (7 # 10)) VNone None)
  = Raise (BackendError "RetryError")
  /\ length (snd (generate_text plain_str always_503 live_service "hello"
                    (VInt 100) (VFloat (7 # 10)) VNone None)) = 3%nat.
Proof.
  apply (generate_text_gives_up_after_three plain_str always_503 live_service).
  - reflexivity.
  - intros n rq r [= <-]. discriminate.
Defined.

(** X11 at a key of the test family. *)
Lemma generate_text_offline_in_test_mode_witness :
  generate_text plain_str always_completes
    (LLM.__init__ (fun _ => EmptyString) (Some "sk-test-42")) "hello"
    (VInt 100) (VFloat (7 # 10)) VNone None
  = (Ok (LLM.Field (VStr (_generate_mock_response plain_str "hello"
                            (VStr "gpt-3.5-turbo")))), []).
Proof.
  apply (generate_text_offline_in_test_mode plain_str (fun _ => EmptyString)
           always_completes (Some "sk-test-42")).
  right. left. reflexivity.
Defined.

End LLMRequestProps.

(** ** Generation stage: the history and the prompt *)

Module GenerateProps.
Import Generation.

Section Facts.

Variable str : value -> string.
Variable now : string.
Variable settings : string -> string.
Variable generate_text : llm_call -> res string.

Abbreviation generate := (generate str now settings generate_text).

(** X13.  A call of [generate] that returns a content appends exactly one
    entry to the generation history: it records the caller's prompt (not
    the enhanced one), the returned content and the four parameters as
    the context gives them (not as an override resolved them).  A call
    that raises leaves the history as it was. *)
Theorem generate_records_history self prompt reasoning_result knowledge_context
  context llm_config api_key :
  match snd (generate self prompt reasoning_result knowledge_context context
               llm_config api_key) with
  | Ok content =>
      generation_history
        (fst (generate self prompt reasoning_result knowledge_context context
                llm_config api_key))
      = generation_history self
        ++ [{| h_prompt := prompt;
               h_content := content;
               h_timestamp := now;
               h_params :=
                 <["max_tokens" := get context "max_tokens"]>
                 (<["temperature" := get context "temperature"]>
                 (<["format" := get context "format"]>
                 (<["domain" := get context "domain"]> ∅))) |}]
  | Raise _ =>
      generation_history
        (fst (generate self prompt reasoning_result knowledge_context context
                llm_config api_key))
      = generation_history self
  end.
Proof.
  unfold Generation.generate.
  destruct (resolve_parameters _ _ _ _ _) as [p|]; [|reflexivity].
  destruct api_key as [k|]; cbn [nonempty].
  - destruct (truthy (VStr k)); cbn [nonempty];
      try destruct (truthy (VStr (LLM.api_key (llm_service self))));
      match goal with
      | |- context [bind ?m ?f] => destruct (bind m f)
      end; reflexivity.
  - match goal with
    | |- context [bind ?m ?f] => destruct (bind m f)
    end; reflexivity.
Qed.

(** X14.  When [generate] returns a content, the LLM call that produced
    it went through a service built afresh from the caller's key if a
    non-empty key was supplied, and through the stored service
    otherwise. *)
Theorem generate_calls_through_client_service self prompt reasoning_result
  knowledge_context context llm_config api_key content :
  snd (generate self prompt reasoning_result knowledge_context context
         llm_config api_key) = Ok content ->
  exists c,
    generate_text c = Ok content
    /\ via c = (if nonempty api_key then LLM.__init__ settings api_key
                else llm_service self).
Proof.
  unfold Generation.generate.
  destruct (resolve_parameters _ _ _ _ _) as [p|]; [|discriminate].
  destruct (_build_enhanced_prompt str prompt reasoning_result knowledge_context)
    as [enhanced|] eqn:Hb; cbn [bind].
  - match goal with
    | |- context [generate_text ?c] => destruct (generate_text c) eqn:Hcall
    end; cbn [snd]; [|discriminate].
    intros [= <-]. eexists. split; [exact Hcall |].
    cbn [via]. destruct api_key as [k|]; cbn [nonempty]; [|reflexivity].
    destruct (truthy (VStr k)); reflexivity.
  - discriminate.
Qed.

End Facts.

(** X14 at a fresh instance and a client key. *)
Lemma generate_calls_through_client_service_witness :
  exists c,
    echo_key c = Ok "sk-client"
    /\ via c = (if nonempty (Some "sk-client")
                then LLM.__init__ no_settings (Some "sk-client")
                else llm_service (__init__ no_settings)).
Proof.
  apply (generate_calls_through_client_service plain_str "t0" no_settings echo_key
           (__init__ no_settings) "hello" ∅ ∅ ∅ None (Some "sk-client")).
  reflexivity.
Defined.

End GenerateProps.

(** ** Communication stage: the formatters without the LLM *)

Module FormatProps.
Import Communication.

Lemma split_from_absent sep cur s :
  contains sep s = false -> split_from sep O cur s = [(cur ++ s)%string].
Proof.
  revert cur. induction s as [|a s IH]; intros cur H.
  - cbn [split_from]. now rewrite CommunicationProps.append_empty_r.
  - cbn [contains] in H. apply orb_false_iff in H. destruct H as [Hp Hc].
    cbn [split_from]. rewrite Hp. rewrite IH by exact Hc.
    rewrite CommunicationProps.append_assoc. reflexivity.
Qed.

Lemma split_absent sep s : contains sep s = false -> split sep s = [s].
Proof. intros H. unfold split. now rewrite split_from_absent. Qed.

Section Facts.

Variable str : value -> string.
Variable json_dumps : value -> res string.
Variable json_loads : string -> res value.
Variable llm_service_generate_text : llm_request -> res string.

Abbreviation format_response :=
  (format_response str json_dumps json_loads llm_service_generate_text).
Abbreviation _format_as_text := (_format_as_text llm_service_generate_text).
Abbreviation _add_citations := (_add_citations str json_dumps json_loads).

(** X15.  With a tone other than [conversational], the text formatter
    returns a content that has a blank line unchanged; a content with
    neither a blank line nor the separator [". "] comes back with a full
    stop appended, whether or not it ends with one already (the empty
    content becomes ["."]). *)
Theorem text_format_without_rewrite content context :
  eq_str (get_or context "tone" (VStr "neutral")) "conversational" = false ->
  (contains (nl ++ nl) content = true ->
   _format_as_text content context = content)
  /\ (contains (nl ++ nl) content = false -> contains ". " content = false ->
      _format_as_text content context = (content ++ ".")%string).
Proof.
  intros Htone. unfold Communication._format_as_text. rewrite Htone. split.
  - intros ->. reflexivity.
  - intros -> Hsep. cbn [negb]. rewrite (split_absent ". " content Hsep).
    reflexivity.
Qed.

Lemma numbered_nth k (items : list value) i item :
  nth_error items i = Some item ->
  nth_error (numbered str k items) i
  = Some (pretty (k + i + 1)%nat ++ ". " ++ str item)%string.
Proof.
  revert k i. induction items as [|x items IH]; intros k [|i]; try discriminate.
  - intros [= ->]. cbn [numbered nth_error]. now rewrite Nat.add_0_r.
  - cbn [nth_error numbered]. intros H. rewrite (IH (k + 1)%nat i H).
    do 3 f_equal. lia.
Qed.

Lemma numbered_length k (items : list value) :
  length (numbered str k items) = length items.
Proof.
  revert k. induction items as [|x items IH]; intros k; cbn; [reflexivity |].
  now rewrite IH.
Qed.

(** X16.  For an output format other than markdown and json,
    [_add_citations] appends to the content a block headed by the
    sources label with one line for every source, in order, the [i]-th
    (from 0) numbered [i+1]. *)
Theorem add_citations_numbers_sources content sources output_format items :
  truthy sources = true ->
  iter sources = Ok items ->
  eq_str output_format "markdown" = false ->
  eq_str output_format "json" = false ->
  exists lines,
    _add_citations content sources output_format
    = Ok (content ++ nl ++ nl ++ "출처:" ++ nl ++ join nl lines)%string
    /\ length lines = length items
    /\ forall i item, nth_error items i = Some item ->
         nth_error lines i
         = Some (pretty (i + 1)%nat ++ ". " ++ str item)%string.
Proof.
  intros Ht Hiter Hmd Hjson. exists (numbered str 0 items).
  unfold Communication._add_citations. rewrite Ht, Hiter, Hmd, Hjson.
  cbn [negb bind]. split; [reflexivity |].
  split; [apply numbered_length |].
  intros i item H. now rewrite (numbered_nth 0 items i item H).
Qed.

End Facts.

(** X17.  In the program as written the helpers cannot reach the LLM
    ([llm_service] is not bound inside them), so without citations
    [format_response] is a function of the content and the context alone:
    the table format returns the content unchanged, the code format
    fences it in the requested language, the markdown format applies the
    heading fallback, and the text format ignores the tone. *)
Theorem format_response_as_written str json_dumps json_loads content prompt
  context api_key :
  wants_citations context = false ->
  let output_format := get_or context "format" (VStr "text") in
  let result :=
    format_response str json_dumps json_loads unbound_llm_service content prompt
                    context api_key in
  (eq_str output_format "table" = true -> result = Ok content)
  /\ (eq_str output_format "code" = true ->
      result = Ok ("```" ++ str (get_or context "code_language" (VStr "python"))
                   ++ nl ++ content ++ nl ++ "```")%string)
  /\ (eq_str output_format "markdown" = true ->
      result = Ok (markdown_fallback content))
  /\ (eq_str output_format "json" = false ->
      eq_str output_format "markdown" = false ->
      eq_str output_format "code" = false ->
      eq_str output_format "table" = false ->
      result = Ok (if contains (nl ++ nl) content then content
                   else join (nl ++ nl) (paragraphs [] (split ". " content)))).
Proof.
  intros Hcit output_format result. subst result output_format.
  unfold format_response, format_response_body, dispatch. rewrite Hcit.
  repeat split.
  - intros H. apply CommunicationProps.eq_str_inv in H. rewrite H. reflexivity.
  - intros H. apply CommunicationProps.eq_str_inv in H. rewrite H. reflexivity.
  - intros H. apply CommunicationProps.eq_str_inv in H. rewrite H. reflexivity.
  - intros -> -> -> ->. cbn [try_except]. unfold _format_as_text.
    destruct (contains (nl ++ nl) content); cbn [negb];
      destruct (eq_str _ "conversational"); reflexivity.
Qed.

(** X15 at a one-sentence answer that already ends with a full stop. *)
Lemma text_format_without_rewrite_witness :
  (contains (nl ++ nl) "Done." = true ->
   _format_as_text unbound_llm_service "Done." ∅ = "Done.")
  /\ (contains (nl ++ nl) "Done." = false -> contains ". " "Done." = false ->
      _format_as_text unbound_llm_service "Done." ∅ = ("Done." ++ ".")%string).
Proof.
  apply (text_format_without_rewrite unbound_llm_service "Done." ∅). reflexivity.
Defined.

(** X16 at two sources in the text format. *)
Lemma add_citations_numbers_sources_witness :
  exists lines,
    _add_citations plain_str no_dumps no_loads "Answer"
      (VList [VStr "s1"; VStr "s2"]) (VStr "text")
    = Ok ("Answer" ++ nl ++ nl ++ "출처:" ++ nl ++ join nl lines)%string
    /\ length lines = length [VStr "s1"; VStr "s2"]
    /\ forall i item, nth_error [VStr "s1"; VStr "s2"] i = Some item ->
         nth_error lines i
         = Some (pretty (i + 1)%nat ++ ". " ++ plain_str item)%string.
Proof.
  apply (add_citations_numbers_sources plain_str no_dumps no_loads "Answer"
           (VList [VStr "s1"; VStr "s2"]) (VStr "text"));
    reflexivity.
Defined.

(** X17 at a table request. *)
Lemma format_response_as_written_witness :
  let output_format := get_or (<["format" := VStr "table"]> ∅) "format" (VStr "text") in
  let result :=
    format_response plain_str no_dumps no_loads unbound_llm_service "a | b" "q"
                    (<["format" := VStr "table"]> ∅) None in
  (eq_str output_format "table" = true -> result = Ok "a | b")
  /\ (eq_str output_format "code" = true ->
      result = Ok ("```" ++ plain_str (get_or (<["format" := VStr "table"]> ∅)
                                         "code_language" (VStr "python"))
                   ++ nl ++ "a | b" ++ nl ++ "```")%string)
  /\ (eq_str output_format "markdown" = true ->
      result = Ok (markdown_fallback "a | b"))
  /\ (eq_str output_format "json" = false ->
      eq_str output_format "markdown" = false ->
      eq_str output_format "code" = false ->
      eq_str output_format "table" = false ->
      result = Ok (if contains (nl ++ nl) "a | b" then "a | b"
                   else join (nl ++ nl) (paragraphs [] (split ". " "a | b")))).
Proof.
  apply (format_response_as_written plain_str no_dumps no_loads "a | b" "q"
           (<["format" := VStr "table"]> ∅) None).
  reflexivity.
Defined.

End FormatProps.

(** ** Database-backed learning protocol: analysis, aggregate and accessors *)

Module LearningStoreProps.
Import Learning LearningStore.

(** The keyword loop appends the tag once, when some keyword occurs and
    the tag is not there yet. *)
Lemma scan_spec keywords c tag tags :
  scan keywords (VStr c) tag tags
  = Ok (if existsb (fun keyword => contains keyword c) keywords
           && negb (existsb (String.eqb tag) tags)
        then tags ++ [tag] else tags).
Proof.
  induction keywords as [|keyword rest IH]; [reflexivity |].
  change (scan (keyword :: rest) (VStr c) tag tags)
    with (if contains keyword c && negb (existsb (String.eqb tag) tags)
          then Ok (tags ++ [tag]) else scan rest (VStr c) tag tags).
  change (existsb (fun keyword => contains keyword c) (keyword :: rest))
    with (contains keyword c
          || existsb (fun keyword => contains keyword c) rest).
  rewrite IH.
  destruct (contains keyword c), (existsb (String.eqb tag) tags),
    (existsb (fun keyword => contains keyword c) rest); reflexivity.
Qed.

(** The analysis of a feedback with a numeric rating and a textual (or
    absent) comment, spelled out. *)
Lemma analyze_body_numeric feedback_data q c :
  num (get_or feedback_data "rating" (VInt 0)) = Some q ->
  get_or feedback_data "comment" (VStr EmptyString) = VStr c ->
  exists tagged,
    analyze_body feedback_data
    = Ok {| sentiment := if Qle_bool 4 q then "positive"
                         else if Qle_bool q 2 then "negative" else "neutral";
            improvement_areas :=
              if existsb (fun keyword => contains keyword c) negative_keywords
                 && negb (existsb (String.eqb "개선 필요") (fst tagged))
              then fst tagged ++ ["개선 필요"] else fst tagged;
            strengths :=
              if existsb (fun keyword => contains keyword c) positive_keywords
                 && negb (existsb (String.eqb "전반적으로 만족") (snd tagged))
              then snd tagged ++ ["전반적으로 만족"] else snd tagged |}
    /\ ~ In "개선 필요" (fst tagged)
    /\ ~ In "전반적으로 만족" (snd tagged).
Proof.
  intros Hq Hc. unfold analyze_body. rewrite Hc.
  unfold cmp. rewrite (PyProps.num_number_of _ _ Hq).
  cbn [number_of bind float_le].
  set (s := if Qle_bool 4 q then "positive"
            else if Qle_bool q 2 then "negative" else "neutral").
  assert (Hs : (s0 <- (if Qle_bool (inject_Z 4) q then Ok "positive"
                       else Ok (if Qle_bool q (inject_Z 2) then "negative"
                                else "neutral")) ;;
                Ok s0) = Ok s).
  { subst s. change (inject_Z 4) with 4%Q. change (inject_Z 2) with 2%Q.
    destruct (Qle_bool 4 q); reflexivity. }
  assert (Htag : exists tagged : list string * list string,
    match type_tags (get_or feedback_data "feedback_type" (VStr EmptyString)) with
    | Some (improve, strong) =>
        Ok (if Qle_bool q (inject_Z 3) then ([improve], []) else ([], [strong]))
    | None => Ok ([], [])
    end = Ok tagged
    /\ ~ In "개선 필요" (fst tagged) /\ ~ In "전반적으로 만족" (snd tagged)).
  { unfold type_tags.
    repeat match goal with
    | |- context [eq_str ?v ?t] => destruct (eq_str v t)
    end;
    try destruct (Qle_bool q (inject_Z 3));
    (eexists; split; [reflexivity |];
     split; intros H; cbn in H; intuition discriminate). }
  destruct Htag as (tagged & Htag & Hneg & Hpos).
  exists tagged. split; [|split; assumption].
  destruct (Qle_bool (inject_Z 4) q) eqn:Hhigh;
    change (inject_Z 4) with 4%Q in Hhigh; subst s; rewrite Hhigh;
    cbn [bind]; rewrite Htag; cbn [bind];
    destruct (truthy (VStr c)) eqn:Hcomment.
  1,3: rewrite !scan_spec; cbn [bind]; reflexivity.
  all: cbn [truthy] in Hcomment; apply negb_false_iff, String.eqb_eq in Hcomment;
    subst c; f_equal; f_equal.
  all: try (change (inject_Z 2) with 2%Q; reflexivity).
  all: match goal with
       | |- ?l = (if ?b && _ then _ else _) =>
           replace b with false by (symmetry; reflexivity); reflexivity
       end.
Qed.

Lemma comment_text feedback_data :
  (feedback_data !! "comment" = None
   \/ feedback_data !! "comment" = Some VNone
   \/ exists c, feedback_data !! "comment" = Some (VStr c)) ->
  (exists c, get_or feedback_data "comment" (VStr EmptyString) = VStr c)
  \/ get_or feedback_data "comment" (VStr EmptyString) = VNone.
Proof.
  unfold get_or. intros [-> | [-> | [c ->]]]; cbn; eauto.
Qed.

(** X18.  For a feedback whose rating is a number (a missing rating
    counts as 0) and whose comment is absent, [None] or a text, the
    sentiment of the analysis is [positive] from 4 upwards, [negative] up
    to 2 and [neutral] in between. *)
Theorem analyze_feedback_sentiment_cutoffs feedback_data q :
  num (get_or feedback_data "rating" (VInt 0)) = Some q ->
  (feedback_data !! "comment" = None
   \/ feedback_data !! "comment" = Some VNone
   \/ exists c, feedback_data !! "comment" = Some (VStr c)) ->
  sentiment (_analyze_feedback feedback_data)
  = if Qle_bool 4 q then "positive"
    else if Qle_bool q 2 then "negative" else "neutral".
Proof.
  intros Hq Hcomment. unfold _analyze_feedback.
  destruct (comment_text feedback_data Hcomment) as [[c Hc] | Hnone].
  - destruct (analyze_body_numeric feedback_data q c Hq Hc) as (tagged & -> & _).
    reflexivity.
  - unfold analyze_body. rewrite Hnone. unfold cmp.
    rewrite (PyProps.num_number_of _ _ Hq). cbn [number_of bind float_le].
    change (inject_Z 4) with 4%Q. change (inject_Z 2) with 2%Q.
    destruct (Qle_bool 4 q); cbn [bind];
      destruct (type_tags _) as [[improve strong]|]; cbn [bind truthy];
      reflexivity.
Qed.

(** X19.  For a feedback with a numeric rating and a textual comment, the
    tag [개선 필요] is among the improvement areas exactly when the
    comment contains one of the negative keywords, and the tag
    [전반적으로 만족] among the strengths exactly when it contains one
    of the positive keywords: whatever the rating. *)
Theorem analyze_feedback_keyword_tags feedback_data q c :
  num (get_or feedback_data "rating" (VInt 0)) = Some q ->
  feedback_data !! "comment" = Some (VStr c) ->
  (In "개선 필요" (improvement_areas (_analyze_feedback feedback_data))
   <-> existsb (fun keyword => contains keyword c) negative_keywords = true)
  /\ (In "전반적으로 만족" (strengths (_analyze_feedback feedback_data))
      <-> existsb (fun keyword => contains keyword c) positive_keywords = true).
Proof.
  intros Hq Hcomment.
  assert (Hc : get_or feedback_data "comment" (VStr EmptyString) = VStr c)
    by (unfold get_or; now rewrite Hcomment).
  unfold _analyze_feedback.
  destruct (analyze_body_numeric feedback_data q c Hq Hc)
    as (tagged & -> & Hneg & Hpos).
  cbn [improvement_areas strengths].
  assert (Hfresh : forall tag tags, ~ In tag tags ->
            existsb (String.eqb tag) tags = false).
  { intros tag tags Hn. destruct (existsb (String.eqb tag) tags) eqn:E;
      [|reflexivity].
    apply existsb_exists in E. destruct E as (x & Hx & Heq).
    apply String.eqb_eq in Heq. subst x. contradiction. }
  rewrite (Hfresh _ _ Hneg), (Hfresh _ _ Hpos). cbn [negb].
  rewrite !andb_true_r. split.
  - destruct (existsb _ negative_keywords).
    + split; [reflexivity | intros _; apply in_or_app; right; now left].
    + split; [contradiction | discriminate].
  - destruct (existsb _ positive_keywords).
    + split; [reflexivity | intros _; apply in_or_app; right; now left].
    + split; [contradiction | discriminate].
Qed.

(** The sentiment of an analysis is always one of the three keys of the
    distribution. *)
Lemma analyze_feedback_sentiment_key feedback_data :
  sentiment (_analyze_feedback feedback_data) = "positive"
  \/ sentiment (_analyze_feedback feedback_data) = "neutral"
  \/ sentiment (_analyze_feedback feedback_data) = "negative".
Proof.
  unfold _analyze_feedback.
  destruct (analyze_body feedback_data) as [a|] eqn:E; [|right; left; reflexivity].
  unfold analyze_body in E.
  destruct (cmp float_le (VInt 4) _) as [high|]; [|discriminate]. cbn [bind] in E.
  assert (Hs : forall s : string,
    (s = "positive" \/ s = "neutral" \/ s = "negative") ->
    (tagged <-
       match type_tags (get_or feedback_data "feedback_type" (VStr EmptyString)) with
       | Some (improve, strong) =>
           low <- cmp float_le (get_or feedback_data "rating" (VInt 0)) (VInt 3) ;;
           Ok (if low then ([improve], []) else ([], [strong]))
       | None => Ok ([], [])
       end ;;
     if truthy (get_or feedback_data "comment" (VStr EmptyString)) then
       areas <- scan negative_keywords
                  (get_or feedback_data "comment" (VStr EmptyString))
                  "개선 필요" (fst tagged) ;;
       strong <- scan positive_keywords
                   (get_or feedback_data "comment" (VStr EmptyString))
                   "전반적으로 만족" (snd tagged) ;;
       Ok {| sentiment := s; improvement_areas := areas; strengths := strong |}
     else
       Ok {| sentiment := s; improvement_areas := fst tagged;
             strengths := snd tagged |}) = Ok a ->
    sentiment a = "positive" \/ sentiment a = "neutral"
    \/ sentiment a = "negative").
  { intros s Hs.
    destruct (match type_tags _ with Some _ => _ | None => _ end) as [tagged|];
      [|discriminate]. cbn [bind].
    destruct (truthy _).
    - destruct (scan negative_keywords _ _ _); [|discriminate]. cbn [bind].
      destruct (scan positive_keywords _ _ _); [|discriminate]. cbn [bind].
      intros [= <-]. exact Hs.
    - intros [= <-]. exact Hs. }
  destruct high; cbn [bind] in E.
  - apply (Hs "positive"); [auto | exact E].
  - destruct (cmp float_le _ (VInt 2)) as [low|]; [|discriminate].
    cbn [bind] in E. destruct low.
    + apply (Hs "negative"); [auto | exact E].
    + apply (Hs "neutral"); [auto | exact E].
Qed.

(** One event over an aggregate that counts no less than zero events and
    has the three sentiment counters. *)
Lemma fed_back_step now m feedback_data x p u n :
  number_of (get_or feedback_data "rating" (VInt 0)) = Some x ->
  0 <= total_feedback_count m ->
  sentiment_distribution m !! "positive" = Some p ->
  sentiment_distribution m !! "neutral" = Some u ->
  sentiment_distribution m !! "negative" = Some n ->
  exists m' p' u' n',
    fed_back now m feedback_data = Ok m'
    /\ total_feedback_count m' = total_feedback_count m + 1
    /\ sentiment_distribution m' !! "positive" = Some p'
    /\ sentiment_distribution m' !! "neutral" = Some u'
    /\ sentiment_distribution m' !! "negative" = Some n'
    /\ p' + u' + n' = p + u + n + 1.
Proof.
  intros Hx Hcount Hp Hu Hn. unfold fed_back, updated_metrics, as_number.
  rewrite Hx. cbn [bind].
  destruct (total_feedback_count m + 1 =? 0) eqn:Hz;
    [apply Z.eqb_eq in Hz; lia |]. cbn [bind].
  destruct (analyze_feedback_sentiment_key feedback_data) as [-> | [-> | ->]].
  - rewrite Hp. cbn [bind]. eexists. exists (p + 1), u, n.
    split; [reflexivity |]. cbn [total_feedback_count sentiment_distribution].
    split; [reflexivity |].
    rewrite lookup_insert_eq, !lookup_insert_ne by discriminate.
    repeat split; try assumption. lia.
  - rewrite Hu. cbn [bind]. eexists. exists p, (u + 1), n.
    split; [reflexivity |]. cbn [total_feedback_count sentiment_distribution].
    split; [reflexivity |].
    rewrite lookup_insert_eq, !lookup_insert_ne by discriminate.
    repeat split; try assumption. lia.
  - rewrite Hn. cbn [bind]. eexists. exists p, u, (n + 1).
    split; [reflexivity |]. cbn [total_feedback_count sentiment_distribution].
    split; [reflexivity |].
    rewrite lookup_insert_eq, !lookup_insert_ne by discriminate.
    repeat split; try assumption. lia.
Qed.

Lemma feed_invariant now events m p u n :
  Forall (fun feedback_data =>
            is_Some (number_of (get_or feedback_data "rating" (VInt 0)))) events ->
  0 <= total_feedback_count m ->
  sentiment_distribution m !! "positive" = Some p ->
  sentiment_distribution m !! "neutral" = Some u ->
  sentiment_distribution m !! "negative" = Some n ->
  exists m' p' u' n',
    feed now m events = Ok m'
    /\ total_feedback_count m'
       = total_feedback_count m + Z.of_nat (length events)
    /\ sentiment_distribution m' !! "positive" = Some p'
    /\ sentiment_distribution m' !! "neutral" = Some u'
    /\ sentiment_distribution m' !! "negative" = Some n'
    /\ p' + u' + n' = p + u + n + Z.of_nat (length events).
Proof.
  intros Hall. revert m p u n.
  induction Hall as [|feedback_data rest [x Hx] Hrest IH];
    intros m p u n Hcount Hp Hu Hn.
  - exists m, p, u, n. cbn [feed length].
    repeat split; try assumption; lia.
  - destruct (fed_back_step now m feedback_data x p u n Hx Hcount Hp Hu Hn)
      as (m1 & p1 & u1 & n1 & Hfed & Hc1 & Hp1 & Hu1 & Hn1 & Hsum1).
    destruct (IH m1 p1 u1 n1 ltac:(lia) Hp1 Hu1 Hn1)
      as (m' & p' & u' & n' & Hfeed & Hc' & Hp' & Hu' & Hn' & Hsum').
    exists m', p', u', n'. cbn [feed]. rewrite Hfed. cbn [bind].
    split; [exact Hfeed |]. split; [cbn [length]; lia |].
    repeat split; try assumption. cbn [length]. lia.
Qed.

Lemma float_safe_number v : float_safe v = true -> is_Some (number_of v).
Proof. destruct v; try discriminate; intros _; eexists; reflexivity. Qed.

(** X20.  A run of feedback events whose ratings are floats (NaN and
    the infinities among them), bools or integers that a double holds
    exactly, each update starting from the aggregate the previous one
    computed and the first from the zero aggregate, never fails; the
    final count is the number of events, and every event is counted
    under exactly one sentiment: the three counters of the distribution
    add up to the number of events. *)
Theorem feed_counts_every_event now events :
  Forall (fun feedback_data =>
            float_safe (get_or feedback_data "rating" (VInt 0)) = true) events ->
  exists m,
    feed now (initial_metrics now) events = Ok m
    /\ total_feedback_count m = Z.of_nat (length events)
    /\ counter (sentiment_distribution m) "positive"
       + counter (sentiment_distribution m) "neutral"
       + counter (sentiment_distribution m) "negative"
       = Z.of_nat (length events).
Proof.
  intros Hsafe.
  assert (Hall : Forall (fun feedback_data =>
            is_Some (number_of (get_or feedback_data "rating" (VInt 0)))) events).
  { induction Hsafe as [|d rest Hd _ IH]; constructor; [| exact IH].
    now apply float_safe_number. }
  destruct (feed_invariant now events (initial_metrics now) 0 0 0 Hall)
    as (m & p & u & n & Hfeed & Hcount & Hp & Hu & Hn & Hsum);
    try reflexivity.
  exists m. split; [exact Hfeed |]. cbn [initial_metrics total_feedback_count] in *.
  split; [lia |].
  unfold counter. rewrite Hp, Hu, Hn. cbn [default from_option id]. lia.
Qed.

(** X21.  [get_feedback] finds nothing, whatever the database holds and
    whatever the id.  [find_data] answers [[]] for every table: for an
    undeclared one [if not table] returns early, for a declared one the
    truth test of the [Table] raises [TypeError] inside the [try].  So
    [find_one] answers [None], and [get_feedback] passes that on. *)
Theorem get_feedback_finds_nothing db :
  (forall collection query, find_data db collection query = [])
  /\ (forall collection query, find_one db collection query = None)
  /\ (forall feedback_id, get_feedback db feedback_id = None).
Proof.
  assert (Hfind : forall collection query, find_data db collection query = []).
  { intros collection query. unfold find_data, Database.find_data_rows,
      Database.table_truth.
    destruct (existsb _ Database.declared_tables); reflexivity. }
  assert (Hone : forall collection query, find_one db collection query = None).
  { intros collection query. unfold find_one. now rewrite Hfind. }
  split; [exact Hfind |]. split; [exact Hone |].
  intros feedback_id. apply Hone.
Qed.

(** X22.  [get_feedback_by_request] returns the empty list for every
    database and every request id: [DatabaseService] has no method
    [find], the lookup raises and the [except] branch answers. *)
Theorem get_feedback_by_request_always_empty db request_id :
  get_feedback_by_request db request_id = [].
Proof. reflexivity. Qed.

(** X23.  [store_interaction] never stores anything: its table
    [user_interactions] is not declared, so the database is unchanged
    whatever the SQL engine would accept.  Given a dict it still returns
    the interaction, stamped with [created_at]; given anything else it
    returns the failure dict. *)
Theorem store_interaction_never_persists now str_exn engine_accepts db
  interaction_data context :
  fst (store_interaction now str_exn engine_accepts db interaction_data context)
  = db
  /\ match interaction_data with
     | VDict data =>
         snd (store_interaction now str_exn engine_accepts db interaction_data
                context) !! "created_at" = Some (VStr now)
         /\ forall key, key <> "created_at" -> key <> "context" ->
              snd (store_interaction now str_exn engine_accepts db
                     interaction_data context) !! key = data !! key
     | _ =>
         snd (store_interaction now str_exn engine_accepts db interaction_data
                context) !! "status" = Some (VStr "failed")
     end.
Proof.
  unfold store_interaction. split.
  - destruct interaction_data; reflexivity.
  - destruct interaction_data; try reflexivity. cbn [Generation.as_mapping snd].
    destruct (truthy context); split;
      try (intros key H1 H2);
      rewrite ?(lookup_insert_ne _ "context") by congruence;
      rewrite ?lookup_insert_eq; rewrite ?lookup_insert_ne by congruence;
      reflexivity.
Qed.

(** X18 at a rating of 3 without a comment. *)
Lemma analyze_feedback_sentiment_cutoffs_witness :
  sentiment (_analyze_feedback (rated 3))
  = if Qle_bool 4 (inject_Z 3) then "positive"
    else if Qle_bool (inject_Z 3) 2 then "negative" else "neutral".
Proof.
  apply (analyze_feedback_sentiment_cutoffs (rated 3) (inject_Z 3)).
  - reflexivity.
  - left. reflexivity.
Defined.

(** X19 at a top rating whose comment reports an error. *)
Lemma analyze_feedback_keyword_tags_witness :
  (In "개선 필요" (improvement_areas (_analyze_feedback praised_with_error))
   <-> existsb (fun keyword => contains keyword "오류가 있음")
         negative_keywords = true)
  /\ (In "전반적으로 만족" (strengths (_analyze_feedback praised_with_error))
      <-> existsb (fun keyword => contains keyword "오류가 있음")
            positive_keywords = true).
Proof.
  apply (analyze_feedback_keyword_tags praised_with_error (inject_Z 5)
           "오류가 있음"); reflexivity.
Defined.

(** X20 at the ratings 5, NaN, 1. *)
Lemma feed_counts_every_event_witness :
  exists m,
    feed "t" (initial_metrics "t") mixed_ratings = Ok m
    /\ total_feedback_count m = Z.of_nat (length mixed_ratings)
    /\ counter (sentiment_distribution m) "positive"
       + counter (sentiment_distribution m) "neutral"
       + counter (sentiment_distribution m) "negative"
       = Z.of_nat (length mixed_ratings).
Proof.
  apply (feed_counts_every_event "t" mixed_ratings).
  repeat constructor.
Defined.

End LearningStoreProps.

(** ** In-memory learning protocol: states, suggestions and degraded analysis *)

Module AdaptiveStateProps.
Import AdaptiveLearning AdaptiveState.

Lemma float_between x (a b : Q) :
  float_le (Finite a) x = true -> float_le x (Finite b) = true ->
  exists q, x = Finite q /\ (a <= q <= b)%Q.
Proof.
  destruct x as [q | [] |]; cbn [float_le]; try discriminate.
  intros Ha Hb. exists q. split; [reflexivity |].
  split; now apply Qle_bool_iff.
Qed.

(** [min(max(rating, 1), 5)] returns for numbers only, and what it
    returns is NaN or lies between 1 and 5. *)
Lemma clamp_checked rating c :
  clamp rating = Ok c ->
  exists x, number_of c = Some x
            /\ (is_nan x = false ->
                float_le (Finite 1) x = true /\ float_le x (Finite 5) = true).
Proof.
  intros Hc. destruct (number_of rating) as [x|] eqn:Hx.
  - destruct (is_nan x) eqn:Hn.
    + destruct x; try discriminate.
      unfold clamp, max2, min2, cmp in Hc. rewrite Hx in Hc.
      cbn [number_of bind float_lt] in Hc. rewrite Hx in Hc.
      cbn [bind float_lt] in Hc. injection Hc as <-.
      exists NaN. split; [exact Hx | discriminate].
    + destruct (AdaptiveLearningProps.clamp_float rating x Hx Hn)
        as (c' & x' & Hc' & Hx' & Hlo & Hhi & _).
      rewrite Hc' in Hc. injection Hc as <-. exists x'. auto.
  - unfold clamp, max2, cmp in Hc. cbn [number_of] in Hc. rewrite Hx in Hc.
    discriminate.
Qed.

Lemma add_numeric a b x y :
  number_of a = Some (Finite x) -> number_of b = Some (Finite y) ->
  exists t, add a b = Ok t /\ number_of t = Some (Finite (x + y)%Q).
Proof.
  intros Ha Hb. unfold add.
  destruct a; try discriminate; destruct b; try discriminate;
    cbn [number_of] in *; injection Ha as Ha; injection Hb as Hb; subst;
    eexists; (split; [reflexivity |]); cbn [number_of float_add];
    rewrite ?inject_Z_plus; reflexivity.
Qed.

Lemma sum_from_bounds xs acc qa :
  number_of acc = Some (Finite qa) ->
  Forall (fun v => exists q, number_of v = Some (Finite q) /\ (1 <= q <= 5)%Q) xs ->
  exists t qt,
    sum_from acc xs = Ok t /\ number_of t = Some (Finite qt)
    /\ (qa + inject_Z (Z.of_nat (length xs)) <= qt)%Q
    /\ (qt <= qa + 5 * inject_Z (Z.of_nat (length xs)))%Q.
Proof.
  intros Hacc Hall. revert acc qa Hacc.
  induction Hall as [|v xs (q & Hq & Hlo & Hhi) Hrest IH]; intros acc qa Hacc.
  - exists acc, qa. cbn [sum_from length Z.of_nat].
    split; [reflexivity |]. split; [exact Hacc |].
    split; [rewrite Qplus_0_r; apply Qle_refl |].
    rewrite Qmult_0_r, Qplus_0_r. apply Qle_refl.
  - destruct (add_numeric acc v qa q Hacc Hq) as (t1 & Hadd & Ht1).
    destruct (IH t1 (qa + q)%Q Ht1) as (t & qt & Hsum & Ht & Hlow & Hhigh).
    exists t, qt. cbn [sum_from]. rewrite Hadd. cbn [bind].
    split; [exact Hsum |]. split; [exact Ht |].
    cbn [length]. rewrite Nat2Z.inj_succ. unfold Z.succ. rewrite inject_Z_plus.
    split.
    + eapply Qle_trans; [| exact Hlow].
      setoid_replace (qa + (inject_Z (Z.of_nat (length xs)) + inject_Z 1))%Q
        with ((qa + 1) + inject_Z (Z.of_nat (length xs)))%Q
        using relation Qeq by ring.
      apply Qplus_le_compat; [| apply Qle_refl].
      apply Qplus_le_compat; [apply Qle_refl | exact Hlo].
    + eapply Qle_trans; [exact Hhigh |].
      setoid_replace (qa + 5 * (inject_Z (Z.of_nat (length xs)) + inject_Z 1))%Q
        with ((qa + 5) + 5 * inject_Z (Z.of_nat (length xs)))%Q
        using relation Qeq by ring.
      apply Qplus_le_compat; [| apply Qle_refl].
      apply Qplus_le_compat; [apply Qle_refl | exact Hhi].
Qed.

Lemma rated_history (history : list dict) :
  Forall (fun f : dict => exists c q, f !! "rating" = Some c
                                      /\ number_of c = Some (Finite q)
                                      /\ (1 <= q <= 5)%Q) history ->
  Forall (fun v => exists q, number_of v = Some (Finite q) /\ (1 <= q <= 5)%Q)
    (map (fun f : dict => get_or f "rating" (VInt 0))
         (filter (fun f : dict => has_key "rating" f) history))
  /\ length (map (fun f : dict => get_or f "rating" (VInt 0))
                 (filter (fun f : dict => has_key "rating" f) history))
     = length history.
Proof.
  induction 1 as [|f history (c & q & Hc & Hq & Hrange) Hrest [IH1 IH2]].
  - split; [constructor | reflexivity].
  - rewrite filter_cons_True by (unfold has_key; now rewrite Hc).
    cbn [map length]. split; [| now rewrite IH2].
    constructor; [| exact IH1].
    exists q. unfold get_or. rewrite Hc. auto.
Qed.

(** A history of ratings that are NaN or within [1,5], none of them NaN. *)
Lemma checked_without_nan (history : list dict) :
  Forall (fun f : dict =>
            exists c x, f !! "rating" = Some c /\ number_of c = Some x
                        /\ (is_nan x = false ->
                            float_le (Finite 1) x = true
                            /\ float_le x (Finite 5) = true)) history ->
  Forall (fun f : dict => number_of (get f "rating") <> Some NaN) history ->
  Forall (fun f : dict => exists c q, f !! "rating" = Some c
                                      /\ number_of c = Some (Finite q)
                                      /\ (1 <= q <= 5)%Q) history.
Proof.
  induction 1 as [|f history (c & x & Hc & Hx & Hrange) Hrest IH];
    intros Hnan; [constructor |].
  inversion Hnan as [|? ? Hf Hothers]; subst.
  constructor; [| now apply IH].
  assert (Hn : is_nan x = false).
  { destruct x; try reflexivity. exfalso. apply Hf.
    unfold get, get_or. now rewrite Hc. }
  destruct (Hrange Hn) as [Hlo Hhi].
  destruct (float_between x 1 5 Hlo Hhi) as (q & -> & Hq).
  exists c, q. auto.
Qed.

Section Facts.

Variable now : string.
Variable now_compact : string.
Variable json_loads : string -> res value.
Variable generate_text : llm_request -> res string.

Abbreviation _validate_feedback := (_validate_feedback now now_compact).
Abbreviation process_feedback :=
  (process_feedback now now_compact json_loads generate_text).
Abbreviation _analyze_feedback := (_analyze_feedback json_loads generate_text).
Abbreviation _analyze_general_feedback :=
  (_analyze_general_feedback json_loads generate_text).
Abbreviation _generate_improvement_suggestion :=
  (_generate_improvement_suggestion now now_compact json_loads generate_text).

(** A validated record has its id, its timestamp and a rating that is
    NaN or within [1,5]. *)
Lemma validated_fields feedback validated :
  _validate_feedback feedback = Ok validated ->
  (exists i, validated !! "id" = Some i)
  /\ (exists t, validated !! "timestamp" = Some t)
  /\ (exists c x, validated !! "rating" = Some c /\ number_of c = Some x
                  /\ (is_nan x = false ->
                      float_le (Finite 1) x = true
                      /\ float_le x (Finite 5) = true)).
Proof.
  unfold AdaptiveLearning._validate_feedback.
  destruct (clamp _) as [c|] eqn:Hc; [|discriminate]. cbn [bind].
  intros [= <-].
  destruct (clamp_checked _ c Hc) as (x & Hx & Hrange).
  repeat split.
  - eexists. rewrite lookup_insert_ne by discriminate.
    rewrite !AdaptiveLearningProps.copy_if_present_other by discriminate.
    rewrite !lookup_insert_ne by discriminate. apply lookup_insert_eq.
  - eexists. apply lookup_insert_eq.
  - exists c, x. split; [| split; assumption].
    rewrite lookup_insert_ne by discriminate.
    rewrite !AdaptiveLearningProps.copy_if_present_other by discriminate.
    apply lookup_insert_eq.
Qed.

(** After validation the remaining steps of [process_feedback] leave the
    history and the metadata as [_store_feedback] set them. *)
Lemma process_feedback_state self feedback context validated :
  _validate_feedback feedback = Ok validated ->
  feedback_history (fst (process_feedback self feedback context))
  = feedback_history (fst (_store_feedback self validated))
  /\ metadata (fst (process_feedback self feedback context))
     = metadata (fst (_store_feedback self validated)).
Proof.
  intros Hv. unfold AdaptiveLearning.process_feedback. rewrite Hv.
  destruct (_store_feedback self validated) as [self' [[]|e]]; cbn [fst];
    [|split; reflexivity].
  destruct (_analyze_feedback validated context); cbn [fst];
    [|split; reflexivity].
  destruct (cmp _ _ _) as [[|]|]; cbn [fst]; try (split; reflexivity).
  destruct (_generate_improvement_suggestion _ _ _); cbn [fst];
    split; reflexivity.
Qed.

(** Storing a record with a rating in [1,5] on a history of such records
    sets the average rating to a number in [1,5]. *)
Lemma store_feedback_average self feedback :
  Forall (fun f : dict => exists c q, f !! "rating" = Some c
                                      /\ number_of c = Some (Finite q)
                                      /\ (1 <= q <= 5)%Q)
         (feedback_history self ++ [feedback]) ->
  (exists i, feedback !! "id" = Some i) ->
  (exists t, feedback !! "timestamp" = Some t) ->
  exists a,
    metadata (fst (_store_feedback self feedback)) !! "average_rating"
    = Some (VFloat (Finite a))
    /\ (1 <= a <= 5)%Q.
Proof.
  intros Hall [i Hi] [t Ht].
  assert (Hr : exists c, feedback !! "rating" = Some c).
  { apply Forall_app in Hall. destruct Hall as [_ Hlast].
    inversion Hlast as [|? ? (c & q & Hc & _) _]; subst. eauto. }
  destruct Hr as [c Hc].
  unfold _store_feedback. cbv zeta. cbn [item]. rewrite Hi, Ht, Hc. cbn [bind].
  destruct (rated_history _ Hall) as [Hnum Hlen].
  set (ratings := map (fun f : dict => get_or f "rating" (VInt 0))
                      (filter (fun f : dict => has_key "rating" f)
                              (feedback_history self ++ [feedback]))) in *.
  clearbody ratings.
  assert (Hpos : (0 < length ratings)%nat).
  { rewrite Hlen, length_app. cbn. lia. }
  destruct (sum_from_bounds ratings (VInt 0) 0%Q eq_refl Hnum)
    as (total & qt & Hsum & Htotal & Hlow & Hhigh).
  assert (Hn : (0 < inject_Z (Z.of_nat (length ratings)))%Q).
  { rewrite <- (Zlt_Qlt 0). lia. }
  destruct ratings as [|r0 rest]; [cbn in Hpos; lia |].
  rewrite Hsum. cbn [bind]. unfold truediv. rewrite Htotal.
  destruct (Z.of_nat (length (r0 :: rest)) =? 0) eqn:Hz;
    [apply Z.eqb_eq in Hz; cbn [length] in Hz; lia |].
  cbn [fst metadata float_div]. eexists.
  split; [apply lookup_insert_eq |].
  rewrite Qplus_0_l in Hlow, Hhigh. split.
  - apply Qle_shift_div_l; [exact Hn |]. now rewrite Qmult_1_l.
  - apply Qle_shift_div_r; [exact Hn | exact Hhigh].
Qed.

(** X24.  The general analysis of a feedback with a text lets the text
    analysis decide: when the LLM call fails, or answers with text that
    is not JSON, the combined sentiment is [unknown] although the rating
    is known, and the confidence is the mean 0.6 of the rating's 0.9 and
    the failure's 0.3. *)
Theorem general_feedback_degrades_to_unknown feedback context rating q :
  feedback !! "rating" = Some rating ->
  num rating = Some q ->
  truthy (get feedback "content") = true ->
  ((exists e,
      generate_text (json_request
        (FeedbackAnalysisPrompt (get_or feedback "content" (VStr EmptyString))))
      = Raise e)
   \/ (exists response e,
         generate_text (json_request
           (FeedbackAnalysisPrompt (get_or feedback "content" (VStr EmptyString))))
         = Ok response
         /\ json_loads response = Raise e)) ->
  exists analysis (c : Q),
    _analyze_general_feedback feedback context = Ok analysis
    /\ analysis !! "sentiment" = Some (VStr "unknown")
    /\ analysis !! "confidence" = Some (VFloat c)
    /\ (c == 6 # 10)%Q.
Proof.
  intros Hrating Hq Hcontent Hfail.
  assert (Hget : get_or feedback "content" (VStr EmptyString)
                 = get feedback "content").
  { unfold get, get_or in *. destruct (feedback !! "content"); [reflexivity |].
    discriminate. }
  assert (Htext : _analyze_text_feedback json_loads generate_text feedback context
                  = failed_text_analysis).
  { unfold _analyze_text_feedback. rewrite Hget, Hcontent. cbn [negb].
    rewrite <- Hget.
    destruct Hfail as [[e ->] | (response & e & -> & ->)]; reflexivity. }
  unfold AdaptiveLearning._analyze_general_feedback. rewrite Hcontent, Htext.
  unfold _analyze_rating. cbn [item]. rewrite Hrating. cbn [bind].
  unfold cmp. rewrite (PyProps.num_number_of _ _ Hq).
  cbn [number_of bind float_le].
  destruct (Qle_bool (inject_Z 4) q); cbn [bind];
    [| destruct (Qle_bool (inject_Z 3) q); cbn [bind]];
    (eexists; eexists; split; [reflexivity |];
     split; [reflexivity |]; split; [reflexivity |]; reflexivity).
Qed.

(** Every branch of [_generate_improvement_suggestion] returns an open
    suggestion for the feedback it was given. *)
Lemma suggestion_shape feedback analysis context d :
  _generate_improvement_suggestion feedback analysis context = Ok d ->
  d !! "implemented" = Some (VBool false)
  /\ d !! "feedback_id" = Some (get feedback "id").
Proof.
  unfold AdaptiveLearning._generate_improvement_suggestion.
  destruct (aspect_names analysis) as [names|]; [|discriminate]. cbn [bind].
  assert (Hitem : forall a s p d,
    (i <- item (VDict feedback) "id" ;; Ok (suggestion now now_compact i a s p))
    = Ok d ->
    d !! "implemented" = Some (VBool false)
    /\ d !! "feedback_id" = Some (get feedback "id")).
  { intros a s p d0. cbn [item]. unfold get, get_or.
    destruct (feedback !! "id") as [i|]; [|discriminate]. cbn [bind default].
    intros [= <-]. split; reflexivity. }
  destruct (generate_text _) as [suggestion_result|]; [| apply Hitem].
  destruct (json_loads suggestion_result) as [parsed|e].
  - destruct (bind (item (VDict feedback) "id") _) as [d0|] eqn:Hd.
    + intros [= <-]. cbn [item] in Hd. unfold get, get_or.
      destruct (feedback !! "id") as [i|]; [|discriminate]. cbn [bind] in Hd.
      destruct (obj_get parsed "area" _) as [a|]; [|discriminate].
      cbn [bind] in Hd.
      destruct (obj_get parsed "suggestion" _) as [s|]; [|discriminate].
      cbn [bind] in Hd.
      destruct (obj_get parsed "priority" _) as [p|]; [|discriminate].
      cbn [bind] in Hd. injection Hd as <-. split; reflexivity.
    + apply Hitem.
  - destruct e; try apply Hitem.
    destruct (item (VDict feedback) "id") as [i|] eqn:Hi; [| apply Hitem].
    intros [= <-]. cbn [item] in Hi. unfold get, get_or.
    destruct (feedback !! "id") as [i'|]; [|discriminate].
    injection Hi as ->. split; reflexivity.
Qed.

(** X25.  A call of [process_feedback] that returns adds exactly one
    suggestion when the submitted rating (5 when absent) is below 4, and
    none otherwise; the suggestion added is open ([implemented] is false)
    and refers to the processed feedback. *)
Theorem process_feedback_suggests_on_low_rating self feedback context result q :
  num (get_or feedback "rating" (VInt 5)) = Some q ->
  snd (process_feedback self feedback context) = Ok result ->
  if Qlt_bool q 4
  then exists s,
         improvement_suggestions (fst (process_feedback self feedback context))
         = improvement_suggestions self ++ [s]
         /\ s !! "implemented" = Some (VBool false)
         /\ s !! "feedback_id" = Some (get result "feedback_id")
  else improvement_suggestions (fst (process_feedback self feedback context))
       = improvement_suggestions self.
Proof.
  intros Hq. unfold AdaptiveLearning.process_feedback.
  destruct (_validate_feedback feedback) as [validated|]; [|discriminate].
  destruct (AdaptiveLearningProps.store_feedback_state self validated)
    as [_ Hsugg].
  destruct (_store_feedback self validated) as [self' [[]|e]]; cbn [fst snd] in *;
    [|discriminate].
  destruct (_analyze_feedback validated context) as [a|]; cbn [snd];
    [|discriminate].
  unfold cmp. rewrite (PyProps.num_number_of _ _ Hq).
  cbn [number_of float_lt]. change (inject_Z 4) with 4%Q.
  destruct (Qlt_bool q 4).
  - destruct (_generate_improvement_suggestion validated a context) as [d|] eqn:Hd;
      cbn [fst snd]; [|discriminate].
    intros [= <-]. exists d. cbn [add_suggestion improvement_suggestions].
    rewrite Hsugg. split; [reflexivity |].
    destruct (suggestion_shape validated a context d Hd) as [Himpl Hid].
    split; [exact Himpl |]. rewrite Hid. reflexivity.
  - cbn [fst snd]. intros _. exact Hsugg.
Qed.

End Facts.

Lemma mark_none now suggestions suggestion_id :
  mark now suggestions suggestion_id = None ->
  Forall (fun s : dict => eq_str (get s "id") suggestion_id = false) suggestions.
Proof.
  induction suggestions as [|s rest IH]; [constructor |].
  cbn [mark]. destruct (eq_str (get s "id") suggestion_id) eqn:Hs; [discriminate |].
  destruct (mark now rest suggestion_id); [discriminate |].
  intros _. constructor; [exact Hs | now apply IH].
Qed.

Lemma mark_some now suggestions suggestion_id marked :
  mark now suggestions suggestion_id = Some marked ->
  exists before s after,
    suggestions = before ++ s :: after
    /\ Forall (fun s : dict => eq_str (get s "id") suggestion_id = false) before
    /\ eq_str (get s "id") suggestion_id = true
    /\ marked = before ++ <["implementation_date" := VStr now]>
                            (<["implemented" := VBool true]> s) :: after.
Proof.
  revert marked. induction suggestions as [|s rest IH]; intros marked;
    [discriminate |].
  cbn [mark]. destruct (eq_str (get s "id") suggestion_id) eqn:Hs.
  - intros [= <-]. exists [], s, rest. repeat split; [constructor | exact Hs].
  - destruct (mark now rest suggestion_id) as [marked'|]; [|discriminate].
    intros [= <-].
    destruct (IH marked' eq_refl) as (before & s' & after & -> & Hb & Hs' & ->).
    exists (s :: before), s', after.
    repeat split; [constructor; assumption | exact Hs'].
Qed.

(** X26.  [mark_suggestion_implemented] answers [False] exactly when no
    suggestion carries the id, and then changes nothing.  Otherwise it
    marks the first suggestion with that id, and only that one: the
    suggestions before and after it, the history and the metadata are
    untouched, and the marked suggestion is among those
    [get_improvement_suggestions(implemented_only=True)] returns. *)
Theorem mark_suggestion_implemented_marks_first now self suggestion_id :
  let self' := fst (mark_suggestion_implemented now self suggestion_id) in
  feedback_history self' = feedback_history self
  /\ metadata self' = metadata self
  /\ if snd (mark_suggestion_implemented now self suggestion_id)
     then exists before s after,
            improvement_suggestions self = before ++ s :: after
            /\ Forall (fun s : dict => eq_str (get s "id") suggestion_id = false)
                      before
            /\ eq_str (get s "id") suggestion_id = true
            /\ improvement_suggestions self'
               = before ++ <["implementation_date" := VStr now]>
                             (<["implemented" := VBool true]> s) :: after
            /\ In (<["implementation_date" := VStr now]>
                     (<["implemented" := VBool true]> s))
                  (get_improvement_suggestions self' true)
     else self' = self
          /\ Forall (fun s : dict => eq_str (get s "id") suggestion_id = false)
                    (improvement_suggestions self).
Proof.
  intros self'. subst self'. unfold mark_suggestion_implemented.
  destruct (mark now (improvement_suggestions self) suggestion_id) as [marked|]
    eqn:Hmark; cbn [fst snd feedback_history metadata improvement_suggestions].
  - split; [reflexivity |]. split; [reflexivity |].
    destruct (mark_some now _ _ marked Hmark)
      as (before & s & after & Hsplit & Hbefore & Hs & ->).
    exists before, s, after. repeat split; try assumption.
    unfold get_improvement_suggestions. cbn [improvement_suggestions].
    apply filter_In. split; [apply in_or_app; right; now left |].
    unfold get_or. rewrite lookup_insert_ne by discriminate.
    now rewrite lookup_insert_eq.
  - split; [reflexivity |]. split; [reflexivity |].
    split; [reflexivity | now apply (mark_none now)].
Qed.

(** X27.  On every instance the program can hold, every feedback in the
    history carries a rating that is a number, and that number is NaN or
    lies between 1 and 5: an infinity is clamped, NaN passes through
    [min(max(rating, 1), 5)].  When the history is not empty and holds
    no NaN rating, the metadata holds an average rating between 1 and
    5. *)
Theorem reachable_ratings_in_range self :
  reachable self ->
  Forall (fun f : dict =>
            exists c x, f !! "rating" = Some c /\ number_of c = Some x
                        /\ (is_nan x = false ->
                            float_le (Finite 1) x = true
                            /\ float_le x (Finite 5) = true))
         (feedback_history self)
  /\ (feedback_history self <> [] ->
      Forall (fun f : dict => number_of (get f "rating") <> Some NaN)
             (feedback_history self) ->
      exists a : Q,
        metadata self !! "average_rating" = Some (VFloat a)
        /\ (1 <= a <= 5)%Q).
Proof.
  induction 1 as [|now now_compact json_loads generate_text self feedback context
                   Hreach [IHh IHm]
                  |now self suggestion_id Hreach [IHh IHm]].
  - split; [constructor | intros H; now destruct H].
  - destruct (AdaptiveLearning._validate_feedback now now_compact feedback)
      as [validated|e] eqn:Hv.
    + destruct (process_feedback_state now now_compact json_loads generate_text
                  self feedback context validated Hv) as [-> ->].
      destruct (validated_fields now now_compact feedback validated Hv)
        as (Hid & Hts & Hrating).
      destruct (AdaptiveLearningProps.store_feedback_state self validated)
        as [-> _].
      assert (Hall : Forall (fun f : dict =>
                exists c x, f !! "rating" = Some c /\ number_of c = Some x
                            /\ (is_nan x = false ->
                                float_le (Finite 1) x = true
                                /\ float_le x (Finite 5) = true))
                (feedback_history self ++ [validated])).
      { apply Forall_app. split; [exact IHh |]. constructor; [exact Hrating |].
        constructor. }
      split; [exact Hall |]. intros _ Hnan.
      apply store_feedback_average; try assumption.
      now apply checked_without_nan.
    + unfold AdaptiveLearning.process_feedback. rewrite Hv. cbn [fst].
      split; assumption.
  - unfold mark_suggestion_implemented.
    destruct (mark now (improvement_suggestions self) suggestion_id);
      cbn [fst feedback_history metadata]; split; assumption.
Qed.

(** What learning.py says of a feedback that carries only a rating. *)
Lemma learning_rating_only (rating : value) x :
  number_of rating = Some x ->
  Learning.sentiment (Learning._analyze_feedback (rating_only rating))
  = if float_le (Finite 4) x then "positive"
    else if float_le x (Finite 2) then "negative" else "neutral".
Proof.
  intros Hx. unfold Learning._analyze_feedback, Learning.analyze_body, cmp.
  unfold get_or, rating_only.
  rewrite lookup_insert_eq, !lookup_insert_ne by discriminate.
  rewrite !lookup_empty. cbn [default id]. rewrite Hx. cbn [number_of bind].
  change (Finite (inject_Z 4)) with (Finite 4).
  change (Finite (inject_Z 2)) with (Finite 2).
  destruct (float_le (Finite 4) x); [reflexivity |].
  cbn [bind]. destruct (float_le x (Finite 2)); reflexivity.
Qed.

(** X28.  The two protocols classify a numeric rating alike except when
    it is NaN or lies strictly between 2 and 3: there learning.py says
    [neutral] where adaptive_learning.py says [negative]. *)
Theorem rating_classifiers_agree (rating : value) x :
  number_of rating = Some x ->
  exists analysis,
    _analyze_rating (rating_only rating) = Ok analysis
    /\ (analysis !! "sentiment"
        = Some (VStr (Learning.sentiment
                        (Learning._analyze_feedback (rating_only rating))))
        <-> is_nan x = false
            /\ ~ (float_lt (Finite 2) x = true /\ float_lt x (Finite 3) = true)).
Proof.
  intros Hx. rewrite (learning_rating_only rating x Hx).
  unfold _analyze_rating. cbn [item]. unfold rating_only at 1.
  rewrite lookup_insert_eq. cbn [bind]. unfold cmp. rewrite Hx.
  cbn [number_of bind].
  change (Finite (inject_Z 4)) with (Finite 4).
  change (Finite (inject_Z 3)) with (Finite 3).
  destruct x as [q | [] |].
  - cbn [float_le float_lt is_nan]. unfold Qlt_bool.
    destruct (Qle_bool 4 q) eqn:H4; cbn [bind].
    + eexists. split; [reflexivity |]. split; [| reflexivity].
      intros _. split; [reflexivity |]. intros [_ Hlt].
      assert (H3 : Qle_bool 3 q = true).
      { apply Qle_bool_iff. apply Qle_bool_iff in H4.
        eapply Qle_trans; [| exact H4]. discriminate. }
      rewrite H3 in Hlt. discriminate.
    + destruct (Qle_bool 3 q) eqn:H3; cbn [bind].
      * eexists. split; [reflexivity |].
        destruct (Qle_bool q 2) eqn:H2.
        -- apply Qle_bool_iff in H3, H2. exfalso.
           assert (H : (3 <= 2)%Q) by (eapply Qle_trans; eassumption).
           now apply H.
        -- split; [| reflexivity]. intros _. split; [reflexivity |].
           intros [_ Hlt]. discriminate.
      * eexists. split; [reflexivity |].
        destruct (Qle_bool q 2) eqn:H2.
        -- split; [| reflexivity]. intros _. split; [reflexivity |].
           intros [Hgt _]. discriminate.
        -- split; [discriminate |]. intros [_ Hn]. exfalso. apply Hn.
           split; reflexivity.
  - eexists. split; [reflexivity |]. split; [| reflexivity].
    intros _. split; [reflexivity |]. intros [_ Hlt]. discriminate.
  - eexists. split; [reflexivity |]. split; [| reflexivity].
    intros _. split; [reflexivity |]. intros [Hgt _]. discriminate.
  - eexists. split; [reflexivity |]. split; [discriminate |].
    intros [Hn _]. discriminate.
Qed.

(** X24 at a low-rated complaint and an LLM that is down. *)
Lemma general_feedback_degrades_to_unknown_witness :
  exists analysis (c : Q),
    _analyze_general_feedback no_loads no_llm complaint ∅ = Ok analysis
    /\ analysis !! "sentiment" = Some (VStr "unknown")
    /\ analysis !! "confidence" = Some (VFloat c)
    /\ (c == 6 # 10)%Q.
Proof.
  apply (general_feedback_degrades_to_unknown no_loads no_llm complaint ∅
           (VInt 2) (inject_Z 2)); try reflexivity.
  left. exists (BackendError "503"). reflexivity.
Defined.

(** X25 at the same complaint. *)
Lemma process_feedback_suggests_on_low_rating_witness :
  exists result,
    snd (process_feedback "t0" "20240101000000" no_loads no_llm fresh
           complaint ∅) = Ok result
    /\ if Qlt_bool (inject_Z 2) 4
       then exists s,
              improvement_suggestions
                (fst (process_feedback "t0" "20240101000000" no_loads no_llm fresh
                        complaint ∅))
              = improvement_suggestions fresh ++ [s]
              /\ s !! "implemented" = Some (VBool false)
              /\ s !! "feedback_id" = Some (get result "feedback_id")
       else improvement_suggestions
              (fst (process_feedback "t0" "20240101000000" no_loads no_llm fresh
                      complaint ∅))
            = improvement_suggestions fresh.
Proof.
  eexists. split; [reflexivity |].
  apply (process_feedback_suggests_on_low_rating "t0" "20240101000000" no_loads
           no_llm fresh complaint ∅ _ (inject_Z 2)); reflexivity.
Defined.

(** X27 at the instance after a feedback rated 9. *)
Lemma reachable_ratings_in_range_witness :
  Forall (fun f : dict =>
            exists c x, f !! "rating" = Some c /\ number_of c = Some x
                        /\ (is_nan x = false ->
                            float_le (Finite 1) x = true
                            /\ float_le x (Finite 5) = true))
         (feedback_history
            (fst (process_feedback "t0" "20240101000000" no_loads no_llm fresh
                    over_rated ∅)))
  /\ exists a : Q,
       metadata (fst (process_feedback "t0" "20240101000000" no_loads no_llm
                        fresh over_rated ∅)) !! "average_rating"
       = Some (VFloat a)
       /\ (1 <= a <= 5)%Q.
Proof.
  destruct (reachable_ratings_in_range
              (fst (process_feedback "t0" "20240101000000" no_loads no_llm fresh
                      over_rated ∅))) as [Hhistory Haverage].
  - apply reachable_process. apply reachable_fresh.
  - split; [exact Hhistory |]. apply Haverage.
    + vm_compute. discriminate.
    + vm_compute. constructor; [discriminate | constructor].
Defined.

(** X28 at the rating 2.5 and at NaN. *)
Lemma rating_classifiers_agree_witness :
  (exists analysis,
     _analyze_rating (rating_only (VFloat (5 # 2))) = Ok analysis
     /\ (analysis !! "sentiment"
         = Some (VStr (Learning.sentiment
                         (Learning._analyze_feedback
                            (rating_only (VFloat (5 # 2))))))
         <-> is_nan (Finite (5 # 2)) = false
             /\ ~ (float_lt (Finite 2) (Finite (5 # 2)) = true
                   /\ float_lt (Finite (5 # 2)) (Finite 3) = true)))
  /\ (exists analysis,
        _analyze_rating (rating_only (VFloat NaN)) = Ok analysis
        /\ (analysis !! "sentiment"
            = Some (VStr (Learning.sentiment
                            (Learning._analyze_feedback
                               (rating_only (VFloat NaN)))))
            <-> is_nan NaN = false
                /\ ~ (float_lt (Finite 2) NaN = true
                      /\ float_lt NaN (Finite 3) = true))).
Proof.
  split.
  - apply (rating_classifiers_agree (VFloat (5 # 2)) (Finite (5 # 2))).
    reflexivity.
  - apply (rating_classifiers_agree (VFloat NaN) NaN). reflexivity.
Defined.

End AdaptiveStateProps.

(** ** Endpoints *)

Module ApiProps.
Import Api.

Section Facts.

Variable str : raised -> string.
Variable uuid4 : nat -> string.
Variable now : string.
Variable engine_accepts : string -> dict -> bool.

(** X29.  [submit_feedback] answers a rating outside 1..5 with status
    500, not 400 (the [HTTPException] of the range check is raised inside
    the [try] and wrapped by its [except Exception]), and stores nothing.
    A rating inside the range is answered with [success] and the fresh
    id, whether or not the database stored the record: when the SQL
    engine rejects the insert the database is unchanged and the answer is
    the same. *)
Theorem submit_feedback_outcome db request :
  if (fr_rating request <? 1) || (5 <? fr_rating request)
  then submit_feedback str uuid4 now engine_accepts db request
       = (db, Raised (HTTPException 500
                        (str (HTTPException 400
                                "Rating must be between 1 and 5"))))
  else snd (submit_feedback str uuid4 now engine_accepts db request)
       = Return {| feedback_id := uuid4 0; status := "success";
                   timestamp := now |}
       /\ ((forall data, engine_accepts "feedback" data = false) ->
           fst (submit_feedback str uuid4 now engine_accepts db request) = db).
Proof.
  unfold submit_feedback.
  destruct ((fr_rating request <? 1) || (5 <? fr_rating request));
    [reflexivity |].
  split; [reflexivity |]. intros Hreject. cbn [fst].
  unfold Learning.store_feedback, Database.insert_data_row.
  destruct (Database.table_truth Learning.feedback_collection) as [[|]|];
    try reflexivity.
  unfold Learning.feedback_collection. now rewrite Hreject.
Qed.

Variable manage_context : list ChatMessage -> string -> dict.
Variable retrieve_knowledge : string -> dict -> dict.
Variable analyze : string -> dict -> dict -> option string -> dict.
Variable generate : string -> dict -> dict -> dict -> option dict -> option string
                    -> res string.
Variable format_response : string -> string -> dict -> option string -> string.
Variable get_sources : value.
Variable get_steps : value.

(** X30.  [chat] never returns a response.  Whatever the request and
    whatever the stages do, it raises an [HTTPException] with status 500:
    without a message of role [user] the 400 of the check is wrapped; with
    one, the argument [api_key] of the call of [analyze] is read before
    the local variable is assigned, and the [UnboundLocalError] is
    wrapped. *)
Theorem chat_always_fails request :
  chat str uuid4 now manage_context retrieve_knowledge analyze generate
       format_response get_sources get_steps request
  = Raised (HTTPException 500
              (str (match find (fun m => String.eqb (role m) "user")
                               (messages request) with
                    | None => HTTPException 400 "User message not found"
                    | Some _ => PyExn NameError
                    end))).
Proof.
  unfold chat, chat_body.
  destruct (find _ (messages request)); reflexivity.
Qed.

End Facts.

End ApiProps.
